(** * Verification of the ICT signal engine and the risk-managed backtester

    A shallow embedding of the Python sources
    [ict_strategy/ict_po3.py], [ict_strategy/ict_goldbach.py],
    [ict_strategy/ict_amd_cycles.py], [ict_strategy/ict_hippo.py],
    [ict_strategy/ict_strategy.py], [trading_core/risk_manager.py] and
    [trading_core/backtesting_engine.py].

    Numeric model.  Python floats are embedded as exact rationals [Q]; every
    comparison and every arithmetic operation is the exact one, so a
    result of the model and the float the interpreter computes can differ
    in the last places.  Statements over [Q] are therefore about the
    comparisons and quantities the code itself forms, not about equalities
    or thresholds that hold only without rounding.  The two places of the
    program whose behaviour depends on IEEE special values (the Sharpe
    ratio and the profit factor) use the explicit type [NpFloat.t], which
    adds the infinities and NaN to the rationals.  The capital of the risk
    manager, whose exact value is at stake, is modelled a second time over
    binary64 itself (module [Risk64]).
    Python integers are [Z]; [//] is [Z.div] (both floor), [int(x)] on a
    float is truncation towards zero.  Python strings are [string];
    dictionaries whose iteration order is observable (the open-position
    table, the per-symbol data) are association lists in insertion order. *)

From Stdlib Require Import ZArith QArith Qabs Qround List String Ascii Bool Lia Lqa Sorted.
From Stdlib Require Floats.
Import ListNotations.

Set Implicit Arguments.

(* ------------------------------------------------------------------ *)
(** ** Python numerics on rationals *)

Module PyNum.

Local Open Scope Q_scope.

Definition Qltb (a b : Q) : bool := negb (Qle_bool b a).

(** [int(x)] for a float [x]: truncation towards zero. *)
Definition py_int (q : Q) : Z := Z.quot (Qnum q) (Zpos (Qden q)).

(** [max(a, b)] and [min(a, b)] of Python: the first argument wins ties. *)
Definition py_max (a b : Q) : Q := if Qltb a b then b else a.
Definition py_min (a b : Q) : Q := if Qltb b a then b else a.

(** Rounding of a non-negative rational to the nearest integer, ties to
    even: the rounding [format] applies to the digits it prints. *)
Definition round_half_even (q : Q) : Z :=
  let n := Qnum q in
  let d := Zpos (Qden q) in
  let fl := (n / d)%Z in
  let r2 := (2 * (n mod d))%Z in
  if (r2 <? d)%Z then fl
  else if (d <? r2)%Z then (fl + 1)%Z
  else if Z.even fl then fl else (fl + 1)%Z.

End PyNum.

(* ------------------------------------------------------------------ *)
(** ** Python strings: decimal formatting and [int(str)] *)

Module PyStr.

Local Open Scope string_scope.
Local Open Scope Z_scope.

Definition digit_char (d : Z) : ascii :=
  ascii_of_nat (48 + Z.to_nat (d mod 10)).

Definition digit_val (c : ascii) : option Z :=
  let n := Z.of_nat (nat_of_ascii c) in
  if (48 <=? n) && (n <=? 57) then Some (n - 48) else None.

Definition is_digit (c : ascii) : bool :=
  match digit_val c with Some _ => true | None => false end.

Fixpoint digits_aux (fuel : nat) (n : Z) (acc : string) : string :=
  match fuel with
  | O => acc
  | S f =>
      let acc' := String (digit_char n) acc in
      if n / 10 =? 0 then acc' else digits_aux f (n / 10) acc'
  end.

(** [str(n)] for a non-negative integer. *)
Definition str_of_nonneg (n : Z) : string :=
  digits_aux (S (Z.to_nat (Z.log2 n))) n "".

Fixpoint zeros (k : nat) : string :=
  match k with O => "" | S k' => String "0" (zeros k') end.

(** Zero padding on the left to width 5. *)
Definition pad5 (n : Z) : string :=
  let s := str_of_nonneg n in
  zeros (5 - String.length s) ++ s.

(** [f"{q:.5f}"]. *)
Definition format_5f (q : Q) : string :=
  let n := PyNum.round_half_even (Qabs q * 100000)%Q in
  (if PyNum.Qltb q 0 then "-" else "")
    ++ str_of_nonneg (n / 100000) ++ "." ++ pad5 (n mod 100000).

(** [s.replace(c, '')]. *)
Fixpoint remove_char (c : ascii) (s : string) : string :=
  match s with
  | EmptyString => EmptyString
  | String a r =>
      if Ascii.eqb a c then remove_char c r else String a (remove_char c r)
  end.

(** [s[:k]]. *)
Fixpoint take (k : nat) (s : string) : string :=
  match k, s with
  | S k', String a r => String a (take k' r)
  | _, _ => EmptyString
  end.

Fixpoint parse_digits (s : string) (acc : Z) : option Z :=
  match s with
  | EmptyString => Some acc
  | String c r =>
      match digit_val c with
      | Some d => parse_digits r (10 * acc + d)
      | None => None
      end
  end.

(** [int(s)] on a string of an optional sign followed by decimal digits;
    [None] is Python's [ValueError]. *)
Definition py_int_of_str (s : string) : option Z :=
  match s with
  | EmptyString => None
  | String c r =>
      if Ascii.eqb c "-" then
        match r with
        | EmptyString => None
        | _ => option_map Z.opp (parse_digits r 0)
        end
      else if Ascii.eqb c "+" then
        match r with
        | EmptyString => None
        | _ => parse_digits r 0
        end
      else parse_digits s 0
  end.

(** [needle in s]. *)
Fixpoint contains (needle s : string) : bool :=
  if String.prefix needle s then true
  else match s with
       | EmptyString => false
       | String _ r => contains needle r
       end.

Fixpoint all_digits (s : string) : bool :=
  match s with
  | EmptyString => true
  | String c r => is_digit c && all_digits r
  end.

End PyStr.

(* ------------------------------------------------------------------ *)
(** ** Bars and data frames *)

Module Market.

Local Open Scope Z_scope.

(** One OHLCV row.  The index label is a timestamp in seconds. *)
Record Bar : Type := mkBar {
  timestamp : Z;
  open : Q;
  high : Q;
  low : Q;
  close : Q;
  volume : Q
}.

(** A [pd.DataFrame] of bars, in row order. *)
Definition DataFrame : Type := list Bar.

(** [index.date]: the day number, and [index.time]: seconds since midnight. *)
Definition date_of (ts : Z) : Z := ts / 86400.
Definition time_of (ts : Z) : Z := ts mod 86400.

(** [datetime.time(h, m)]. *)
Definition time (h m : Z) : Z := h * 3600 + m * 60.

(** [df.tail(n)]. *)
Definition tail (A : Type) (n : nat) (l : list A) : list A :=
  skipn (List.length l - n) l.

(** [df.iloc[-1]]; [None] is the [IndexError] of an empty frame. *)
Definition last_row (df : DataFrame) : option Bar :=
  match rev df with
  | [] => None
  | b :: _ => Some b
  end.

End Market.

(** Outcome of a Python call that may raise. *)
Inductive exn : Type :=
| KeyError | IndexError | ValueError | ZeroDivisionError | OverflowError.

Inductive outcome (A : Type) : Type :=
| Ok (a : A)
| Raised (e : exn).

Arguments Ok {A} a.
Arguments Raised {A} e.

(* ------------------------------------------------------------------ *)
(** ** [ict_po3.py]: Power-of-Three dealing ranges *)

Module PO3.

Local Open Scope string_scope.
Local Open Scope Q_scope.

Record DealingRange : Type := mkDealingRange {
  range_low : Q;
  range_high : Q;
  equilibrium : Q;
  premium_threshold : Q;
  discount_threshold : Q;
  po3_size : Z;
  current_price : Q
}.

(** [self.po3_numbers.values()], in insertion order. *)
Definition po3_numbers : list Z :=
  [3; 9; 27; 81; 243; 729; 2187; 6561; 19683; 59049; 177147]%Z.

(** [series.rolling(window=k)]: every run of [k] consecutive rows (the
    first [k - 1] positions are NaN and are dropped by [dropna]). *)
Fixpoint windows (A : Type) (k : nat) (l : list A) : list (list A) :=
  match l with
  | [] => []
  | _ :: t =>
      if (k <=? List.length l)%nat then firstn k l :: windows k t else []
  end.

Definition max_of (xs : list Q) : Q :=
  match xs with
  | [] => 0
  | x :: r => fold_left PyNum.py_max r x
  end.

Definition min_of (xs : list Q) : Q :=
  match xs with
  | [] => 0
  | x :: r => fold_left PyNum.py_min r x
  end.

Definition Qsum (xs : list Q) : Q := fold_left Qplus xs 0.

(** [series.mean()]; [None] is the NaN of an empty series. *)
Definition mean (xs : list Q) : option Q :=
  match xs with
  | [] => None
  | _ => Some (Qsum xs / inject_Z (Z.of_nat (List.length xs)))
  end.

(** The test on [str(data.index.name)] that selects the pip conversion. *)
Definition looks_forex (index_name : string) : bool :=
  PyStr.contains "USD" index_name
  || existsb (fun pair => PyStr.contains pair index_name) ["EUR"; "GBP"; "JPY"].

(** The loop that keeps the first PO3 number strictly closest to the
    average swing; every comparison with a NaN average is false. *)
Definition closest_po3 (avg_swing : option Q) : Z :=
  match avg_swing with
  | None => 27%Z
  | Some avg =>
      fst (fold_left
             (fun '(best_po3, min_diff) po3_value =>
                let diff := Qabs (avg - inject_Z po3_value) in
                let better :=
                  match min_diff with
                  | None => true
                  | Some m => PyNum.Qltb diff m
                  end in
                if better then (po3_value, Some diff) else (best_po3, min_diff))
             po3_numbers (27%Z, None))
  end.

(** [get_optimal_po3_size]; [index_name] is [str(data.index.name)]. *)
Definition get_optimal_po3_size (data : Market.DataFrame)
    (index_name : string) (lookback_periods : nat) : Z :=
  let lookback_periods :=
    if (List.length data <? lookback_periods)%nat
    then List.length data else lookback_periods in
  let recent_data := Market.tail lookback_periods data in
  let swings :=
    map (fun w => max_of (map Market.high w) - min_of (map Market.low w))
        (windows 5 recent_data) in
  let swings :=
    if looks_forex index_name then map (fun s => s * 10000) swings else swings in
  closest_po3 (mean swings).

(** [calculate_dealing_range].  [None] stands for the exception the Python
    raises: [ZeroDivisionError] of [//] when [po3_number] is 0, or
    [ValueError] of [int(...)].  [float(n)] is the integer [n] itself,
    which is what the interpreter returns up to 2^53. *)
Definition calculate_dealing_range (current_price : Q) (po3_number : Z)
    (asset_type : string) : option DealingRange :=
  let forex := String.eqb asset_type "forex" in
  let decimal_places := if forex then 5%Z else 0%Z in
  match (if forex
         then PyStr.py_int_of_str
                (PyStr.take 5 (PyStr.remove_char "." (PyStr.format_5f current_price)))
         else Some (PyNum.py_int current_price)) with
  | None => None
  | Some base_price =>
      if (po3_number =? 0)%Z then None else
      let range_low_int := (base_price / po3_number * po3_number)%Z in
      let range_high_int := (range_low_int + po3_number)%Z in
      let scale := inject_Z (10 ^ (decimal_places - 1)) in
      let range_low :=
        if forex then inject_Z range_low_int / scale else inject_Z range_low_int in
      let range_high :=
        if forex then inject_Z range_high_int / scale else inject_Z range_high_int in
      let equilibrium := (range_low + range_high) / 2 in
      let premium_threshold := range_low + inject_Z po3_number * (67 # 100) in
      let discount_threshold := range_low + inject_Z po3_number * (33 # 100) in
      let premium_threshold :=
        if forex then premium_threshold / scale else premium_threshold in
      let discount_threshold :=
        if forex then discount_threshold / scale else discount_threshold in
      Some (mkDealingRange range_low range_high equilibrium
              premium_threshold discount_threshold po3_number current_price)
  end.

(** The ordering the five levels of a dealing range are meant to have. *)
Definition levels_ordered (r : DealingRange) : Prop :=
  range_low r <= discount_threshold r /\
  discount_threshold r <= equilibrium r /\
  equilibrium r <= premium_threshold r /\
  premium_threshold r <= range_high r.


(** [po3_values.index(x)]; [None] is the [ValueError] of a missing value. *)
Fixpoint index_of (x : Z) (l : list Z) : option nat :=
  match l with
  | [] => None
  | y :: r => if (x =? y)%Z then Some O else option_map S (index_of x r)
  end.

(** [min(l, key=lambda x: abs(x - current))]: the first minimum. *)
Definition closest_value (current : Z) (l : list Z) : Z :=
  match l with
  | [] => 0%Z
  | x :: r =>
      fold_left
        (fun best y =>
           if (Z.abs (y - current) <? Z.abs (best - current))%Z then y else best)
        r x
  end.

(** [get_next_po3_level]. *)
Definition get_next_po3_level (current_po3 : Z) (direction : string) : Z :=
  let po3_values := po3_numbers in
  match index_of current_po3 po3_values with
  | Some current_index =>
      if String.eqb direction "up"
         && (current_index <? List.length po3_values - 1)%nat
      then nth (current_index + 1) po3_values 0%Z
      else if String.eqb direction "down" && (0 <? current_index)%nat
      then nth (current_index - 1) po3_values 0%Z
      else current_po3
  | None => closest_value current_po3 po3_values
  end.

(** The test of one row in [check_range_expansion]. *)
Definition outside_range (current_range : DealingRange) (row : Market.Bar)
    : bool :=
  PyNum.Qltb (range_high current_range) (Market.high row)
  || PyNum.Qltb (Market.low row) (range_low current_range).

(** [check_range_expansion]. *)
Definition check_range_expansion (data : Market.DataFrame)
    (current_range : DealingRange) (expansion_threshold : Q) : bool :=
  if (List.length data <? 10)%nat then false else
  let recent_data := Market.tail 10 data in
  let outside_count :=
    List.length (filter (outside_range current_range) recent_data) in
  let expansion_ratio :=
    inject_Z (Z.of_nat outside_count)
    / inject_Z (Z.of_nat (List.length recent_data)) in
  PyNum.Qltb expansion_threshold expansion_ratio.

Record StopRun : Type := mkStopRun {
  run_timestamp : Z;
  run_type : string;
  run_size : Q;
  run_po3_size : Z;
  price_level : Q
}.

(** The stop runs one bar contributes: for each of 9, 27, 81 and 243
    the upper wick, then the lower wick, when within 10 percent. *)
Definition wick_runs (index_name : string) (current : Market.Bar)
    : list StopRun :=
  let upper_wick :=
    Market.high current
    - PyNum.py_max (Market.open current) (Market.close current) in
  let lower_wick :=
    PyNum.py_min (Market.open current) (Market.close current)
    - Market.low current in
  let forex := PyStr.contains "USD" index_name in
  let upper_wick := if forex then upper_wick * 10000 else upper_wick in
  let lower_wick := if forex then lower_wick * 10000 else lower_wick in
  flat_map
    (fun po3_val =>
       ((if PyNum.Qltb (Qabs (upper_wick - inject_Z po3_val))
                       (inject_Z po3_val * (1 # 10))
         then [mkStopRun (Market.timestamp current) "upper_wick" upper_wick
                 po3_val (Market.high current)]
         else [])
        ++
        (if PyNum.Qltb (Qabs (lower_wick - inject_Z po3_val))
                       (inject_Z po3_val * (1 # 10))
         then [mkStopRun (Market.timestamp current) "lower_wick" lower_wick
                 po3_val (Market.low current)]
         else []))%list)
    [9; 27; 81; 243]%Z.

(** [identify_po3_stop_runs]: the loop starts at the second of the last
    [lookback] rows. *)
Definition identify_po3_stop_runs (data : Market.DataFrame)
    (index_name : string) (po3_number : Z) (lookback : nat) : list StopRun :=
  if (List.length data <? lookback)%nat then []
  else flat_map (wick_runs index_name) (List.tl (Market.tail lookback data)).

End PO3.


(* ------------------------------------------------------------------ *)
(** ** numpy floats with their special values *)

Module NpFloat.

Local Open Scope Q_scope.

(** A numpy [float64] with exact finite part.  Division by zero does not
    raise in numpy: it yields an infinity or NaN. *)
Inductive t : Type :=
| Fin (q : Q)
| PInf
| NInf
| NaN.

Definition is_finite (x : t) : bool :=
  match x with Fin _ => true | _ => false end.

Definition is_nan (x : t) : bool :=
  match x with NaN => true | _ => false end.

Definition sign_inf (positive : bool) : t := if positive then PInf else NInf.

Definition add (x y : t) : t :=
  match x, y with
  | NaN, _ | _, NaN => NaN
  | Fin a, Fin b => Fin (a + b)
  | PInf, NInf | NInf, PInf => NaN
  | PInf, _ | _, PInf => PInf
  | NInf, _ | _, NInf => NInf
  end.

Definition neg (x : t) : t :=
  match x with
  | Fin a => Fin (- a)
  | PInf => NInf
  | NInf => PInf
  | NaN => NaN
  end.

Definition sub (x y : t) : t := add x (neg y).

Definition mul (x y : t) : t :=
  match x, y with
  | NaN, _ | _, NaN => NaN
  | Fin a, Fin b => Fin (a * b)
  | Fin a, PInf | PInf, Fin a =>
      if Qeq_bool a 0 then NaN else sign_inf (PyNum.Qltb 0 a)
  | Fin a, NInf | NInf, Fin a =>
      if Qeq_bool a 0 then NaN else sign_inf (PyNum.Qltb a 0)
  | PInf, PInf | NInf, NInf => PInf
  | PInf, NInf | NInf, PInf => NInf
  end.

Definition div (x y : t) : t :=
  match x, y with
  | NaN, _ | _, NaN => NaN
  | Fin a, Fin b =>
      if Qeq_bool b 0
      then (if Qeq_bool a 0 then NaN else sign_inf (PyNum.Qltb 0 a))
      else Fin (a / b)
  | Fin _, (PInf | NInf) => Fin 0
  | (PInf | NInf), (PInf | NInf) => NaN
  | PInf, Fin b => sign_inf (Qle_bool 0 b)
  | NInf, Fin b => sign_inf (negb (Qle_bool 0 b))
  end.

(** [np.sqrt] on a finite non-negative rational, to 15 decimal places
    (rounded down); the square root of 0 is exactly 0. *)
Definition sqrtQ (q : Q) : Q :=
  Z.sqrt (Qfloor (q * inject_Z (10 ^ 30))) # (10 ^ 15).

Definition sqrt (x : t) : t :=
  match x with
  | Fin a => if PyNum.Qltb a 0 then NaN else Fin (sqrtQ a)
  | PInf => PInf
  | NInf | NaN => NaN
  end.

Definition abs (x : t) : t :=
  match x with
  | Fin a => Fin (Qabs a)
  | PInf | NInf => PInf
  | NaN => NaN
  end.

(** [x < y]; false as soon as one side is NaN. *)
Definition ltb (x y : t) : bool :=
  match x, y with
  | NaN, _ | _, NaN => false
  | Fin a, Fin b => PyNum.Qltb a b
  | NInf, (Fin _ | PInf) => true
  | Fin _, PInf => true
  | _, _ => false
  end.

(** [x != 0]; true for NaN. *)
Definition nonzero (x : t) : bool :=
  match x with
  | Fin a => negb (Qeq_bool a 0)
  | _ => true
  end.

(** pandas reductions, which skip NaN entries. *)
Definition dropna (xs : list t) : list t := filter (fun x => negb (is_nan x)) xs.

Definition sum (xs : list t) : t := fold_left add xs (Fin 0).

Definition count (xs : list t) : t :=
  Fin (inject_Z (Z.of_nat (List.length xs))).

Definition series_mean (xs : list t) : t :=
  match dropna xs with
  | [] => NaN
  | v => div (sum v) (count v)
  end.

(** The sample standard deviation ([ddof = 1]): NaN below two values. *)
Definition series_std (xs : list t) : t :=
  let v := dropna xs in
  if (List.length v <? 2)%nat then NaN
  else
    let m := div (sum v) (count v) in
    sqrt (div (sum (map (fun x => mul (sub x m) (sub x m)) v))
              (Fin (inject_Z (Z.of_nat (List.length v)) - 1))).

Definition series_min (xs : list t) : t :=
  match dropna xs with
  | [] => NaN
  | x :: r => fold_left (fun m y => if ltb y m then y else m) r x
  end.

End NpFloat.

(* ------------------------------------------------------------------ *)
(** ** [ict_goldbach.py]: institutional percentage levels *)

Module Goldbach.

Local Open Scope Q_scope.

Inductive LevelType : Type :=
| high_low | order_block | fair_value_gap | liquidity_void | breaker
| equilibrium.

Definition LevelType_eqb (a b : LevelType) : bool :=
  match a, b with
  | high_low, high_low | order_block, order_block
  | fair_value_gap, fair_value_gap | liquidity_void, liquidity_void
  | breaker, breaker | equilibrium, equilibrium => true
  | _, _ => false
  end.

(** [self.goldbach_levels], in insertion order. *)
Definition goldbach_levels : list (LevelType * list Z) :=
  [ (high_low, [0; 100]%Z); (order_block, [11; 89]%Z);
    (fair_value_gap, [17; 83]%Z); (liquidity_void, [29; 71]%Z);
    (breaker, [41; 59]%Z); (equilibrium, [50]%Z) ].

(** [self.level_weights]. *)
Definition level_weights (t : LevelType) : Q :=
  match t with
  | high_low => 1
  | order_block => 9 # 10
  | fair_value_gap => 8 # 10
  | liquidity_void => 7 # 10
  | breaker => 6 # 10
  | equilibrium => 5 # 10
  end.

Record Level : Type := mkLevel {
  price : Q;
  percentage : Z;
  weight : Q;
  type : LevelType
}.

(** The dictionary [calculate_goldbach_levels] returns: per level name,
    the levels keyed by percentage (the key [f'{pct}%'] is the percentage). *)
Definition Levels : Type := list (LevelType * list (Z * Level)).

Definition calculate_goldbach_levels (range_high range_low : Q) : Levels :=
  let range_size := range_high - range_low in
  map (fun '(level_name, percentages) =>
         (level_name,
          map (fun pct =>
                 (pct,
                  mkLevel (range_low + range_size * inject_Z pct / 100)
                          pct (level_weights level_name) level_name))
              percentages))
      goldbach_levels.

(** The dictionary [get_nearest_goldbach_level] builds: the level's own
    fields plus [distance], [level_type] and [percentage_key]. *)
Record NearestLevel : Type := mkNearest {
  level : Level;
  distance : Q;
  level_type : LevelType;
  percentage_key : Z
}.

(** One step of the double loop: [min_distance] is [None] while it still
    is [float('inf')]. *)
Definition nearest_step (current_price : Q) (max_distance : option Q)
    (level_type : LevelType) (acc : option Q * option NearestLevel)
    (entry : Z * Level) : option Q * option NearestLevel :=
  let '(pct_key, level_data) := entry in
  let '(min_distance, nearest_level) := acc in
  let distance := Qabs (current_price - price level_data) in
  let within :=
    match max_distance with
    | None => true
    | Some m => Qle_bool distance m
    end in
  let closer :=
    match min_distance with
    | None => true
    | Some m => PyNum.Qltb distance m
    end in
  if within && closer
  then (Some distance, Some (mkNearest level_data distance level_type pct_key))
  else acc.

Definition get_nearest_goldbach_level (current_price : Q)
    (goldbach_levels : Levels) (max_distance : option Q)
    : option NearestLevel :=
  snd (fold_left
         (fun acc '(level_type, levels) =>
            fold_left (nearest_step current_price max_distance level_type)
                      levels acc)
         goldbach_levels (None, None)).

(** Every level of the dictionary with its two keys, in iteration order. *)
Definition entries (levels : Levels) : list (LevelType * Z * Level) :=
  flat_map (fun '(level_type, ls) =>
              map (fun '(pct_key, level_data) =>
                     (level_type, pct_key, level_data)) ls)
           levels.

(** [levels[name][f'{pct}%']['price']]; [None] is the [KeyError] of a
    missing key. *)
Fixpoint lookup_type (name : LevelType) (levels : Levels)
    : option (list (Z * Level)) :=
  match levels with
  | [] => None
  | (t, ls) :: r => if LevelType_eqb name t then Some ls else lookup_type name r
  end.

Fixpoint lookup_pct (pct : Z) (ls : list (Z * Level)) : option Level :=
  match ls with
  | [] => None
  | (k, lv) :: r => if (pct =? k)%Z then Some lv else lookup_pct pct r
  end.

Definition level_price (levels : Levels) (name : LevelType) (pct : Z)
    : option Q :=
  match lookup_type name levels with
  | Some ls => option_map price (lookup_pct pct ls)
  | None => None
  end.

(** One [if name in goldbach_levels:] block of
    [calculate_institutional_levels], storing the listed keys in order. *)
Fixpoint store_levels (levels : Levels) (name : LevelType)
    (wanted : list (string * Z)) (acc : list (string * Q))
    : option (list (string * Q)) :=
  match wanted with
  | [] => Some acc
  | (key, pct) :: r =>
      match level_price levels name pct with
      | Some p => store_levels levels name r (acc ++ [(key, p)])
      | None => None
      end
  end.

Definition institutional_block (levels : Levels) (name : LevelType)
    (wanted : list (string * Z)) (acc : option (list (string * Q)))
    : option (list (string * Q)) :=
  match acc with
  | None => None
  | Some l =>
      match lookup_type name levels with
      | Some _ => store_levels levels name wanted l
      | None => Some l
      end
  end.

(** [calculate_institutional_levels]: the named prices, in insertion
    order; [None] is a [KeyError]. *)
Definition calculate_institutional_levels (po3_range : PO3.DealingRange)
    : option (list (string * Q)) :=
  let goldbach_levels :=
    calculate_goldbach_levels (PO3.range_high po3_range)
                              (PO3.range_low po3_range) in
  let acc := Some [] in
  let acc := institutional_block goldbach_levels order_block
               [("order_block_low", 11); ("order_block_high", 89)]%string%Z acc in
  let acc := institutional_block goldbach_levels fair_value_gap
               [("fvg_low", 17); ("fvg_high", 83)]%string%Z acc in
  let acc := institutional_block goldbach_levels liquidity_void
               [("liq_void_low", 29); ("liq_void_high", 71)]%string%Z acc in
  let acc := institutional_block goldbach_levels breaker
               [("breaker_low", 41); ("breaker_high", 59)]%string%Z acc in
  institutional_block goldbach_levels equilibrium
    [("equilibrium", 50)]%string%Z acc.

(** [validate_goldbach_interaction]. *)
Definition validate_goldbach_interaction (p : Q) (lv : Level) (tolerance : Q)
    : bool :=
  let level_price := price lv in
  let distance := Qabs (p - level_price) in
  let tolerance_amount := level_price * tolerance in
  Qle_bool distance tolerance_amount.

(** [calculate_mean_threshold]; [None] is the NaN of an empty window.  The
    three means and their weighted sum are the exact ones. *)
Definition calculate_mean_threshold (data : Market.DataFrame) (window : nat)
    : option Q :=
  let window :=
    if (List.length data <? window)%nat then List.length data else window in
  let recent_data := Market.tail window data in
  match PO3.mean (map Market.close recent_data),
        PO3.mean (map (fun b => (Market.high b + Market.low b) / 2) recent_data),
        PO3.mean (map (fun b => (Market.open b + Market.high b + Market.low b
                                 + Market.close b) / 4) recent_data) with
  | Some price_mean, Some high_low_mean, Some ohlc_mean =>
      Some (price_mean * (5 # 10) + high_low_mean * (3 # 10)
            + ohlc_mean * (2 # 10))
  | _, _, _ => None
  end.

(** The double loop of [get_nearest_goldbach_level] as one loop over
    [entries]. *)
Definition nearest_entry_step (current_price : Q) (max_distance : option Q)
    (acc : option Q * option NearestLevel) (e : LevelType * Z * Level)
    : option Q * option NearestLevel :=
  let '(level_type, pct_key, level_data) := e in
  nearest_step current_price max_distance level_type acc (pct_key, level_data).

(** [distance <= max_distance], true without a maximum. *)
Definition within (max_distance : option Q) (d : Q) : Prop :=
  match max_distance with
  | None => True
  | Some m => d <= m
  end.

End Goldbach.

(* ------------------------------------------------------------------ *)
(** ** [ict_amd_cycles.py]: accumulation / manipulation / distribution *)

Module AMD.

Import Market.
Local Open Scope string_scope.

Inductive Phase : Type := accumulation | manipulation | distribution.

Inductive Session : Type := asian | london | new_york.

Record SessionInfo : Type := mkSession {
  start : Z;
  end_ : Z;
  duration_hours : Z;
  phase : Phase
}.

(** [self.session_times], in insertion order. *)
Definition session_times : list (Session * SessionInfo) :=
  [ (asian, mkSession (time 20 0) (time 5 0) 9 accumulation);
    (london, mkSession (time 5 0) (time 11 0) 6 manipulation);
    (new_york, mkSession (time 11 0) (time 20 0) 9 distribution) ].

(** The entry [{'start': ..., 'end': ..., 'data': ...}] of one phase. *)
Record PhaseData : Type := mkPhaseData {
  ph_start : option Z;
  ph_end : option Z;
  data : DataFrame
}.

Definition empty_phase : PhaseData := mkPhaseData None None [].

Record AMDCycle : Type := mkCycle {
  date : Z;
  acc_phase : PhaseData;
  man_phase : PhaseData;
  dist_phase : PhaseData
}.

(** [amd_cycle[phase]] and its assignment. *)
Definition get_phase (c : AMDCycle) (p : Phase) : PhaseData :=
  match p with
  | accumulation => acc_phase c
  | manipulation => man_phase c
  | distribution => dist_phase c
  end.

Definition set_phase (c : AMDCycle) (p : Phase) (d : PhaseData) : AMDCycle :=
  match p with
  | accumulation => mkCycle (date c) d (man_phase c) (dist_phase c)
  | manipulation => mkCycle (date c) (acc_phase c) d (dist_phase c)
  | distribution => mkCycle (date c) (acc_phase c) (man_phase c) d
  end.

(** The boolean mask of one session over the bars of the day. *)
Definition in_session (session_name : Session) (session_info : SessionInfo)
    (b : Bar) : bool :=
  let t := time_of (timestamp b) in
  match session_name with
  | asian =>
      (* spans midnight: [time >= start] or [time <= end] *)
      (start session_info <=? t)%Z || (t <=? end_ session_info)%Z
  | _ =>
      (start session_info <=? t)%Z && (t <=? end_ session_info)%Z
  end.

(** The body of the loop over [self.session_times.items()]. *)
Definition session_step (day_data : DataFrame) (amd_cycle : AMDCycle)
    (entry : Session * SessionInfo) : AMDCycle :=
  let '(session_name, session_info) := entry in
  let session_data := filter (in_session session_name session_info) day_data in
  match session_data, last_row session_data with
  | first :: _, Some final =>
      set_phase amd_cycle (phase session_info)
        (mkPhaseData (Some (timestamp first)) (Some (timestamp final))
                     session_data)
  | _, _ => amd_cycle
  end.

(** [identify_daily_amd_cycle].  [Ok None] is the empty dictionary returned
    when the target day has no bar; [data.index[-1]] raises on an empty
    frame when no target date is given. *)
Definition identify_daily_amd_cycle (data : DataFrame)
    (target_date : option Z) : outcome (option AMDCycle) :=
  match (match target_date with
         | Some d => Some d
         | None => option_map (fun b => date_of (timestamp b)) (last_row data)
         end) with
  | None => Raised IndexError
  | Some target_date =>
      let day_data :=
        filter (fun b => (date_of (timestamp b) =? target_date)%Z) data in
      match day_data with
      | [] => Ok None
      | _ =>
          let amd_cycle :=
            mkCycle target_date empty_phase empty_phase empty_phase in
          Ok (Some (fold_left (session_step day_data) session_times amd_cycle))
      end
  end.

Local Open Scope Q_scope.

Record ManipulationAnalysis : Type := mkManipulation {
  session_high : Q;
  session_low : Q;
  session_range : Q;
  opening_price : Q;
  closing_price : Q;
  direction : string;
  manipulation_type : string;
  key_levels : list Q
}.

(** [series.max()] and [series.min()] of a non-empty column. *)
Definition col_max (x : Q) (xs : list Q) : Q := fold_left PyNum.py_max xs x.
Definition col_min (x : Q) (xs : list Q) : Q := fold_left PyNum.py_min xs x.

(** [analyze_manipulation_phase]; [None] is the empty dictionary.  The
    quotient [range_size / price_level] is a numpy division: by zero it is
    an infinity (which exceeds 0.5 when positive) or NaN (which does not). *)
Definition analyze_manipulation_phase (manipulation_data : DataFrame)
    : option ManipulationAnalysis :=
  match manipulation_data, last_row manipulation_data with
  | first :: rest, Some final =>
      let session_high := col_max (high first) (map high rest) in
      let session_low := col_min (low first) (map low rest) in
      let session_range := session_high - session_low in
      let opening_price := open first in
      let closing_price := close final in
      let direction :=
        if PyNum.Qltb opening_price closing_price then "bullish" else "bearish" in
      let significant :=
        if Qeq_bool opening_price 0
        then PyNum.Qltb 0 session_range
        else PyNum.Qltb (1 # 2) (session_range / opening_price * 100) in
      let manipulation_type :=
        if significant then "range_expansion" else "consolidation" in
      Some (mkManipulation session_high session_low session_range
              opening_price closing_price direction manipulation_type
              [ session_low;
                session_low + session_range * (33 # 100);
                session_low + session_range * (50 # 100);
                session_low + session_range * (67 # 100);
                session_high ])
  | _, _ => None
  end.

(** [data.iloc[start_idx:end_idx]]. *)
Definition iloc_slice (A : Type) (start_idx end_idx : nat) (l : list A)
    : list A :=
  firstn (end_idx - start_idx) (skipn start_idx l).

Record FractalCycle : Type := mkFractal {
  main_phase : string;
  fractal_phase : Phase;
  fractal_level : Z;
  start_time : Z;
  end_time : Z;
  fractal_data : DataFrame;
  phase_high : Q;
  phase_low : Q;
  phase_range : Q
}.

(** The body of [for i, phase_name in enumerate(phases)]. *)
Definition fractal_step (data : DataFrame) (main_phase : string)
    (fractal_level : Z) (entry : nat * Phase) : list FractalCycle :=
  let '(i, phase_name) := entry in
  let data_length := List.length data in
  let third_size := (data_length / 3)%nat in
  let start_idx := (i * third_size)%nat in
  let end_idx :=
    if (i <? 2)%nat then ((i + 1) * third_size)%nat else data_length in
  let phase_data := iloc_slice start_idx end_idx data in
  match phase_data, last_row phase_data with
  | first :: rest, Some final =>
      let phase_high := col_max (high first) (map high rest) in
      let phase_low := col_min (low first) (map low rest) in
      [mkFractal main_phase phase_name fractal_level (timestamp first)
         (timestamp final) phase_data phase_high phase_low
         (phase_high - phase_low)]
  | _, _ => []
  end.

(** [identify_fractal_amd]. *)
Definition identify_fractal_amd (data : DataFrame) (main_phase : string)
    (fractal_level : Z) : list FractalCycle :=
  match data with
  | [] => []
  | _ =>
      flat_map (fractal_step data main_phase fractal_level)
        [(0%nat, accumulation); (1%nat, manipulation); (2%nat, distribution)]
  end.

(** One entry [{'start': ..., 'end': ..., 'duration_hours': ...}] of
    [calculate_amd_timing]; datetimes are in seconds. *)
Record PhaseTiming : Type := mkPhaseTiming {
  timing_start : Z;
  timing_end : Z;
  timing_duration_hours : Z
}.

Record Timing : Type := mkTiming {
  timing_accumulation : PhaseTiming;
  timing_manipulation : PhaseTiming;
  timing_distribution : PhaseTiming
}.

(** [timedelta(hours=h)] in seconds. *)
Definition timedelta_hours (h : Z) : Z := (h * 3600)%Z.

(** [calculate_amd_timing]. *)
Definition calculate_amd_timing (start_time : Z) (total_duration_hours : Z)
    : Timing :=
  let accumulation_hours := 9%Z in
  let manipulation_hours := 6%Z in
  let distribution_hours := 9%Z in
  mkTiming
    (mkPhaseTiming start_time
       (start_time + timedelta_hours accumulation_hours)%Z
       accumulation_hours)
    (mkPhaseTiming
       (start_time + timedelta_hours accumulation_hours)%Z
       (start_time
        + timedelta_hours (accumulation_hours + manipulation_hours))%Z
       manipulation_hours)
    (mkPhaseTiming
       (start_time
        + timedelta_hours (accumulation_hours + manipulation_hours))%Z
       (start_time + timedelta_hours total_duration_hours)%Z
       distribution_hours).

End AMD.

(* ------------------------------------------------------------------ *)
(** ** [ict_hippo.py]: hidden-gap patterns *)

Module Hippo.

Import Market.
Local Open Scope string_scope.
Local Open Scope Q_scope.

(** [self.hippo_requirements]. *)
Definition min_gap_size : Q := 5.
Definition max_gap_ratio : Q := 2.

Record Gap : Type := mkGap {
  size : Q;
  gap_type : option string
}.

Definition opt_str_eqb (a : option string) (b : string) : bool :=
  match a with
  | Some s => String.eqb s b
  | None => false
  end.

Definition opt_str_eq (a b : option string) : bool :=
  match a, b with
  | Some x, Some y => String.eqb x y
  | None, None => true
  | _, _ => false
  end.

Definition _calculate_gap (candle1 candle2 : Bar) : Gap :=
  let gap_info :=
    if PyNum.Qltb (high candle1) (low candle2)
    then mkGap (low candle2 - high candle1) (Some "up")
    else if PyNum.Qltb (high candle2) (low candle1)
    then mkGap (low candle1 - high candle2) (Some "down")
    else mkGap 0 None in
  mkGap (size gap_info * 10000) (gap_type gap_info).

Definition _calculate_hidden_level (candle1 candle2 candle3 : Bar)
    (direction : string) : Q :=
  if String.eqb direction "bullish" then
    let wick1_low := PyNum.py_min (open candle1) (close candle1) in
    let wick3_low := PyNum.py_min (open candle3) (close candle3) in
    (wick1_low + wick3_low) / 2
  else if String.eqb direction "bearish" then
    let wick1_high := PyNum.py_max (open candle1) (close candle1) in
    let wick3_high := PyNum.py_max (open candle3) (close candle3) in
    (wick1_high + wick3_high) / 2
  else
    if PyNum.Qltb (PyNum.py_max (high candle1) (high candle3)) (high candle2)
    then high candle2
    else low candle2.

Record Pattern : Type := mkPattern {
  is_hippo : bool;
  pattern_type : option string;
  gap1_size : Q;
  gap2_size : Q;
  gap_ratio : Q;
  hidden_level : option Q;
  direction : option string;
  timestamp : option Z;
  candle_index : option Z
}.

Definition _analyze_hippo_pattern (candle1 candle2 candle3 : Bar) : Pattern :=
  let gap1 := _calculate_gap candle1 candle2 in
  let gap2 := _calculate_gap candle2 candle3 in
  if PyNum.Qltb 0 (size gap1) && PyNum.Qltb 0 (size gap2) then
    let gap_ratio :=
      PyNum.py_max (size gap1) (size gap2) / PyNum.py_min (size gap1) (size gap2) in
    if Qle_bool min_gap_size (size gap1) && Qle_bool min_gap_size (size gap2)
       && Qle_bool gap_ratio max_gap_ratio
    then
      let hidden d := Some (_calculate_hidden_level candle1 candle2 candle3 d) in
      if opt_str_eqb (gap_type gap1) "up" && opt_str_eqb (gap_type gap2) "up"
      then mkPattern true (Some "bullish_continuation") (size gap1) (size gap2)
             gap_ratio (hidden "bullish") (Some "bullish") None None
      else if opt_str_eqb (gap_type gap1) "down"
              && opt_str_eqb (gap_type gap2) "down"
      then mkPattern true (Some "bearish_continuation") (size gap1) (size gap2)
             gap_ratio (hidden "bearish") (Some "bearish") None None
      else if negb (opt_str_eq (gap_type gap1) (gap_type gap2))
      then mkPattern true (Some "reversal") (size gap1) (size gap2)
             gap_ratio (hidden "reversal") (Some "reversal") None None
      else mkPattern true None (size gap1) (size gap2) gap_ratio None None
             None None
    else mkPattern false None (size gap1) (size gap2) gap_ratio None None
           None None
  else mkPattern false None 0 0 0 None None None None.

(** The loop [for i in range(1, len(data) - 1)], [i] being the index of
    the middle candle. *)
Fixpoint scan_patterns (i : Z) (data : DataFrame) : list Pattern :=
  match data with
  | candle1 :: ((candle2 :: candle3 :: _) as rest) =>
      let p := _analyze_hippo_pattern candle1 candle2 candle3 in
      (if is_hippo p
       then [mkPattern (is_hippo p) (pattern_type p) (gap1_size p)
               (gap2_size p) (gap_ratio p) (hidden_level p) (direction p)
               (Some (Market.timestamp candle2)) (Some i)]
       else [])
      ++ scan_patterns (i + 1) rest
  | _ => []
  end.

Definition identify_hippo_patterns (data : DataFrame) : list Pattern :=
  if (List.length data <? 3)%nat then [] else scan_patterns 1 data.

Record Setup : Type := mkSetup {
  entry_level : option Q;
  setup_direction : option string;
  stop_loss : option Q;
  take_profit : option Q;
  risk_reward : Q
}.

Record TradePlan : Type := mkTradePlan {
  partition_info : option Z;
  hippo_patterns : list Pattern;
  trade_setups : list Setup;
  risk_levels : list Q;
  target_levels : list Q
}.

(** The setup built from one pattern; [None] is the [TypeError] of the
    arithmetic on a hidden level that is [None]. *)
Definition setup_of (partition_number : Z) (pattern : Pattern)
    : option Setup :=
  if opt_str_eqb (direction pattern) "bullish" then
    match hidden_level pattern with
    | Some h =>
        Some (mkSetup (hidden_level pattern) (direction pattern)
                (Some (h - inject_Z partition_number / 10000))
                (Some (h + 2 * inject_Z partition_number / 10000))
                2)
    | None => None
    end
  else if opt_str_eqb (direction pattern) "bearish" then
    match hidden_level pattern with
    | Some h =>
        Some (mkSetup (hidden_level pattern) (direction pattern)
                (Some (h + inject_Z partition_number / 10000))
                (Some (h - 2 * inject_Z partition_number / 10000))
                2)
    | None => None
    end
  else Some (mkSetup (hidden_level pattern) (direction pattern) None None 2).

(** The loop [for pattern in hippo_patterns]. *)
Fixpoint setups_of (partition_number : Z) (patterns : list Pattern)
    : option (list Setup) :=
  match patterns with
  | [] => Some []
  | pattern :: rest =>
      if is_hippo pattern then
        match setup_of partition_number pattern with
        | Some setup =>
            option_map (cons setup) (setups_of partition_number rest)
        | None => None
        end
      else setups_of partition_number rest
  end.

(** [generate_lookback_trade_plan]; [partition_info] is the value stored
    under ['partition_number'], if any. *)
Definition generate_lookback_trade_plan (data : DataFrame)
    (hippo_patterns : list Pattern) (partition_info : option Z)
    : option TradePlan :=
  let partition_number :=
    match partition_info with Some n => n | None => 27%Z end in
  option_map
    (fun setups => mkTradePlan partition_info hippo_patterns setups [] [])
    (setups_of partition_number hippo_patterns).

End Hippo.
(* ------------------------------------------------------------------ *)
(** ** [ict_strategy.py]: analysis snapshot, candidates and confluence *)

Module Strategy.

Import Market.
Local Open Scope string_scope.
Local Open Scope Q_scope.

Record Config : Type := mkConfig {
  trading_style : string;
  asset_type : string;
  risk_per_trade : Q;
  max_daily_trades : nat
}.

Record PricePosition : Type := mkPricePosition {
  zone : string;
  position_percentage : Q;
  strength : Q
}.

(** [_analyze_price_position].  The quotient by [range_size] and the
    constants 0.33 and 0.67 are the exact ones; [range_size] is never 0
    for a range built by [PO3.calculate_dealing_range] (lemma
    [dealing_range_size] below). *)
Definition _analyze_price_position (current_price : Q)
    (po3_range : PO3.DealingRange) : PricePosition :=
  let range_low := PO3.range_low po3_range in
  let range_high := PO3.range_high po3_range in
  let range_size := range_high - range_low in
  let position_pct := (current_price - range_low) / range_size in
  if Qle_bool position_pct (33 # 100) then
    mkPricePosition "discount" position_pct
      (((33 # 100) - position_pct) / (33 # 100))
  else if Qle_bool (67 # 100) position_pct then
    mkPricePosition "premium" position_pct
      ((position_pct - (67 # 100)) / (33 # 100))
  else
    mkPricePosition "equilibrium" position_pct
      (1 - Qabs (position_pct - (1 # 2)) / (17 # 100)).

(** [_identify_current_amd_phase]; [now] is [datetime.now().time()]. *)
Definition _identify_current_amd_phase (now : Z) : AMD.Phase :=
  if ((time 20 0 <=? now) || (now <=? time 5 0))%Z then AMD.accumulation
  else if ((time 5 0 <=? now) && (now <=? time 11 0))%Z then AMD.manipulation
  else AMD.distribution.

(** [_analyze_current_manipulation]; [None] is the empty dictionary. *)
Definition _analyze_current_manipulation (amd_cycle : option AMD.AMDCycle)
    : option AMD.ManipulationAnalysis :=
  match amd_cycle with
  | None => None
  | Some c =>
      match AMD.data (AMD.man_phase c) with
      | [] => None
      | manipulation_data => AMD.analyze_manipulation_phase manipulation_data
      end
  end.

(** The analysis dictionary, its nested dictionaries flattened.  The
    entries [institutional_levels], [partition_info] and [lookback_clues]
    are left out: they are computed by total table look-ups and are read
    neither by the signal generators nor by the scoring. *)
Record Snapshot : Type := mkSnapshot {
  timestamp : Z;
  current_price : Q;
  optimal_size : Z;
  dealing_range : PO3.DealingRange;
  price_position : PricePosition;
  levels : Goldbach.Levels;
  nearest_level : option Goldbach.NearestLevel;
  current_cycle : option AMD.AMDCycle;
  current_phase : AMD.Phase;
  manipulation_analysis : option AMD.ManipulationAnalysis;
  patterns : list Hippo.Pattern
}.

(** [analyze_market].  [Ok None] is the empty dictionary of the
    insufficient-data branch; [index_name] is [str(data.index.name)] and
    [now] the wall-clock time of day read by the phase detection. *)
Definition analyze_market (cfg : Config) (index_name : string) (now : Z)
    (data : DataFrame) : outcome (option Snapshot) :=
  if (List.length data <? 100)%nat then Ok None else
  match last_row data with
  | None => Raised IndexError
  | Some final =>
      let current_price := close final in
      let optimal_po3 := PO3.get_optimal_po3_size data index_name 60 in
      match PO3.calculate_dealing_range current_price optimal_po3
              (asset_type cfg) with
      | None => Raised ValueError
      | Some po3_range =>
          let goldbach_levels :=
            Goldbach.calculate_goldbach_levels
              (PO3.range_high po3_range) (PO3.range_low po3_range) in
          match AMD.identify_daily_amd_cycle data None with
          | Raised e => Raised e
          | Ok amd_cycle =>
              let hippo_patterns := Hippo.identify_hippo_patterns data in
              Ok (Some
                (mkSnapshot (Market.timestamp final) current_price optimal_po3
                   po3_range
                   (_analyze_price_position current_price po3_range)
                   goldbach_levels
                   (Goldbach.get_nearest_goldbach_level current_price
                      goldbach_levels None)
                   amd_cycle
                   (_identify_current_amd_phase now)
                   (_analyze_current_manipulation amd_cycle)
                   hippo_patterns))
          end
      end
  end.

(** A signal dictionary.  Keys a generator does not set are [None]; the
    purely descriptive keys ([reasoning], [level_price], [level_type],
    [pattern_type]) are left out. *)
Record Signal : Type := mkSignal {
  sig_type : string;
  direction : string;
  sig_strength : option Q;
  entry_price : option Q;
  stop_loss : option Q;
  take_profit : option Q;
  confluence_score : option Q
}.

Definition _generate_po3_signals (analysis : Snapshot) : list Signal :=
  let pp := price_position analysis in
  let dr := dealing_range analysis in
  if String.eqb (zone pp) "discount" && PyNum.Qltb (7 # 10) (strength pp) then
    [mkSignal "po3_discount_buy" "long" (Some (strength pp))
       (Some (current_price analysis)) (Some (PO3.range_low dr))
       (Some (PO3.premium_threshold dr)) None]
  else if String.eqb (zone pp) "premium" && PyNum.Qltb (7 # 10) (strength pp) then
    [mkSignal "po3_premium_sell" "short" (Some (strength pp))
       (Some (current_price analysis)) (Some (PO3.range_high dr))
       (Some (PO3.discount_threshold dr)) None]
  else [].

Definition _generate_goldbach_signals (analysis : Snapshot) : list Signal :=
  match nearest_level analysis with
  | None => []
  | Some nl =>
      let lv := Goldbach.level nl in
      if PyNum.Qltb (Goldbach.distance nl) (Goldbach.price lv * (1 # 1000)) then
        match Goldbach.level_type nl with
        | Goldbach.order_block | Goldbach.fair_value_gap =>
            [mkSignal "goldbach_level_reaction"
               (if (Goldbach.percentage lv <? 50)%Z then "long" else "short")
               (Some (Goldbach.weight lv))
               (Some (current_price analysis)) None None None]
        | _ => []
        end
      else []
  end.

Definition _generate_amd_signals (analysis : Snapshot) : list Signal :=
  match current_phase analysis with
  | AMD.manipulation =>
      match manipulation_analysis analysis with
      | Some m =>
          if String.eqb (AMD.manipulation_type m) "range_expansion" then
            [mkSignal "amd_manipulation_breakout"
               (if String.eqb (AMD.direction m) "bullish" then "long" else "short")
               (Some (8 # 10)) (Some (current_price analysis)) None None None]
          else []
      | None => []
      end
  | _ => []
  end.

Definition _generate_hippo_signals (analysis : Snapshot) : list Signal :=
  flat_map
    (fun pattern =>
       if Hippo.is_hippo pattern
          && negb (Hippo.opt_str_eqb (Hippo.direction pattern) "reversal")
       then [mkSignal "hippo_pattern"
               (if Hippo.opt_str_eqb (Hippo.direction pattern) "bullish"
                then "long" else "short")
               (Some (7 # 10)) (Hippo.hidden_level pattern) None None None]
       else [])
    (patterns analysis).

(** The candidates of one tick, in generation order. *)
Definition candidates (analysis : Snapshot) : list Signal :=
  _generate_po3_signals analysis ++ _generate_goldbach_signals analysis
    ++ _generate_amd_signals analysis ++ _generate_hippo_signals analysis.

(** [_calculate_confluence]. *)
Definition _calculate_confluence (signal : Signal) (analysis : Snapshot) : Q :=
  let score :=
    match sig_strength signal with Some s => s | None => 5 # 10 end in
  (* 1. AMD phase alignment *)
  let score :=
    match current_phase analysis with
    | AMD.manipulation => score + (2 # 10)
    | _ => score
    end in
  (* 2. Goldbach level proximity *)
  let score :=
    match nearest_level analysis with
    | Some nl =>
        if PyNum.Qltb (Goldbach.distance nl)
             (Goldbach.price (Goldbach.level nl) * (2 # 1000))
        then score + (15 # 100) else score
    | None => score
    end in
  (* 3. PO3 zone alignment *)
  let score :=
    if String.eqb (zone (price_position analysis)) "discount"
       || String.eqb (zone (price_position analysis)) "premium"
    then score + (1 # 10) else score in
  (* 4. HIPPO pattern confluence *)
  let score :=
    if existsb Hippo.is_hippo (patterns analysis)
    then score + (1 # 10) else score in
  PyNum.py_min score 1.

Definition score_of (s : Signal) : Q :=
  match confluence_score s with Some c => c | None => 0 end.

(** [signals.sort(key=..., reverse=True)]: a stable sort, descending. *)
Fixpoint insert_desc (x : Signal) (l : list Signal) : list Signal :=
  match l with
  | [] => [x]
  | y :: r =>
      if PyNum.Qltb (score_of y) (score_of x) then x :: l
      else y :: insert_desc x r
  end.

Definition sort_desc (l : list Signal) : list Signal :=
  fold_left (fun acc x => insert_desc x acc) l [].

(** [_filter_signals]. *)
Definition _filter_signals (cfg : Config) (signals : list Signal)
    (analysis : Snapshot) : list Signal :=
  let scored :=
    map (fun s =>
           mkSignal (sig_type s) (direction s) (sig_strength s) (entry_price s)
             (stop_loss s) (take_profit s)
             (Some (_calculate_confluence s analysis)))
        signals in
  let sorted := sort_desc scored in
  let filtered := filter (fun s => Qle_bool (6 # 10) (score_of s)) sorted in
  firstn (max_daily_trades cfg) filtered.

(** [generate_signals]. *)
Definition generate_signals (cfg : Config) (index_name : string) (now : Z)
    (data : DataFrame) : outcome (list Signal) :=
  match analyze_market cfg index_name now data with
  | Raised e => Raised e
  | Ok None => Ok []
  | Ok (Some analysis) =>
      Ok (_filter_signals cfg (candidates analysis) analysis)
  end.

(** The scoring rule in the words of the specification: the raw strength
    plus the four boosts, clipped to the interval from 0 to 1.  The price
    of the proximity test is the price of the nearest level, the field
    the code multiplies by 0.002. *)
Definition clip (x lo hi : Q) : Q := PyNum.py_max lo (PyNum.py_min x hi).

Definition spec_confluence (raw_strength : Q) (analysis : Snapshot) : Q :=
  clip (raw_strength
        + (2 # 10) * (if match current_phase analysis with
                         | AMD.manipulation => true | _ => false end
                      then 1 else 0)
        + (15 # 100) * (match nearest_level analysis with
                        | Some nl =>
                            if PyNum.Qltb (Goldbach.distance nl)
                                 (Goldbach.price (Goldbach.level nl) * (2 # 1000))
                            then 1 else 0
                        | None => 0
                        end)
        + (1 # 10) * (if String.eqb (zone (price_position analysis)) "discount"
                         || String.eqb (zone (price_position analysis)) "premium"
                      then 1 else 0)
        + (1 # 10) * (if existsb Hippo.is_hippo (patterns analysis)
                      then 1 else 0))
       0 1.

End Strategy.

(* ------------------------------------------------------------------ *)
(** ** [config.py]: the trading configuration *)

Module Config.

Local Open Scope string_scope.

Definition RISK_PER_TRADE : Q := 25 # 10000.
Definition MAX_DRAWDOWN_USD : Q := 1500.
Definition MAX_POSITIONS : nat := 6.
Definition FUTURES_SYMBOLS : list string := ["ES"; "NQ"; "YM"].
Definition FOREX_SYMBOLS : list string := ["AUDUSD"; "EURUSD"; "GBPUSD"].

Record FuturesSpec : Type := mkFutures {
  tick_size : Q;
  tick_value : Q;
  margin_requirement : Q
}.

Record ForexSpec : Type := mkForex {
  pip_value : Q;
  spread_typical : Q
}.

(** [FUTURES_SPECS[symbol]] and [FOREX_SPECS[symbol]]; [None] is the
    [KeyError] of a symbol the table does not have. *)
Definition FUTURES_SPECS (symbol : string) : option FuturesSpec :=
  if String.eqb symbol "ES" then Some (mkFutures (25 # 100) (125 # 10) 13200)
  else if String.eqb symbol "NQ" then Some (mkFutures (25 # 100) 5 17600)
  else if String.eqb symbol "YM" then Some (mkFutures 1 5 8800)
  else None.

Definition FOREX_SPECS (symbol : string) : option ForexSpec :=
  if String.eqb symbol "AUDUSD" then Some (mkForex (1 # 10000) (15 # 10))
  else if String.eqb symbol "EURUSD" then Some (mkForex (1 # 10000) 1)
  else if String.eqb symbol "GBPUSD" then Some (mkForex (1 # 10000) (15 # 10))
  else None.

(** [symbol in symbols]. *)
Definition mem (symbol : string) (symbols : list string) : bool :=
  existsb (String.eqb symbol) symbols.

End Config.

(* ------------------------------------------------------------------ *)
(** ** [risk_manager.py]: the open-position table and realized P&L *)

Module Risk.

Import Config.
Local Open Scope string_scope.
Local Open Scope Q_scope.

Record Position : Type := mkPosition {
  symbol : string;
  size : Z;
  direction : string;
  entry_price : Q;
  stop_loss : Q;
  take_profit : option Q;
  entry_time : Z;
  unrealized_pnl : Q;
  max_favorable : Q;
  max_adverse : Q
}.

Record Trade : Type := mkTrade {
  t_symbol : string;
  t_direction : string;
  t_size : Z;
  t_entry_price : Q;
  exit_price : Q;
  t_entry_time : Z;
  exit_time : Z;
  realized_pnl : Q;
  t_max_favorable : Q;
  t_max_adverse : Q;
  exit_reason : string
}.

(** The instance state.  [positions] is the dictionary keyed by symbol, in
    insertion order; [trade_history] grows at its end. *)
Record RiskManager : Type := mkRM {
  initial_capital : Q;
  current_capital : Q;
  max_drawdown_reached : Q;
  daily_pnl : Q;
  positions : list (string * Position);
  trade_history : list Trade
}.

(** [RiskManager(initial_capital)]. *)
Definition init (initial_capital : Q) : RiskManager :=
  mkRM initial_capital initial_capital 0 0 [] [].

(** Dictionary operations on the position table. *)
Fixpoint lookup (k : string) (d : list (string * Position)) : option Position :=
  match d with
  | [] => None
  | (k', v) :: r => if String.eqb k k' then Some v else lookup k r
  end.

(** [d[k] = v]: an existing key keeps its place, a new key goes last. *)
Fixpoint store (k : string) (v : Position) (d : list (string * Position))
    : list (string * Position) :=
  match d with
  | [] => [(k, v)]
  | (k', v') :: r =>
      if String.eqb k k' then (k, v) :: r else (k', v') :: store k v r
  end.

(** [del d[k]]. *)
Fixpoint remove (k : string) (d : list (string * Position))
    : list (string * Position) :=
  match d with
  | [] => []
  | (k', v') :: r =>
      if String.eqb k k' then r else (k', v') :: remove k r
  end.

Definition keys (d : list (string * Position)) : list string := map fst d.

Definition set_positions (rm : RiskManager) (d : list (string * Position))
    : RiskManager :=
  mkRM (initial_capital rm) (current_capital rm) (max_drawdown_reached rm)
       (daily_pnl rm) d (trade_history rm).

(** [calculate_position_size].  The whole body runs under [try]: a missing
    specification ([KeyError]) or a division by zero returns 0.  [int] is
    applied to the exact quotient: where that quotient is within rounding
    of an integer the interpreter can return the neighbouring size. *)
Definition calculate_position_size (symbol : string)
    (entry_price stop_loss account_balance : Q) : Z :=
  let risk_amount := account_balance * RISK_PER_TRADE in
  let price_diff := Qabs (entry_price - stop_loss) in
  if Qeq_bool price_diff 0 then 0%Z else
  if mem symbol FUTURES_SYMBOLS then
    match FUTURES_SPECS symbol with
    | None => 0%Z
    | Some specs =>
        let ticks_at_risk := price_diff / tick_size specs in
        let risk_per_contract := ticks_at_risk * tick_value specs in
        if Qeq_bool risk_per_contract 0 then 0%Z else
        let position_size := PyNum.py_int (risk_amount / risk_per_contract) in
        let margin_required :=
          inject_Z position_size * margin_requirement specs in
        let position_size :=
          if PyNum.Qltb (account_balance * (3 # 10)) margin_required
          then PyNum.py_int (account_balance * (3 # 10) / margin_requirement specs)
          else position_size in
        Z.max 0 position_size
    end
  else
    match FOREX_SPECS symbol with
    | None => 0%Z
    | Some specs =>
        let standard_lot := 100000 in
        let pips_at_risk := price_diff / pip_value specs in
        let risk_per_lot := pips_at_risk * 10 in
        if Qeq_bool risk_per_lot 0 then 0%Z else
        let lots := risk_amount / risk_per_lot in
        let position_size := PyNum.py_int (lots * standard_lot) in
        Z.max 0 position_size
    end.

(** [_check_correlation_limits]. *)
Definition _check_correlation_limits (rm : RiskManager) (symbol : string)
    : bool :=
  let count (symbols : list string) :=
    List.length (filter (fun s => mem s symbols) (keys (positions rm))) in
  if mem symbol FUTURES_SYMBOLS && (2 <=? count FUTURES_SYMBOLS)%nat then true
  else if mem symbol FOREX_SYMBOLS && (2 <=? count FOREX_SYMBOLS)%nat then true
  else false.

(** [check_risk_limits]. *)
Definition check_risk_limits (rm : RiskManager) (symbol : string)
    (position_size : Z) (entry_price : Q) : bool :=
  if (MAX_POSITIONS <=? List.length (positions rm))%nat then false
  else if mem symbol (keys (positions rm)) then false
  else
    let current_drawdown := initial_capital rm - current_capital rm in
    if Qle_bool MAX_DRAWDOWN_USD current_drawdown then false
    else if _check_correlation_limits rm symbol then false
    else if (position_size <=? 0)%Z then false
    else true.

(** [add_position]; [now] is the [datetime.now()] it stamps the entry with.
    Returns the state after the call and the boolean result. *)
Definition add_position (rm : RiskManager) (now : Z) (symbol : string)
    (position_size : Z) (entry_price stop_loss : Q) (take_profit : option Q)
    (direction : string) : RiskManager * bool :=
  if negb (check_risk_limits rm symbol position_size entry_price)
  then (rm, false)
  else
    let position :=
      mkPosition symbol position_size direction entry_price stop_loss
        take_profit now 0 0 0 in
    (set_positions rm (store symbol position (positions rm)), true).

(** [update_position_pnl].  The look-up of the instrument specification
    raises [KeyError] for a symbol in neither table; it does so before
    anything is written, so the state is the incoming one in that case. *)
Definition update_position_pnl (rm : RiskManager) (symbol : string)
    (current_price : Q) : outcome RiskManager :=
  match lookup symbol (positions rm) with
  | None => Ok rm
  | Some position =>
      let price_diff := current_price - entry_price position in
      let price_diff :=
        if String.eqb (direction position) "SHORT" then - price_diff
        else price_diff in
      let pnl : option Q :=
        if mem symbol FUTURES_SYMBOLS then
          match FUTURES_SPECS symbol with
          | Some specs =>
              let ticks := price_diff / tick_size specs in
              Some (ticks * tick_value specs * inject_Z (size position))
          | None => None
          end
        else
          match FOREX_SPECS symbol with
          | Some specs =>
              let pips := price_diff / pip_value specs in
              Some (pips * 10 * (inject_Z (size position) / 100000))
          | None => None
          end in
      match pnl with
      | None => Raised KeyError
      | Some unrealized_pnl =>
          let max_favorable :=
            if PyNum.Qltb (max_favorable position) unrealized_pnl
            then unrealized_pnl else max_favorable position in
          let max_adverse :=
            if PyNum.Qltb unrealized_pnl (max_adverse position)
            then unrealized_pnl else max_adverse position in
          Ok (set_positions rm
                (store symbol
                   (mkPosition (Risk.symbol position) (size position)
                      (direction position) (entry_price position)
                      (stop_loss position) (take_profit position)
                      (entry_time position) unrealized_pnl max_favorable
                      max_adverse)
                   (positions rm)))
      end
  end.

(** [check_stop_loss]. *)
Definition check_stop_loss (rm : RiskManager) (symbol : string)
    (current_price : Q) : bool :=
  match lookup symbol (positions rm) with
  | None => false
  | Some position =>
      if String.eqb (direction position) "LONG"
         && Qle_bool current_price (stop_loss position) then true
      else if String.eqb (direction position) "SHORT"
              && Qle_bool (stop_loss position) current_price then true
      else false
  end.

(** [check_take_profit]. *)
Definition check_take_profit (rm : RiskManager) (symbol : string)
    (current_price : Q) : bool :=
  match lookup symbol (positions rm) with
  | None => false
  | Some position =>
      match take_profit position with
      | None => false
      | Some take_profit =>
          if String.eqb (direction position) "LONG"
             && Qle_bool take_profit current_price then true
          else if String.eqb (direction position) "SHORT"
                  && Qle_bool current_price take_profit then true
          else false
      end
  end.

(** [close_position]; [now] is the [datetime.now()] of the exit.  The
    result [None] is the empty dictionary returned when no position is
    open for the symbol. *)
Definition close_position (rm : RiskManager) (now : Z) (symbol : string)
    (exit_price : Q) (reason : string) : outcome (RiskManager * option Trade) :=
  match lookup symbol (positions rm) with
  | None => Ok (rm, None)
  | Some _ =>
      match update_position_pnl rm symbol exit_price with
      | Raised e => Raised e
      | Ok rm1 =>
          match lookup symbol (positions rm1) with
          | None => Raised KeyError
          | Some position =>
              let realized_pnl := unrealized_pnl position in
              let trade_record :=
                mkTrade symbol (direction position) (size position)
                  (entry_price position) exit_price (entry_time position) now
                  realized_pnl (max_favorable position) (max_adverse position)
                  reason in
              Ok (mkRM (initial_capital rm1)
                       (current_capital rm1 + realized_pnl)
                       (max_drawdown_reached rm1) (daily_pnl rm1)
                       (remove symbol (positions rm1))
                       (trade_history rm1 ++ [trade_record]),
                  Some trade_record)
          end
      end
  end.

Record PortfolioSummary : Type := mkSummary {
  s_initial_capital : Q;
  s_current_capital : Q;
  s_unrealized_pnl : Q;
  total_equity : Q;
  current_drawdown : Q;
  max_drawdown_limit : Q;
  positions_count : nat;
  max_positions : nat;
  trades_completed : nat
}.

(** [get_portfolio_summary]. *)
Definition get_portfolio_summary (rm : RiskManager) : PortfolioSummary :=
  let total_unrealized :=
    fold_left Qplus (map (fun kv => unrealized_pnl (snd kv)) (positions rm)) 0 in
  mkSummary (initial_capital rm) (current_capital rm) total_unrealized
    (current_capital rm + total_unrealized)
    (initial_capital rm - current_capital rm)
    MAX_DRAWDOWN_USD (List.length (positions rm)) MAX_POSITIONS
    (List.length (trade_history rm)).

Record PerformanceMetrics : Type := mkMetrics {
  total_trades : nat;
  total_return : Q;
  win_rate : Q;
  average_win : Q;
  average_loss : Q;
  profit_factor : NpFloat.t;
  return_percentage : Q
}.

Definition Qmean (xs : list Q) : Q :=
  fold_left Qplus xs 0 / inject_Z (Z.of_nat (List.length xs)).

(** [get_performance_metrics]; [Ok None] is the empty dictionary of an
    empty trade history.  [profit_factor] is a float: [float('inf')] is
    the value [NpFloat.PInf].  The last entry divides two Python numbers,
    [total_return / self.initial_capital]: with an initial capital of 0
    it raises [ZeroDivisionError], after everything else was computed and
    before anything is returned. *)
Definition get_performance_metrics (rm : RiskManager)
    : outcome (option PerformanceMetrics) :=
  match trade_history rm with
  | [] => Ok None
  | _ =>
      let pnls := map realized_pnl (trade_history rm) in
      let total_return := fold_left Qplus pnls 0 in
      let wins := filter (fun pnl => PyNum.Qltb 0 pnl) pnls in
      let losses := filter (fun pnl => PyNum.Qltb pnl 0) pnls in
      let win_rate :=
        inject_Z (Z.of_nat (List.length wins))
        / inject_Z (Z.of_nat (List.length pnls)) in
      let avg_win := match wins with [] => 0 | _ => Qmean wins end in
      let avg_loss := match losses with [] => 0 | _ => Qmean losses end in
      let profit_factor :=
        if negb (Qeq_bool avg_loss 0)
        then NpFloat.Fin (Qabs (avg_win / avg_loss))
        else NpFloat.PInf in
      if Qeq_bool (initial_capital rm) 0 then Raised ZeroDivisionError
      else
        Ok (Some (mkMetrics (List.length (trade_history rm)) total_return
                    win_rate avg_win avg_loss profit_factor
                    (total_return / initial_capital rm * 100)))
  end.

(** A call of one of the three state-changing methods, and its effect on
    the instance.  A call that raises leaves the instance as it was: the
    only exception is raised before the first write. *)
Inductive Call : Type :=
| CallAdd (now : Z) (symbol : string) (position_size : Z)
    (entry_price stop_loss : Q) (take_profit : option Q) (direction : string)
| CallUpdate (symbol : string) (current_price : Q)
| CallClose (now : Z) (symbol : string) (exit_price : Q) (reason : string).

Definition run_call (rm : RiskManager) (c : Call) : RiskManager :=
  match c with
  | CallAdd now symbol position_size entry_price stop_loss take_profit
      direction =>
      fst (add_position rm now symbol position_size entry_price stop_loss
             take_profit direction)
  | CallUpdate symbol current_price =>
      match update_position_pnl rm symbol current_price with
      | Ok rm' => rm'
      | Raised _ => rm
      end
  | CallClose now symbol exit_price reason =>
      match close_position rm now symbol exit_price reason with
      | Ok (rm', _) => rm'
      | Raised _ => rm
      end
  end.

Definition run_calls (rm : RiskManager) (calls : list Call) : RiskManager :=
  fold_left run_call calls rm.

(** [sum(trade['realized_pnl'] for trade in self.trade_history)]. *)
Definition realized_total (rm : RiskManager) : Q :=
  fold_left Qplus (map realized_pnl (trade_history rm)) 0.

(** The capital identity is kept by every call. *)
Definition capital_identity (rm : RiskManager) : Prop :=
  current_capital rm == initial_capital rm + realized_total rm.

(** The reasons for which [check_risk_limits] turns an entry down.  The
    drawdown among them is the one the method computes: initial capital
    minus current capital, which only closed trades move. *)
Definition class_cap_reached (rm : RiskManager) (sym : string) : Prop :=
  exists class,
    (class = FUTURES_SYMBOLS \/ class = FOREX_SYMBOLS)
    /\ mem sym class = true
    /\ (2 <= List.length
               (filter (fun s => mem s class) (keys (positions rm))))%nat.

Definition entry_rejected (rm : RiskManager) (sym : string) (sz : Z) : Prop :=
  (MAX_POSITIONS <= List.length (positions rm))%nat
  \/ mem sym (keys (positions rm)) = true
  \/ MAX_DRAWDOWN_USD <= initial_capital rm - current_capital rm
  \/ class_cap_reached rm sym
  \/ (sz <= 0)%Z.

(** The rule in the words of the specification, whose drawdown is taken
    on equity: what the equity (capital plus unrealized P&L) has lost
    since the start, never negative. *)
Definition spec_drawdown (rm : RiskManager) : Q :=
  PyNum.py_max 0
    (initial_capital rm - total_equity (get_portfolio_summary rm)).

Definition spec_entry_rejected (rm : RiskManager) (sym : string) (sz : Z)
    : Prop :=
  (MAX_POSITIONS <= List.length (positions rm))%nat
  \/ mem sym (keys (positions rm)) = true
  \/ MAX_DRAWDOWN_USD <= spec_drawdown rm
  \/ class_cap_reached rm sym
  \/ (sz <= 0)%Z.

(** The constraints on the position table. *)
Definition class_count (rm : RiskManager) (class : list string) : nat :=
  List.length (filter (fun s => mem s class) (keys (positions rm))).

Definition portfolio_ok (rm : RiskManager) : Prop :=
  NoDup (keys (positions rm))
  /\ (List.length (positions rm) <= MAX_POSITIONS)%nat
  /\ (class_count rm FUTURES_SYMBOLS <= 2)%nat
  /\ (class_count rm FOREX_SYMBOLS <= 2)%nat.

End Risk.

(* ------------------------------------------------------------------ *)
(** ** [risk_manager.py] over binary64: the capital as the interpreter
       computes it

    The three methods that change a [RiskManager], with every float a
    binary64 value and every float operation the IEEE one (round to
    nearest, ties to even).  A Python integer that meets a float is
    converted first; two integers divided by [/] give the correctly
    rounded quotient. *)

Module Risk64.

Import PrimFloat.
Local Open Scope string_scope.
Local Open Scope float_scope.

#[local] Set Warnings "-inexact-float".

(** [float(n)] as applied to the integer operand of a mixed operation:
    the nearest binary64 value, [OverflowError] beyond the range. *)
Definition float_of_int (n : Z) : outcome float :=
  let x :=
    FloatOps.SF2Prim
      (SpecFloat.binary_normalize FloatOps.prec FloatOps.emax n 0 false) in
  if is_infinity x then Raised OverflowError else Ok x.

(** [a / b] on two integers. *)
Definition int_true_div (a b : Z) : outcome float :=
  let exact (n : Z) : SpecFloat.spec_float :=
    match n with
    | Z0 => SpecFloat.S754_zero false
    | Zpos m => SpecFloat.S754_finite false m 0
    | Zneg m => SpecFloat.S754_finite true m 0
    end in
  match b with
  | Z0 => Raised ZeroDivisionError
  | _ =>
      let x :=
        FloatOps.SF2Prim
          (SpecFloat.SFdiv FloatOps.prec FloatOps.emax (exact a) (exact b)) in
      if is_infinity x then Raised OverflowError else Ok x
  end.

Definition MAX_DRAWDOWN_USD : float := 1500.

Record FuturesSpec : Type := mkFutures {
  tick_size : float;
  tick_value : float;
  margin_requirement : float
}.

Record ForexSpec : Type := mkForex {
  pip_value : float;
  spread_typical : float
}.

Definition FUTURES_SPECS (symbol : string) : option FuturesSpec :=
  if String.eqb symbol "ES" then Some (mkFutures 0.25 12.50 13200)
  else if String.eqb symbol "NQ" then Some (mkFutures 0.25 5.00 17600)
  else if String.eqb symbol "YM" then Some (mkFutures 1.0 5.00 8800)
  else None.

Definition FOREX_SPECS (symbol : string) : option ForexSpec :=
  if String.eqb symbol "AUDUSD" then Some (mkForex 0.0001 1.5)
  else if String.eqb symbol "EURUSD" then Some (mkForex 0.0001 1.0)
  else if String.eqb symbol "GBPUSD" then Some (mkForex 0.0001 1.5)
  else None.

Record Position : Type := mkPosition {
  symbol : string;
  size : Z;
  direction : string;
  entry_price : float;
  stop_loss : float;
  take_profit : option float;
  entry_time : Z;
  unrealized_pnl : float;
  max_favorable : float;
  max_adverse : float
}.

Record Trade : Type := mkTrade {
  t_symbol : string;
  t_direction : string;
  t_size : Z;
  t_entry_price : float;
  exit_price : float;
  t_entry_time : Z;
  exit_time : Z;
  realized_pnl : float;
  t_max_favorable : float;
  t_max_adverse : float;
  exit_reason : string
}.

Record RiskManager : Type := mkRM {
  initial_capital : float;
  current_capital : float;
  max_drawdown_reached : float;
  daily_pnl : float;
  positions : list (string * Position);
  trade_history : list Trade
}.

(** [RiskManager(initial_capital)]. *)
Definition init (initial_capital : float) : RiskManager :=
  mkRM initial_capital initial_capital 0 0 [] [].

Fixpoint lookup (k : string) (d : list (string * Position)) : option Position :=
  match d with
  | [] => None
  | (k', v) :: r => if String.eqb k k' then Some v else lookup k r
  end.

Fixpoint store (k : string) (v : Position) (d : list (string * Position))
    : list (string * Position) :=
  match d with
  | [] => [(k, v)]
  | (k', v') :: r =>
      if String.eqb k k' then (k, v) :: r else (k', v') :: store k v r
  end.

Fixpoint remove (k : string) (d : list (string * Position))
    : list (string * Position) :=
  match d with
  | [] => []
  | (k', v') :: r =>
      if String.eqb k k' then r else (k', v') :: remove k r
  end.

Definition keys (d : list (string * Position)) : list string := map fst d.

Definition set_positions (rm : RiskManager) (d : list (string * Position))
    : RiskManager :=
  mkRM (initial_capital rm) (current_capital rm) (max_drawdown_reached rm)
       (daily_pnl rm) d (trade_history rm).

(** [_check_correlation_limits]. *)
Definition _check_correlation_limits (rm : RiskManager) (symbol : string)
    : bool :=
  let count (symbols : list string) :=
    List.length
      (filter (fun s => Config.mem s symbols) (keys (positions rm))) in
  if Config.mem symbol Config.FUTURES_SYMBOLS
     && (2 <=? count Config.FUTURES_SYMBOLS)%nat then true
  else if Config.mem symbol Config.FOREX_SYMBOLS
          && (2 <=? count Config.FOREX_SYMBOLS)%nat then true
  else false.

(** [check_risk_limits]. *)
Definition check_risk_limits (rm : RiskManager) (symbol : string)
    (position_size : Z) (entry_price : float) : bool :=
  if (Config.MAX_POSITIONS <=? List.length (positions rm))%nat then false
  else if Config.mem symbol (keys (positions rm)) then false
  else
    let current_drawdown := initial_capital rm - current_capital rm in
    if MAX_DRAWDOWN_USD <=? current_drawdown then false
    else if _check_correlation_limits rm symbol then false
    else if (position_size <=? 0)%Z then false
    else true.

(** [add_position]. *)
Definition add_position (rm : RiskManager) (now : Z) (symbol : string)
    (position_size : Z) (entry_price stop_loss : float)
    (take_profit : option float) (direction : string) : RiskManager * bool :=
  if negb (check_risk_limits rm symbol position_size entry_price)
  then (rm, false)
  else
    let position :=
      mkPosition symbol position_size direction entry_price stop_loss
        take_profit now 0 0 0 in
    (set_positions rm (store symbol position (positions rm)), true).

(** [update_position_pnl].  Every exception it can raise (the missing
    specification, an integer size out of the float range) is raised
    before the first write. *)
Definition update_position_pnl (rm : RiskManager) (symbol : string)
    (current_price : float) : outcome RiskManager :=
  match lookup symbol (positions rm) with
  | None => Ok rm
  | Some position =>
      let pnl : outcome float :=
        if Config.mem symbol Config.FUTURES_SYMBOLS then
          match FUTURES_SPECS symbol with
          | None => Raised KeyError
          | Some specs =>
              let price_diff := current_price - entry_price position in
              let price_diff :=
                if String.eqb (direction position) "SHORT" then - price_diff
                else price_diff in
              let ticks := price_diff / tick_size specs in
              match float_of_int (size position) with
              | Raised e => Raised e
              | Ok size => Ok (ticks * tick_value specs * size)
              end
          end
        else
          match FOREX_SPECS symbol with
          | None => Raised KeyError
          | Some specs =>
              let price_diff := current_price - entry_price position in
              let price_diff :=
                if String.eqb (direction position) "SHORT" then - price_diff
                else price_diff in
              let pips := price_diff / pip_value specs in
              match int_true_div (size position) 100000 with
              | Raised e => Raised e
              | Ok lots => Ok (pips * 10 * lots)
              end
          end in
      match pnl with
      | Raised e => Raised e
      | Ok unrealized_pnl =>
          let max_favorable :=
            if max_favorable position <? unrealized_pnl
            then unrealized_pnl else max_favorable position in
          let max_adverse :=
            if unrealized_pnl <? max_adverse position
            then unrealized_pnl else max_adverse position in
          Ok (set_positions rm
                (store symbol
                   (mkPosition (Risk64.symbol position) (size position)
                      (direction position) (entry_price position)
                      (stop_loss position) (take_profit position)
                      (entry_time position) unrealized_pnl max_favorable
                      max_adverse)
                   (positions rm)))
      end
  end.

(** [close_position]: [self.current_capital += realized_pnl] is one
    float addition. *)
Definition close_position (rm : RiskManager) (now : Z) (symbol : string)
    (exit_price : float) (reason : string)
    : outcome (RiskManager * option Trade) :=
  match lookup symbol (positions rm) with
  | None => Ok (rm, None)
  | Some _ =>
      match update_position_pnl rm symbol exit_price with
      | Raised e => Raised e
      | Ok rm1 =>
          match lookup symbol (positions rm1) with
          | None => Raised KeyError
          | Some position =>
              let realized_pnl := unrealized_pnl position in
              let trade_record :=
                mkTrade symbol (direction position) (size position)
                  (entry_price position) exit_price (entry_time position) now
                  realized_pnl (max_favorable position) (max_adverse position)
                  reason in
              Ok (mkRM (initial_capital rm1)
                       (current_capital rm1 + realized_pnl)
                       (max_drawdown_reached rm1) (daily_pnl rm1)
                       (remove symbol (positions rm1))
                       (trade_history rm1 ++ [trade_record]),
                  Some trade_record)
          end
      end
  end.

Inductive Call : Type :=
| CallAdd (now : Z) (symbol : string) (position_size : Z)
    (entry_price stop_loss : float) (take_profit : option float)
    (direction : string)
| CallUpdate (symbol : string) (current_price : float)
| CallClose (now : Z) (symbol : string) (exit_price : float)
    (reason : string).

(** The effect of a call on the instance; a call that raises leaves it as
    it was. *)
Definition run_call (rm : RiskManager) (c : Call) : RiskManager :=
  match c with
  | CallAdd now symbol position_size entry_price stop_loss take_profit
      direction =>
      fst (add_position rm now symbol position_size entry_price stop_loss
             take_profit direction)
  | CallUpdate symbol current_price =>
      match update_position_pnl rm symbol current_price with
      | Ok rm' => rm'
      | Raised _ => rm
      end
  | CallClose now symbol exit_price reason =>
      match close_position rm now symbol exit_price reason with
      | Ok (rm', _) => rm'
      | Raised _ => rm
      end
  end.

Definition run_calls (rm : RiskManager) (calls : list Call) : RiskManager :=
  fold_left run_call calls rm.

(** [sum(trade['realized_pnl'] for trade in self.trade_history)]: the
    additions run from 0, left to right. *)
Definition realized_total (rm : RiskManager) : float :=
  fold_left add (map realized_pnl (trade_history rm)) 0.

(** The capital as the closes build it: the realized amounts added to
    the initial capital one after the other. *)
Definition capital_chain (rm : RiskManager) : float :=
  fold_left add (map realized_pnl (trade_history rm)) (initial_capital rm).

End Risk64.

(* ------------------------------------------------------------------ *)
(** ** [backtesting_engine.py]: the time-stepped replay *)

Module Backtest.

Import Market.
Local Open Scope string_scope.
Local Open Scope Q_scope.

(** A validated strategy signal: the keys [validate_signal] requires. *)
Record Signal : Type := mkSignal {
  symbol : string;
  direction : string;
  confidence : Q;
  sig_timestamp : Z
}.

Record EquityRow : Type := mkEquityRow {
  row_timestamp : Z;
  equity : Q;
  cash : Q;
  row_unrealized_pnl : Q;
  row_positions : nat
}.

(** What the loop mutates: the risk manager and the two local lists. *)
Record SimState : Type := mkSim {
  risk_manager : Risk.RiskManager;
  trade_log : list (option Risk.Trade);
  equity_history : list EquityRow
}.

(** The calls one iteration makes on the risk manager and the strategy,
    recorded in program order. *)
Inductive Event : Type :=
| EvUpdatePnl (symbol : string) (price : Q)
| EvCheckStop (symbol : string) (price : Q) (hit : bool)
| EvCheckTarget (symbol : string) (price : Q) (hit : bool)
| EvClose (symbol : string) (price : Q) (reason : string)
| EvExecuteStrategy (timestamp : Z)
| EvEntryExit (symbol : string)
| EvPositionSize (symbol : string)
| EvAddPosition (symbol : string) (accepted : bool)
| EvRecordEquity (timestamp : Z).

(** State, event log and exceptions of the loop body. *)
Definition M (A : Type) : Type := SimState -> list Event * SimState * outcome A.

Definition ret (A : Type) (a : A) : M A := fun s => ([], s, Ok a).

Definition bind (A B : Type) (m : M A) (f : A -> M B) : M B :=
  fun s =>
    let '(e1, s1, r) := m s in
    match r with
    | Ok a => let '(e2, s2, r2) := f a s1 in ((e1 ++ e2)%list, s2, r2)
    | Raised x => (e1, s1, Raised x)
    end.

Notation "x <- m ;; k" := (bind m (fun x => k))
  (at level 61, m at next level, right associativity).
Notation "m ;;; k" := (bind m (fun _ => k))
  (at level 61, right associativity).

Definition emit (e : Event) : M unit := fun s => ([e], s, Ok tt).
Definition get : M SimState := fun s => ([], s, Ok s).
Definition put (s : SimState) : M unit := fun _ => ([], s, Ok tt).
Definition raise (A : Type) (e : exn) : M A := fun s => ([], s, Raised e).

Arguments raise {A} e.

Definition set_rm (s : SimState) (rm : Risk.RiskManager) : SimState :=
  mkSim rm (trade_log s) (equity_history s).

Fixpoint for_each (A : Type) (l : list A) (body : A -> M unit) : M unit :=
  match l with
  | [] => ret tt
  | x :: r => body x ;;; for_each r body
  end.

Definition events_of (A : Type) (m : M A) (s : SimState) : list Event :=
  fst (fst (m s)).

(** The risk-manager methods as steps of the loop. *)
Definition update_position_pnl (symbol : string) (price : Q) : M unit :=
  emit (EvUpdatePnl symbol price) ;;;
  s <- get ;;
  match Risk.update_position_pnl (risk_manager s) symbol price with
  | Ok rm => put (set_rm s rm)
  | Raised e => raise e
  end.

Definition check_stop_loss (symbol : string) (price : Q) : M bool :=
  s <- get ;;
  let hit := Risk.check_stop_loss (risk_manager s) symbol price in
  emit (EvCheckStop symbol price hit) ;;; ret hit.

Definition check_take_profit (symbol : string) (price : Q) : M bool :=
  s <- get ;;
  let hit := Risk.check_take_profit (risk_manager s) symbol price in
  emit (EvCheckTarget symbol price hit) ;;; ret hit.

Section Replay.

(** The strategy under test, [strategy.execute_strategy] and
    [strategy.calculate_entry_exit], and the wall clock read by the risk
    manager when it stamps entries and exits. *)
Variable execute_strategy : list (string * DataFrame) -> list Signal.
Variable calculate_entry_exit :
  string -> DataFrame -> Signal -> Q * Q * option Q.
Variable now : Z.

(** [trade = close_position(...); trade_log.append(trade)]. *)
Definition close_position (symbol : string) (price : Q) (reason : string)
    : M unit :=
  emit (EvClose symbol price reason) ;;;
  s <- get ;;
  match Risk.close_position (risk_manager s) now symbol price reason with
  | Ok (rm, trade) =>
      put (mkSim rm (trade_log s ++ [trade]) (equity_history s))
  | Raised e => raise e
  end.

Fixpoint lookup_data (symbol : string) (d : list (string * DataFrame))
    : option DataFrame :=
  match d with
  | [] => None
  | (k, df) :: r => if String.eqb symbol k then Some df else lookup_data symbol r
  end.

(** The data slice of every symbol that has a bar at [timestamp]:
    [df.loc[:timestamp]] on the increasing index, kept when it has at
    least 20 rows. *)
Definition current_slices (all_data : list (string * DataFrame))
    (timestamp : Z) : list (string * DataFrame) :=
  flat_map
    (fun '(symbol, df) =>
       if existsb (fun b => (Market.timestamp b =? timestamp)%Z) df then
         let current_slice :=
           filter (fun b => (Market.timestamp b <=? timestamp)%Z) df in
         if (20 <=? List.length current_slice)%nat
         then [(symbol, current_slice)] else []
       else [])
    all_data.

(** The body of [for symbol in list(risk_manager.positions.keys())]. *)
Definition manage_position (current_data : list (string * DataFrame))
    (symbol : string) : M unit :=
  match lookup_data symbol current_data with
  | None => ret tt
  | Some df =>
      match last_row df with
      | None => raise IndexError
      | Some final =>
          let current_price := close final in
          update_position_pnl symbol current_price ;;;
          stop <- check_stop_loss symbol current_price ;;
          if stop then close_position symbol current_price "STOP_LOSS"
          else
            target <- check_take_profit symbol current_price ;;
            if target then close_position symbol current_price "TAKE_PROFIT"
            else ret tt
      end
  end.

(** The body of [for signal in signals]. *)
Definition process_signal (current_data : list (string * DataFrame))
    (signal : Signal) : M unit :=
  match lookup_data (symbol signal) current_data with
  | None => ret tt
  | Some df =>
      emit (EvEntryExit (symbol signal)) ;;;
      let '(entry_price, stop_loss, take_profit) :=
        calculate_entry_exit (symbol signal) df signal in
      emit (EvPositionSize (symbol signal)) ;;;
      s <- get ;;
      let position_size :=
        Risk.calculate_position_size (symbol signal) entry_price stop_loss
          (Risk.current_capital (risk_manager s)) in
      let '(rm, accepted) :=
        Risk.add_position (risk_manager s) now (symbol signal) position_size
          entry_price stop_loss take_profit (direction signal) in
      emit (EvAddPosition (symbol signal) accepted) ;;;
      put (set_rm s rm)
  end.

(** Steps "update existing positions" and "generate and process signals"
    of one iteration, then the equity record. *)
Definition manage_open_positions (current_data : list (string * DataFrame))
    : M unit :=
  s <- get ;;
  for_each (Risk.keys (Risk.positions (risk_manager s)))
           (manage_position current_data).

Definition open_new_positions (current_data : list (string * DataFrame))
    (timestamp : Z) : M unit :=
  emit (EvExecuteStrategy timestamp) ;;;
  for_each (execute_strategy current_data) (process_signal current_data).

Definition record_equity (timestamp : Z) : M unit :=
  emit (EvRecordEquity timestamp) ;;;
  s <- get ;;
  let summary := Risk.get_portfolio_summary (risk_manager s) in
  put (mkSim (risk_manager s) (trade_log s)
         (equity_history s
          ++ [mkEquityRow timestamp (Risk.total_equity summary)
                (Risk.s_current_capital summary)
                (Risk.s_unrealized_pnl summary)
                (Risk.positions_count summary)])).

(** One iteration of [for i, timestamp in enumerate(timestamps)]. *)
Definition simulate_step (all_data : list (string * DataFrame))
    (timestamp : Z) : M unit :=
  let current_data := current_slices all_data timestamp in
  match current_data with
  | [] => ret tt
  | _ =>
      manage_open_positions current_data ;;;
      open_new_positions current_data timestamp ;;;
      record_equity timestamp
  end.

(** [sorted(all_timestamps)] of the set of all index labels. *)
Fixpoint insert_unique (t : Z) (l : list Z) : list Z :=
  match l with
  | [] => [t]
  | x :: r =>
      if (t <? x)%Z then t :: l
      else if (t =? x)%Z then l
      else x :: insert_unique t r
  end.

Definition all_timestamps (all_data : list (string * DataFrame)) : list Z :=
  fold_left (fun acc t => insert_unique t acc)
    (flat_map (fun kv => map Market.timestamp (snd kv)) all_data) [].

Record Results : Type := mkResults {
  res_equity_history : list EquityRow;
  res_trade_log : list (option Risk.Trade);
  final_portfolio : Risk.PortfolioSummary;
  performance_metrics : option Risk.PerformanceMetrics
}.

(** [_simulate_trading].  The result dictionary is built after the loop;
    its last entry, [get_performance_metrics()], can raise. *)
Definition _simulate_trading (rm : Risk.RiskManager)
    (all_data : list (string * DataFrame))
    : list Event * outcome Results :=
  let '(events, s, r) :=
    for_each (all_timestamps all_data) (simulate_step all_data)
             (mkSim rm [] []) in
  (events,
   match r with
   | Raised e => Raised e
   | Ok _ =>
       match Risk.get_performance_metrics (risk_manager s) with
       | Raised e => Raised e
       | Ok performance_metrics =>
           Ok (mkResults (equity_history s) (trade_log s)
                 (Risk.get_portfolio_summary (risk_manager s))
                 performance_metrics)
       end
   end).

End Replay.





(** A step that leaves the equity history as it found it. *)
Definition keeps_equity (A : Type) (m : M A) : Prop :=
  forall s, equity_history (snd (fst (m s))) = equity_history s.

(** Whether [current_data] is non-empty at [timestamp]: some symbol has
    a bar there and at least 20 rows up to it. *)
Definition has_current_data (all_data : list (string * DataFrame))
    (timestamp : Z) : bool :=
  match current_slices all_data timestamp with
  | [] => false
  | _ => true
  end.

(** The identity every equity row is recorded with. *)
Definition equity_balanced (row : EquityRow) : Prop :=
  equity row == cash row + row_unrealized_pnl row.





End Backtest.

(* ------------------------------------------------------------------ *)
(** ** [backtesting_engine.py]: performance metrics of a run *)

Module Performance.

Import NpFloat.
Local Open Scope Q_scope.

(** [series.pct_change()]: NaN first, then [x / previous - 1]. *)
Fixpoint pct_change_from (previous : Q) (xs : list Q) : list NpFloat.t :=
  match xs with
  | [] => []
  | x :: r => sub (div (Fin x) (Fin previous)) (Fin 1) :: pct_change_from x r
  end.

Definition pct_change (xs : list Q) : list NpFloat.t :=
  match xs with
  | [] => []
  | x :: r => NaN :: pct_change_from x r
  end.

(** [series.expanding().max()]. *)
Fixpoint expanding_max_from (peak : Q) (xs : list Q) : list Q :=
  match xs with
  | [] => []
  | x :: r =>
      let peak := PyNum.py_max peak x in
      peak :: expanding_max_from peak r
  end.

Definition expanding_max (xs : list Q) : list Q :=
  match xs with
  | [] => []
  | x :: r => x :: expanding_max_from x r
  end.

Record Metrics : Type := mkMetrics {
  total_return_pct : NpFloat.t;
  total_return_usd : Q;
  volatility_pct : NpFloat.t;
  sharpe_ratio : NpFloat.t;
  max_drawdown_pct : NpFloat.t;
  calmar_ratio : NpFloat.t;
  final_equity : Q;
  trade_metrics : option Risk.PerformanceMetrics
}.

(** The Sharpe expression of the source, on the daily-return column. *)
Definition sharpe_of (daily_return : list NpFloat.t) : NpFloat.t :=
  div (mul (series_mean daily_return) (Fin 252))
      (mul (series_std daily_return) (sqrt (Fin 252))).

(** [_calculate_performance_metrics]; [Ok None] is the empty dictionary of
    an empty equity history.  The equity column is a numpy column, so its
    divisions do not raise; the call of [get_performance_metrics] can. *)
Definition _calculate_performance_metrics (initial_capital : Q)
    (equity_history : list Backtest.EquityRow) (rm : Risk.RiskManager)
    : outcome (option Metrics) :=
  let equity := map Backtest.equity equity_history in
  match rev equity with
  | [] => Ok None
  | final :: _ =>
      let total_return :=
        div (Fin (final - initial_capital)) (Fin initial_capital) in
      let daily_return := pct_change equity in
      let volatility := mul (series_std daily_return) (sqrt (Fin 252)) in
      let sharpe_ratio := sharpe_of daily_return in
      let peak := expanding_max equity in
      let drawdown :=
        map (fun '(e, p) => div (Fin (e - p)) (Fin p)) (combine equity peak) in
      let max_drawdown := series_min drawdown in
      match Risk.get_performance_metrics rm with
      | Raised e => Raised e
      | Ok trade_metrics =>
          Ok (Some (mkMetrics
                      (mul total_return (Fin 100))
                      (final - initial_capital)
                      (mul volatility (Fin 100))
                      sharpe_ratio
                      (mul max_drawdown (Fin 100))
                      (if nonzero max_drawdown
                       then div (mul total_return (Fin 100))
                                (abs (mul max_drawdown (Fin 100)))
                       else Fin 0)
                      final
                      trade_metrics))
      end
  end.

End Performance.

(* ------------------------------------------------------------------ *)
(** ** Concrete inputs used by the examples below *)

Module Fixtures.

Local Open Scope string_scope.
Local Open Scope Q_scope.

(** An hourly bar of an index trading between 4420 and 4500. *)
Definition index_bar (ts : Z) : Market.Bar :=
  Market.mkBar ts 4457 4500 4420 4457 1000.

(** [n] consecutive hourly bars starting at midnight of day 0. *)
Definition hourly_window (n : nat) : Market.DataFrame :=
  map (fun i => index_bar (Z.of_nat i * 3600)) (seq 0 n).

(** The 24 hourly bars of one full day. *)
Definition hourly_day : Market.DataFrame := hourly_window 24.

Definition forex_config : Strategy.Config :=
  Strategy.mkConfig "day_trading" "forex" (2 # 100) 3.

Definition index_config : Strategy.Config :=
  Strategy.mkConfig "day_trading" "indices" (2 # 100) 3.

(** A signal whose raw strength is negative, and a quiet snapshot: phase
    accumulation, no level, equilibrium zone, no pattern. *)
Definition weak_signal : Strategy.Signal :=
  Strategy.mkSignal "manual" "long" (Some (- (1 # 2))) None None None None.

Definition quiet_snapshot : Strategy.Snapshot :=
  Strategy.mkSnapshot 0 100 81
    (PO3.mkDealingRange 81 162 (243 # 2) (13527 # 100) (10773 # 100) 81 100)
    (Strategy.mkPricePosition "equilibrium" (1 # 2) 1)
    [] None None AMD.accumulation None [].

(** One ES contract bought at 4500 and closed at 4510: a single winning
    trade of 500 dollars. *)
Definition one_open_position : Risk.RiskManager :=
  Risk.run_calls (Risk.init 100000)
    [Risk.CallAdd 0 "ES" 1 4500 4480 (Some 4510) "LONG"].

Definition one_winning_trade : Risk.RiskManager :=
  Risk.run_calls one_open_position [Risk.CallClose 1 "ES" 4510 "TAKE_PROFIT"].

(** Three daily equity records of a portfolio that never moved. *)
Definition flat_equity : list Backtest.EquityRow :=
  map (fun d => Backtest.mkEquityRow (d * 86400) 100000 100000 0 0)
      [0; 1; 2]%Z.

(** A long ES position whose stop (4480) lies above its target (4450):
    at a close of 4457 both the stop and the target conditions hold. *)
Definition conflicted_position : Backtest.SimState :=
  Backtest.mkSim
    (Risk.run_calls (Risk.init 100000)
       [Risk.CallAdd 0 "ES" 1 4500 4480 (Some 4450) "LONG"])
    [] [].

Definition es_data : list (string * Market.DataFrame) :=
  [("ES", hourly_window 20)].

(** The snapshot of 100 hourly index bars and its first candidate. *)
Definition index_snapshot : Strategy.Snapshot :=
  match Strategy.analyze_market index_config "None" 0 (hourly_window 100) with
  | Ok (Some a) => a
  | _ => quiet_snapshot
  end.

Definition index_candidate : Strategy.Signal :=
  hd weak_signal (Strategy.candidates index_snapshot).

(** Three candles separated by two upward gaps of 6 and 7 pips. *)
Definition gapped_candles : Market.DataFrame :=
  [ Market.mkBar 0 (10800 # 10000) (10810 # 10000) (10795 # 10000)
      (10805 # 10000) 0;
    Market.mkBar 1 (10818 # 10000) (10825 # 10000) (10816 # 10000)
      (10822 # 10000) 0;
    Market.mkBar 2 (10834 # 10000) (10840 # 10000) (10832 # 10000)
      (10838 # 10000) 0 ].

(** Hourly bars with an upper wick of 9 points and a lower wick of 5. *)
Definition wick_bar (ts : Z) : Market.Bar :=
  Market.mkBar ts 100 109 95 100 1000.

Definition wick_window : Market.DataFrame :=
  [wick_bar 0; wick_bar 3600; wick_bar 7200].

(** The 27-point dealing range around 4457: every index bar, with its
    high of 4500, reaches outside it. *)
Definition tight_range : PO3.DealingRange :=
  match PO3.calculate_dealing_range 4457 27 "indices" with
  | Some r => r
  | None => PO3.mkDealingRange 0 0 0 0 0 0 0
  end.

(** The position of [one_open_position]. *)
Definition es_long : Risk.Position :=
  Risk.mkPosition "ES" 1 "LONG" 4500 4480 (Some 4510) 0 0 0 0.

(** The same entry with its direction in lower case, and an entry in a
    symbol of neither instrument table. *)
Definition lowercase_position : Risk.RiskManager :=
  Risk.run_calls (Risk.init 100000)
    [Risk.CallAdd 0 "ES" 1 4500 4480 (Some 4510) "long"].

Definition es_lower : Risk.Position :=
  Risk.mkPosition "ES" 1 "long" 4500 4480 (Some 4510) 0 0 0 0.

Definition unlisted_position : Risk.RiskManager :=
  Risk.run_calls (Risk.init 100000)
    [Risk.CallAdd 0 "BTC" 1 100 90 None "LONG"].

Definition btc_long : Risk.Position :=
  Risk.mkPosition "BTC" 1 "LONG" 100 90 None 0 0 0 0.

Definition round_trip : list Risk.Call :=
  [ Risk.CallAdd 0 "ES" 1 4500 4480 (Some 4510) "LONG";
    Risk.CallClose 1 "ES" 4510 "TAKE_PROFIT" ].

(** Two ES contracts bought at 4500 and marked at 4480: 2000 dollars of
    unrealized loss, nothing realized. *)
Definition losing_open_position : Risk.RiskManager :=
  Risk.run_calls (Risk.init 100000)
    [ Risk.CallAdd 0 "ES" 2 4500 4470 None "LONG";
      Risk.CallUpdate "ES" 4480 ].

(** The cycle of the full day of hourly bars. *)
Definition hourly_cycle : AMD.AMDCycle :=
  match AMD.identify_daily_amd_cycle hourly_day None with
  | Ok (Some c) => c
  | _ => AMD.mkCycle 0 AMD.empty_phase AMD.empty_phase AMD.empty_phase
  end.

(** A strategy that never signals. *)
Definition silent_strategy (current_data : list (string * Market.DataFrame))
    : list Backtest.Signal := [].

Definition no_entry_exit (symbol : string) (df : Market.DataFrame)
    (signal : Backtest.Signal) : Q * Q * option Q := (0, 0, None).

(** The position of [one_open_position] at the start of an iteration,
    and the same position taken in NQ. *)
Definition open_es : Backtest.SimState :=
  Backtest.mkSim one_open_position [] [].



(** The state the management step leaves from [open_es] at the
    twentieth hour of [es_data]. *)
Definition open_es_managed : Backtest.SimState :=
  snd (fst (Backtest.manage_open_positions 0
              (Backtest.current_slices es_data (19 * 3600)) open_es)).


End Fixtures.

(** Binary64 fixtures. *)
Module Fixtures64.

Import PrimFloat.
Local Open Scope string_scope.
Local Open Scope float_scope.

#[local] Set Warnings "-inexact-float".

(** Two EURUSD round trips of 1000 units, each bought at 1.1 and closed
    at 1.1001, one after the other. *)
Definition two_round_trips : list Risk64.Call :=
  [ Risk64.CallAdd 0 "EURUSD" 1000 1.1 1.09 None "LONG";
    Risk64.CallClose 1 "EURUSD" 1.1001 "MANUAL";
    Risk64.CallAdd 2 "EURUSD" 1000 1.1 1.09 None "LONG";
    Risk64.CallClose 3 "EURUSD" 1.1001 "MANUAL" ].

Definition after_two_round_trips : Risk64.RiskManager :=
  Risk64.run_calls (Risk64.init 100000) two_round_trips.

End Fixtures64.

(* ================================================================== *)
(** * Properties *)

(* ------------------------------------------------------------------ *)
(** ** Comparison and rounding helpers *)

Module PyNumFacts.

Import PyNum.
Local Open Scope Q_scope.

Lemma Qltb_lt (a b : Q) : Qltb a b = true <-> a < b.
Proof.
  unfold Qltb. rewrite negb_true_iff. split; intro H.
  - apply Qnot_le_lt. intro Hle. apply Qle_bool_iff in Hle. congruence.
  - destruct (Qle_bool b a) eqn:E; [|reflexivity].
    apply Qle_bool_iff in E. exfalso. exact (Qlt_not_le _ _ H E).
Qed.

Lemma Qltb_ge (a b : Q) : Qltb a b = false <-> b <= a.
Proof.
  unfold Qltb. rewrite negb_false_iff. apply Qle_bool_iff.
Qed.

Lemma py_min_case (a b : Q) :
  (a <= b /\ py_min a b = a) \/ (b < a /\ py_min a b = b).
Proof.
  unfold py_min. destruct (Qltb b a) eqn:E.
  - right. apply Qltb_lt in E. auto.
  - left. apply Qltb_ge in E. auto.
Qed.

Lemma py_max_case (a b : Q) :
  (b <= a /\ py_max a b = a) \/ (a < b /\ py_max a b = b).
Proof.
  unfold py_max. destruct (Qltb a b) eqn:E.
  - right. apply Qltb_lt in E. auto.
  - left. apply Qltb_ge in E. auto.
Qed.


(** [int(x)] of a non-negative float is its floor. *)
Lemma py_int_floor (q : Q) : 0 <= q -> py_int q = Qfloor q.
Proof.
  destruct q as [n d]. unfold Qle, py_int, Qfloor. simpl. intro H.
  apply Z.quot_div_nonneg; lia.
Qed.

Lemma py_int_nonneg (q : Q) : 0 <= q -> (0 <= py_int q)%Z.
Proof.
  intro H. rewrite (py_int_floor H).
  destruct q as [n d]. unfold Qle in H. simpl in *.
  apply Z.div_pos; lia.
Qed.

Lemma py_int_le (q : Q) : 0 <= q -> inject_Z (py_int q) <= q.
Proof.
  intro H. rewrite (py_int_floor H). apply Qfloor_le.
Qed.

Lemma Qle_div_mult (a b c : Q) : 0 < c -> a <= b / c -> a * c <= b.
Proof.
  intros Hc H.
  assert (E : b / c * c == b) by (field; lra).
  rewrite <- E. apply Qmult_le_compat_r; [exact H | lra].
Qed.

Lemma Qdiv_nonneg (a b : Q) : 0 <= a -> 0 < b -> 0 <= a / b.
Proof.
  intros Ha Hb. apply Qle_shift_div_l; [exact Hb | lra].
Qed.

Lemma Qdiv_pos (a b : Q) : 0 < a -> 0 < b -> 0 < a / b.
Proof.
  intros Ha Hb. apply Qlt_shift_div_l; [exact Hb | lra].
Qed.

Lemma Qeq_bool_pos (x : Q) : 0 < x -> Qeq_bool x 0 = false.
Proof.
  intro H. destruct (Qeq_bool x 0) eqn:E; [|reflexivity].
  apply Qeq_bool_iff in E. lra.
Qed.

End PyNumFacts.

(* ------------------------------------------------------------------ *)
(** ** Slices of lists *)

Module ListFacts.

Lemma In_firstn (A : Type) (n : nat) : forall (l : list A) (x : A),
  In x (firstn n l) -> In x l.
Proof.
  induction n as [|n IH]; intros [|y r] x H; simpl in *; try contradiction.
  destruct H as [-> | H]; auto.
Qed.

Lemma In_skipn (A : Type) (n : nat) : forall (l : list A) (x : A),
  In x (skipn n l) -> In x l.
Proof.
  induction n as [|n IH]; intros [|y r] x H; simpl in *; auto.
Qed.

Lemma In_tail (A : Type) (n : nat) (l : list A) (x : A) :
  In x (Market.tail n l) -> In x l.
Proof. apply In_skipn. Qed.

Lemma length_tail (A : Type) (n : nat) (l : list A) :
  (n <= List.length l)%nat -> List.length (Market.tail n l) = n.
Proof.
  intro H. unfold Market.tail. rewrite length_skipn. lia.
Qed.

End ListFacts.

(* ------------------------------------------------------------------ *)
(** ** Formatting a price and reading its digits back *)

Module PyStrFacts.

Import PyStr.
Local Open Scope string_scope.

#[local] Arguments digit_char : simpl never.
#[local] Arguments is_digit : simpl never.
#[local] Arguments digit_val : simpl never.

Lemma is_digit_digit_char (d : Z) : is_digit (digit_char d) = true.
Proof.
  unfold digit_char.
  assert (H : (Z.to_nat (d mod 10) < 10)%nat).
  { pose proof (Z.mod_pos_bound d 10 ltac:(lia)). lia. }
  remember (Z.to_nat (d mod 10)) as k eqn:E. clear E.
  do 10 (destruct k as [|k]; [reflexivity|]). lia.
Qed.

Lemma all_digits_app (a b : string) :
  all_digits (a ++ b) = all_digits a && all_digits b.
Proof.
  induction a as [|c a IH]; cbn; [reflexivity|].
  now rewrite IH, andb_assoc.
Qed.

Lemma all_digits_digits_aux (fuel : nat) : forall n acc,
  all_digits acc = true -> all_digits (digits_aux fuel n acc) = true.
Proof.
  induction fuel as [|f IH]; intros n acc H; cbn; [exact H|].
  assert (H' : all_digits (String (digit_char n) acc) = true).
  { cbn. now rewrite is_digit_digit_char. }
  destruct (n / 10 =? 0)%Z; [exact H'|]. now apply IH.
Qed.

Lemma digits_aux_nonempty (fuel : nat) : forall n acc,
  (0 < String.length acc)%nat ->
  (0 < String.length (digits_aux fuel n acc))%nat.
Proof.
  induction fuel as [|f IH]; intros n acc H; cbn; [exact H|].
  destruct (n / 10 =? 0)%Z; [cbn; lia|]. apply IH. cbn; lia.
Qed.

Lemma str_of_nonneg_digits (n : Z) : all_digits (str_of_nonneg n) = true.
Proof. now apply all_digits_digits_aux. Qed.

Lemma str_of_nonneg_nonempty (n : Z) :
  (0 < String.length (str_of_nonneg n))%nat.
Proof.
  unfold str_of_nonneg. cbn.
  destruct (n / 10 =? 0)%Z; [cbn; lia|].
  apply digits_aux_nonempty. cbn; lia.
Qed.

Lemma all_digits_zeros (k : nat) : all_digits (zeros k) = true.
Proof. induction k; cbn; auto. Qed.

Lemma length_zeros (k : nat) : String.length (zeros k) = k.
Proof. induction k; cbn; auto. Qed.

Lemma length_app (a b : string) :
  String.length (a ++ b) = (String.length a + String.length b)%nat.
Proof. induction a; cbn; auto. Qed.

Lemma pad5_digits (n : Z) : all_digits (pad5 n) = true.
Proof.
  unfold pad5. now rewrite all_digits_app, all_digits_zeros, str_of_nonneg_digits.
Qed.

Lemma is_digit_not_punct (c : ascii) :
  is_digit c = true ->
  Ascii.eqb c "." = false /\ Ascii.eqb c "-" = false /\ Ascii.eqb c "+" = false.
Proof.
  intro H. repeat split.
  - destruct (Ascii.eqb_spec c "."); [subst; discriminate|reflexivity].
  - destruct (Ascii.eqb_spec c "-"); [subst; discriminate|reflexivity].
  - destruct (Ascii.eqb_spec c "+"); [subst; discriminate|reflexivity].
Qed.

Lemma remove_char_app (c : ascii) (a b : string) :
  remove_char c (a ++ b) = remove_char c a ++ remove_char c b.
Proof.
  induction a as [|x a IH]; cbn; [reflexivity|].
  destruct (Ascii.eqb x c); cbn; now rewrite IH.
Qed.

Lemma remove_dot_digits (s : string) :
  all_digits s = true -> remove_char "." s = s.
Proof.
  induction s as [|c s IH]; cbn; [reflexivity|].
  intro H. apply andb_true_iff in H. destruct H as [Hc Hs].
  destruct (is_digit_not_punct c Hc) as (-> & _). now rewrite IH.
Qed.

Lemma all_digits_take (k : nat) : forall s,
  all_digits s = true -> all_digits (take k s) = true.
Proof.
  induction k as [|k IH]; intros [|c s] H; cbn; try reflexivity.
  cbn in H. apply andb_true_iff in H. destruct H as [Hc Hs].
  now rewrite Hc, IH.
Qed.

Lemma parse_digits_total (s : string) : forall acc,
  all_digits s = true -> exists z, parse_digits s acc = Some z.
Proof.
  induction s as [|c s IH]; intros acc H; cbn.
  - now exists acc.
  - cbn in H. apply andb_true_iff in H. destruct H as [Hc Hs].
    unfold is_digit in Hc. destruct (digit_val c); [|discriminate].
    now apply IH.
Qed.

(** [int(...)] succeeds on a non-empty run of digits, and on a minus sign
    followed by one. *)
Lemma py_int_of_digits (s : string) :
  all_digits s = true -> (0 < String.length s)%nat ->
  exists z, py_int_of_str s = Some z.
Proof.
  destruct s as [|c s]; cbn; [lia|]. intros H _.
  pose proof H as H'. apply andb_true_iff in H. destruct H as [Hc Hs].
  destruct (is_digit_not_punct c Hc) as (_ & -> & ->).
  now apply (parse_digits_total (String c s) 0).
Qed.

Lemma py_int_of_minus_digits (s : string) :
  all_digits s = true -> (0 < String.length s)%nat ->
  exists z, py_int_of_str (String "-" s) = Some z.
Proof.
  intros H Hlen. destruct s as [|c s]; [cbn in Hlen; lia|].
  destruct (parse_digits_total (String c s) 0 H) as [z Hz].
  exists (- z)%Z. unfold py_int_of_str.
  change (Ascii.eqb "-" "-") with true. cbv iota. now rewrite Hz.
Qed.

Lemma take_nonempty (k : nat) (s : string) :
  (0 < k)%nat -> (0 < String.length s)%nat ->
  (0 < String.length (take k s))%nat.
Proof.
  destruct k; [lia|]. destruct s; cbn; lia.
Qed.

(** The price digits read by the forex branch always parse. *)
Lemma forex_digits_parse (q : Q) :
  exists z,
    py_int_of_str (take 5 (remove_char "." (format_5f q))) = Some z.
Proof.
  unfold format_5f.
  set (n := PyNum.round_half_even _).
  set (D := str_of_nonneg (n / 100000)).
  set (P := pad5 (n mod 100000)).
  assert (HD : all_digits D = true) by apply str_of_nonneg_digits.
  assert (HP : all_digits P = true) by apply pad5_digits.
  assert (HDl : (0 < String.length D)%nat) by apply str_of_nonneg_nonempty.
  assert (HX : all_digits (D ++ P) = true)
    by now rewrite all_digits_app, HD, HP.
  assert (HXl : (0 < String.length (D ++ P))%nat)
    by (rewrite length_app; lia).
  assert (Hrm : remove_char "." (D ++ "." ++ P) = D ++ P).
  { rewrite remove_char_app, (remove_dot_digits D HD).
    change (remove_char "." ("." ++ P)) with (remove_char "." P).
    now rewrite (remove_dot_digits P HP). }
  destruct (PyNum.Qltb q 0).
  - change ("-" ++ D ++ "." ++ P) with (String "-" (D ++ "." ++ P)).
    change (remove_char "." (String "-" (D ++ "." ++ P)))
      with (String "-" (remove_char "." (D ++ "." ++ P))).
    rewrite Hrm.
    change (take 5 (String "-" (D ++ P))) with (String "-" (take 4 (D ++ P))).
    apply py_int_of_minus_digits.
    + now apply all_digits_take.
    + apply take_nonempty; [lia|exact HXl].
  - change ("" ++ D ++ "." ++ P) with (D ++ "." ++ P).
    rewrite Hrm. apply py_int_of_digits.
    + now apply all_digits_take.
    + apply take_nonempty; [lia|exact HXl].
Qed.

End PyStrFacts.

(* ------------------------------------------------------------------ *)
(** ** Dealing ranges *)

Module PO3Facts.

Import PO3.
Local Open Scope Q_scope.

Lemma inject_Z_pos (z : Z) : (0 < z)%Z -> 0 < inject_Z z.
Proof.
  intro H. unfold Qlt, inject_Z. simpl. lia.
Qed.

Lemma Qhalf (x : Q) : x / 2 == x * (1 # 2).
Proof. reflexivity. Qed.

(** Outside the forex branch the five levels are in order. *)
Lemma levels_ordered_other_assets (price : Q) (po3 : Z) (asset : string) :
  (0 < po3)%Z -> String.eqb asset "forex" = false ->
  exists r, calculate_dealing_range price po3 asset = Some r
            /\ levels_ordered r.
Proof.
  intros Hpos Hasset. unfold calculate_dealing_range. rewrite Hasset.
  assert (Hz : (po3 =? 0)%Z = false) by (apply Z.eqb_neq; lia).
  rewrite Hz. eexists. split; [reflexivity|].
  unfold levels_ordered; simpl.
  set (lo := (PyNum.py_int price / po3 * po3)%Z).
  rewrite inject_Z_plus.
  pose proof (inject_Z_pos Hpos) as Hb.
  set (a := inject_Z lo) in *. set (b := inject_Z po3) in *.
  clearbody a b. repeat split; rewrite ?Qhalf; lra.
Qed.


Lemma dealing_range_total (price : Q) (po3 : Z) (asset : string) :
  po3 <> 0%Z -> exists r, calculate_dealing_range price po3 asset = Some r.
Proof.
  intro Hz. apply Z.eqb_neq in Hz. unfold calculate_dealing_range.
  destruct (String.eqb asset "forex").
  - destruct (PyStrFacts.forex_digits_parse price) as [z ->].
    rewrite Hz. eauto.
  - rewrite Hz. eauto.
Qed.

(** A dealing range is never empty: its size is the PO3 number, scaled. *)
Lemma dealing_range_size (price : Q) (po3 : Z) (asset : string) r :
  calculate_dealing_range price po3 asset = Some r ->
  ~ range_high r - range_low r == 0.
Proof.
  unfold calculate_dealing_range.
  destruct (if String.eqb asset "forex" then _ else _) as [base|];
    [|discriminate].
  destruct (po3 =? 0)%Z eqn:Hz; [discriminate|].
  apply Z.eqb_neq in Hz.
  intro H. inversion H; subst; clear H. simpl.
  set (lo := (base / po3 * po3)%Z).
  assert (Hp : ~ inject_Z po3 == 0).
  { unfold Qeq, inject_Z. simpl. lia. }
  rewrite inject_Z_plus.
  set (a := inject_Z lo) in *. set (b := inject_Z po3) in *. clearbody a b.
  destruct (String.eqb asset "forex"); intro E; apply Hp.
  - change (inject_Z (10 ^ (5 - 1))) with (10000 # 1) in E.
    assert (E' : (a + b) / (10000 # 1) - a / (10000 # 1) == b * (1 # 10000))
      by (unfold Qdiv; change (/ (10000 # 1)) with (1 # 10000); ring).
    rewrite E' in E. lra.
  - lra.
Qed.

(** C1, at a forex price: for the price 1.08345 and the PO3 number 81 the
    range is 1.0773 to 1.0854, while the two thresholds come out as
    0.00278073 and 0.00553473, below the range; the five levels are not in
    order. *)
Theorem forex_thresholds_out_of_order :
  exists r,
    calculate_dealing_range (108345 # 100000) 81 "forex" = Some r
    /\ range_low r == 10773 # 10000
    /\ range_high r == 10854 # 10000
    /\ discount_threshold r == 278073 # 100000000
    /\ premium_threshold r == 553473 # 100000000
    /\ discount_threshold r < range_low r
    /\ ~ levels_ordered r.
Proof.
  eexists. split; [vm_compute; reflexivity|].
  repeat split; try (vm_compute; reflexivity).
  intros (H & _). vm_compute in H. exact (H eq_refl).
Qed.

(** *** Ranges of the other assets *)

(** X17: outside the forex branch, for a positive PO3 number and a
    non-negative price whose integer part plus the PO3 number stays
    within 2^52 (the magnitudes at which the integers of the range, and
    the sum of its two ends, are floats without rounding), the dealing
    range starts at a multiple of the PO3 number, is exactly one PO3
    number wide, contains the price (low end included, high end
    excluded) and has its five levels in order. *)
Theorem other_asset_range_contains_price (price : Q) (po3 : Z) (asset : string) :
  (0 < po3)%Z -> String.eqb asset "forex" = false -> 0 <= price ->
  (PyNum.py_int price + po3 <= 2 ^ 52)%Z ->
  exists r,
    calculate_dealing_range price po3 asset = Some r
    /\ (exists k, range_low r = inject_Z (k * po3))
    /\ range_high r - range_low r == inject_Z po3
    /\ range_low r <= price < range_high r
    /\ levels_ordered r.
Proof.
  intros Hpos Hasset Hprice _.
  destruct (@levels_ordered_other_assets price po3 asset Hpos Hasset)
    as (r & Hr & Hord).
  exists r. split; [exact Hr|].
  unfold calculate_dealing_range in Hr. rewrite Hasset in Hr.
  assert (Hz : (po3 =? 0)%Z = false) by (apply Z.eqb_neq; lia).
  rewrite Hz in Hr. inversion Hr; subst r; clear Hr. cbn [range_low range_high].
  set (base := PyNum.py_int price).
  assert (Hb1 : inject_Z base <= price) by now apply PyNumFacts.py_int_le.
  assert (Hb2 : price < inject_Z (base + 1)).
  { unfold base. rewrite (PyNumFacts.py_int_floor Hprice).
    apply Qlt_floor. }
  pose proof (Z.mul_div_le base po3 Hpos) as H1.
  pose proof (Z.mul_succ_div_gt base po3 Hpos) as H2.
  assert (E : (base / po3 * po3 = po3 * (base / po3))%Z) by lia.
  split; [now exists (base / po3)%Z|].
  split; [rewrite inject_Z_plus; ring|].
  split; [|exact Hord].
  split.
  - apply Qle_trans with (inject_Z base); [|exact Hb1].
    rewrite <- Zle_Qle. lia.
  - apply Qlt_le_trans with (inject_Z (base + 1)); [exact Hb2|].
    rewrite <- Zle_Qle. lia.
Qed.

(** *** The closest PO3 number *)

Lemma closest_fold (avg : Q) (l : list Z) : forall best,
  let step := fun '(best_po3, min_diff) (po3_value : Z) =>
                let diff := Qabs (avg - inject_Z po3_value) in
                let better :=
                  match min_diff with
                  | None => true
                  | Some m => PyNum.Qltb diff m
                  end in
                if better then (po3_value, Some diff)
                else (best_po3, min_diff : option Q) in
  let r := fst (fold_left step l (best, Some (Qabs (avg - inject_Z best)))) in
  In r (best :: l)
  /\ forall p, In p (best :: l) ->
               Qabs (avg - inject_Z r) <= Qabs (avg - inject_Z p).
Proof.
  induction l as [|x r IH]; intros best step res.
  - subst res. simpl. split; [auto|]. intros p [<- | []]. apply Qle_refl.
  - subst res. cbn [fold_left].
    destruct (PyNum.Qltb (Qabs (avg - inject_Z x))
                         (Qabs (avg - inject_Z best))) eqn:E.
    + replace (step (best, Some (Qabs (avg - inject_Z best))) x)
        with (x, Some (Qabs (avg - inject_Z x)))
        by (unfold step; cbn beta iota zeta; now rewrite E).
      apply PyNumFacts.Qltb_lt in E. destruct (IH x) as [H1 H2].
      fold step in H1, H2. split.
      * destruct H1 as [H1 | H1]; [right; left; exact H1 | right; right; exact H1].
      * intros p [<- | [<- | Hp]].
        -- specialize (H2 x (or_introl eq_refl)). lra.
        -- apply H2. now left.
        -- apply H2. now right.
    + replace (step (best, Some (Qabs (avg - inject_Z best))) x)
        with (best, Some (Qabs (avg - inject_Z best)))
        by (unfold step; cbn beta iota zeta; now rewrite E).
      apply PyNumFacts.Qltb_ge in E. destruct (IH best) as [H1 H2].
      fold step in H1, H2. split.
      * destruct H1 as [H1 | H1]; [left; exact H1 | right; right; exact H1].
      * intros p [<- | [<- | Hp]].
        -- apply H2. now left.
        -- specialize (H2 best (or_introl eq_refl)). lra.
        -- apply H2. now right.
Qed.

Lemma windows_short (A : Type) (k : nat) (l : list A) :
  (List.length l < k)%nat -> windows k l = [].
Proof.
  destruct l as [|x r]; [reflexivity|]. intro H. cbn [windows].
  apply Nat.leb_gt in H. now rewrite H.
Qed.

(** X18: [get_optimal_po3_size] always returns one of the eleven PO3
    numbers; a frame of fewer than five rows, which has no complete
    rolling window, gives the default 27; and for an average swing the
    number chosen is at least as close to it as every other PO3 number. *)
Theorem optimal_po3_is_closest :
  (forall data index_name lookback,
      In (get_optimal_po3_size data index_name lookback) po3_numbers)
  /\ (forall data index_name lookback,
         (List.length data < 5)%nat ->
         get_optimal_po3_size data index_name lookback = 27%Z)
  /\ (forall avg p,
         In p po3_numbers ->
         Qabs (avg - inject_Z (closest_po3 (Some avg)))
         <= Qabs (avg - inject_Z p)).
Proof.
  assert (Hc : forall avg,
             In (closest_po3 (Some avg)) po3_numbers
             /\ forall p, In p po3_numbers ->
                  Qabs (avg - inject_Z (closest_po3 (Some avg)))
                  <= Qabs (avg - inject_Z p)).
  { intro avg.
    pose proof (closest_fold avg [9; 27; 81; 243; 729; 2187; 6561; 19683;
                                  59049; 177147]%Z 3) as H.
    cbv zeta in H. exact H. }
  split; [|split].
  - intros data index_name lookback. unfold get_optimal_po3_size.
    destruct (mean _) as [avg|]; [apply Hc|].
    unfold closest_po3, po3_numbers. simpl. tauto.
  - intros data index_name lookback Hlen. unfold get_optimal_po3_size.
    rewrite windows_short; [now destruct (looks_forex index_name)|].
    unfold Market.tail. rewrite length_skipn. lia.
  - intros avg p Hp. now apply Hc.
Qed.

(** *** The next PO3 level *)

Lemma closest_value_in (current x : Z) (r : list Z) :
  In (closest_value current (x :: r)) (x :: r).
Proof.
  unfold closest_value. revert x.
  induction r as [|y r IH]; intro x; cbn [fold_left]; [now left|].
  destruct (Z.abs (y - current) <? Z.abs (x - current))%Z.
  - right. apply IH.
  - destruct (IH x) as [H | H]; [left; exact H | right; right; exact H].
Qed.

Lemma index_of_spec (x : Z) (l : list Z) (i : nat) :
  index_of x l = Some i -> (i < List.length l)%nat /\ nth i l 0%Z = x.
Proof.
  revert i. induction l as [|y r IH]; intro i; cbn [index_of].
  - discriminate.
  - destruct (x =? y)%Z eqn:E.
    + intro H. inversion H; subst. apply Z.eqb_eq in E. subst.
      simpl. split; [lia | reflexivity].
    + destruct (index_of x r) as [j|]; [|discriminate].
      intro H. inversion H; subst. destruct (IH j eq_refl) as [Hj Hn].
      simpl. split; [lia | exact Hn].
Qed.

(** X19: [get_next_po3_level] always returns one of the eleven PO3
    numbers; from a PO3 number the next level up is its triple and the
    next level down its third, the two ends of the table staying where
    they are, so that a step up followed by a step down comes back. *)
Theorem next_po3_level_steps :
  (forall current direction,
      In (get_next_po3_level current direction) po3_numbers)
  /\ (forall current,
         In current po3_numbers ->
         get_next_po3_level current "up"
         = (if (current =? 177147)%Z then current else 3 * current)%Z
         /\ get_next_po3_level current "down"
            = (if (current =? 3)%Z then current else current / 3)%Z
         /\ (current <> 177147%Z ->
             get_next_po3_level (get_next_po3_level current "up") "down"
             = current)).
Proof.
  split.
  - intros current direction. unfold get_next_po3_level.
    destruct (index_of current po3_numbers) as [i|] eqn:Ei.
    + destruct (index_of_spec _ _ Ei) as [Hi Hn].
      destruct (String.eqb direction "up"); cbn [andb].
      * destruct (i <? List.length po3_numbers - 1)%nat eqn:E.
        -- apply Nat.ltb_lt in E. apply nth_In. lia.
        -- destruct (String.eqb direction "down" && (0 <? i)%nat).
           ++ apply nth_In. lia.
           ++ rewrite <- Hn. now apply nth_In.
      * destruct (String.eqb direction "down" && (0 <? i)%nat).
        -- apply nth_In. lia.
        -- rewrite <- Hn. now apply nth_In.
    + apply closest_value_in.
  - intros current Hin. unfold po3_numbers in Hin.
    repeat (destruct Hin as [<- | Hin];
            [repeat split; try reflexivity; intro Hne;
             first [reflexivity | now exfalso; apply Hne]|]).
    destruct Hin.
Qed.

(** *** Stop runs and range expansion *)

Lemma flat_map_two_length (A B : Type) (f g : A -> bool) (a b : A -> B)
    (l : list A) :
  List.length
    (flat_map (fun p => ((if f p then [a p] else [])
                         ++ (if g p then [b p] else []))%list) l)
  = (List.length (filter f l) + List.length (filter g l))%nat.
Proof.
  induction l as [|x r IH]; [reflexivity|].
  cbn [flat_map filter]. rewrite length_app, IH, length_app.
  destruct (f x), (g x); simpl; lia.
Qed.

(** The four tolerance bands around 9, 27, 81 and 243 are disjoint. *)
Lemma tolerance_bands_disjoint (w : Q) :
  (List.length
     (filter (fun p => PyNum.Qltb (Qabs (w - inject_Z p))
                                  (inject_Z p * (1 # 10)))
             [9; 27; 81; 243]%Z) <= 1)%nat.
Proof.
  cbn [filter].
  destruct (PyNum.Qltb (Qabs (w - inject_Z 9)) _) eqn:E1;
  destruct (PyNum.Qltb (Qabs (w - inject_Z 27)) _) eqn:E2;
  destruct (PyNum.Qltb (Qabs (w - inject_Z 81)) _) eqn:E3;
  destruct (PyNum.Qltb (Qabs (w - inject_Z 243)) _) eqn:E4;
  simpl; try lia; exfalso;
  repeat match goal with
         | H : PyNum.Qltb _ _ = true |- _ =>
             apply PyNumFacts.Qltb_lt in H;
             apply Qabs_Qlt_condition in H; destruct H
         | H : PyNum.Qltb _ _ = false |- _ => clear H
         end;
  unfold inject_Z in *; lra.
Qed.

Lemma wick_runs_length (index_name : string) (current : Market.Bar) :
  (List.length (wick_runs index_name current) <= 2)%nat.
Proof.
  unfold wick_runs.
  match goal with
  | |- context [flat_map ?F _] =>
      match F with
      | (fun p => ((if PyNum.Qltb (Qabs (?u - _)) _ then _ else _)
                   ++ (if PyNum.Qltb (Qabs (?v - _)) _ then _ else _))%list) =>
          pose proof (tolerance_bands_disjoint u) as Hu;
          pose proof (tolerance_bands_disjoint v) as Hv
      end
  end.
  rewrite flat_map_two_length. lia.
Qed.

Lemma wick_runs_sound (index_name : string) (current : Market.Bar)
    (r : StopRun) :
  In r (wick_runs index_name current) ->
  In (run_po3_size r) [9; 27; 81; 243]%Z
  /\ Qabs (run_size r - inject_Z (run_po3_size r))
     < inject_Z (run_po3_size r) * (1 # 10)
  /\ run_timestamp r = Market.timestamp current
  /\ ((run_type r = "upper_wick"%string /\ price_level r = Market.high current)
      \/ (run_type r = "lower_wick"%string /\ price_level r = Market.low current)).
Proof.
  unfold wick_runs. intro H. apply in_flat_map in H.
  destruct H as (p & Hp & H). apply in_app_or in H.
  destruct H as [H | H];
    match type of H with
    | In _ (if ?c then _ else _) => destruct c eqn:E
    end;
    try contradiction;
    destruct H as [<- | []]; cbn [run_po3_size run_size run_timestamp
                                   run_type price_level];
    apply PyNumFacts.Qltb_lt in E; auto 6.
Qed.

Lemma flat_map_length_le (A B : Type) (f : A -> list B) (k : nat)
    (l : list A) :
  (forall x, List.length (f x) <= k)%nat ->
  (List.length (flat_map f l) <= k * List.length l)%nat.
Proof.
  intro H. induction l as [|x r IH]; simpl; [lia|].
  rewrite length_app. specialize (H x). lia.
Qed.

(** X20: [identify_po3_stop_runs] reports nothing when the frame has
    fewer than [lookback] rows.  Otherwise every run it reports has a
    PO3 size among 9, 27, 81 and 243, a wick size strictly within ten
    percent of that PO3 size, and the timestamp and the high (upper
    wick) or low (lower wick) of a row of the window other than its
    first; since the four tolerance bands are disjoint a row yields at
    most one upper and one lower run, so there are at most
    [2 * (lookback - 1)] runs.  The [po3_number] argument plays no
    part. *)
Theorem stop_runs_sound data index_name po3_number lookback :
  ((List.length data < lookback)%nat ->
   identify_po3_stop_runs data index_name po3_number lookback = [])
  /\ (forall r,
         In r (identify_po3_stop_runs data index_name po3_number lookback) ->
         In (run_po3_size r) [9; 27; 81; 243]%Z
         /\ Qabs (run_size r - inject_Z (run_po3_size r))
            < inject_Z (run_po3_size r) * (1 # 10)
         /\ exists row,
              In row (List.tl (Market.tail lookback data))
              /\ run_timestamp r = Market.timestamp row
              /\ ((run_type r = "upper_wick"%string
                   /\ price_level r = Market.high row)
                  \/ (run_type r = "lower_wick"%string
                      /\ price_level r = Market.low row)))
  /\ (List.length (identify_po3_stop_runs data index_name po3_number lookback)
      <= 2 * (lookback - 1))%nat
  /\ (forall other,
         identify_po3_stop_runs data index_name other lookback
         = identify_po3_stop_runs data index_name po3_number lookback).
Proof.
  unfold identify_po3_stop_runs.
  destruct (List.length data <? lookback)%nat eqn:E.
  - repeat split; try reflexivity; try contradiction. simpl. lia.
  - apply Nat.ltb_ge in E. repeat split; try reflexivity.
    + intro H. lia.
    + apply in_flat_map in H. destruct H as (row & Hrow & H).
      now apply (wick_runs_sound index_name row).
    + apply in_flat_map in H. destruct H as (row & Hrow & H).
      now apply (wick_runs_sound index_name row).
    + apply in_flat_map in H. destruct H as (row & Hrow & H).
      exists row. split; [exact Hrow|].
      now apply (wick_runs_sound index_name row).
    + pose proof (@flat_map_length_le _ _ (wick_runs index_name) 2%nat
                    (List.tl (Market.tail lookback data))
                    (wick_runs_length index_name)) as Hl.
      assert (Ht : List.length (List.tl (Market.tail lookback data))
                   = (lookback - 1)%nat).
      { rewrite length_tl, ListFacts.length_tail; [reflexivity | exact E]. }
      rewrite Ht in Hl. exact Hl.
Qed.

(** X21: [check_range_expansion] is [False] on fewer than ten rows and
    whenever the threshold is 1 or more, the ratio being a share of the
    last ten rows; with the default threshold 0.8 it is [True] exactly
    when at least nine of the last ten rows have their high above the
    range or their low below it. *)
Theorem range_expansion_threshold data current_range :
  (forall threshold,
      (List.length data < 10)%nat ->
      check_range_expansion data current_range threshold = false)
  /\ (forall threshold,
         1 <= threshold ->
         check_range_expansion data current_range threshold = false)
  /\ ((10 <= List.length data)%nat ->
      (check_range_expansion data current_range (8 # 10) = true
       <-> (9 <= List.length (filter (outside_range current_range)
                                     (Market.tail 10 data)))%nat)).
Proof.
  unfold check_range_expansion.
  destruct (List.length data <? 10)%nat eqn:E.
  - apply Nat.ltb_lt in E. repeat split; try reflexivity; intros; lia.
  - apply Nat.ltb_ge in E.
    pose proof (filter_length_le (outside_range current_range)
                  (Market.tail 10 data)) as Hc.
    rewrite (ListFacts.length_tail data E) in *.
    remember (List.length (filter (outside_range current_range)
                                  (Market.tail 10 data))) as c eqn:Ec.
    clear Ec. split; [|split].
    + intros threshold H. lia.
    + intros threshold H. apply PyNumFacts.Qltb_ge.
      apply Qle_trans with 1; [|exact H].
      apply Qle_shift_div_r; [reflexivity|].
      rewrite Qmult_1_l, <- Zle_Qle. lia.
    + intros _.
      do 11 (destruct c as [|c];
             [split; intro H;
              first [ reflexivity | lia | discriminate H
                    | vm_compute in H; discriminate H ]|]).
      lia.
Qed.

End PO3Facts.

(* ------------------------------------------------------------------ *)
(** ** The risk manager *)

Module RiskFacts.

Import Config Risk.
Local Open Scope Q_scope.

(** *** The position table as a dictionary *)

Lemma lookup_mem (k : string) (d : list (string * Position)) :
  lookup k d = None <-> mem k (keys d) = false.
Proof.
  induction d as [|[k' v] r IH]; simpl.
  - tauto.
  - destruct (String.eqb k k'); simpl.
    + split; discriminate.
    + exact IH.
Qed.

Lemma mem_keys_store (k : string) (v : Position) (d : list (string * Position)) :
  mem k (keys (store k v d)) = true.
Proof.
  induction d as [|[k' v'] r IH]; simpl.
  - now rewrite String.eqb_refl.
  - destruct (String.eqb k k') eqn:E; simpl.
    + now rewrite String.eqb_refl.
    + now rewrite E.
Qed.

(** *** What each method leaves alone *)

Lemma add_position_frame rm now sym sz entry stop tp dir :
  let rm' := fst (add_position rm now sym sz entry stop tp dir) in
  current_capital rm' = current_capital rm
  /\ initial_capital rm' = initial_capital rm
  /\ trade_history rm' = trade_history rm.
Proof.
  unfold add_position.
  destruct (check_risk_limits rm sym sz entry); simpl; auto.
Qed.

Lemma update_position_pnl_frame rm sym price rm' :
  update_position_pnl rm sym price = Ok rm' ->
  current_capital rm' = current_capital rm
  /\ initial_capital rm' = initial_capital rm
  /\ trade_history rm' = trade_history rm.
Proof.
  unfold update_position_pnl.
  destruct (lookup sym (positions rm)) as [p|].
  - destruct (mem sym FUTURES_SYMBOLS).
    + destruct (FUTURES_SPECS sym); intro H; inversion H; subst; simpl; auto.
    + destruct (FOREX_SPECS sym); intro H; inversion H; subst; simpl; auto.
  - intro H; inversion H; subst; auto.
Qed.

Lemma close_position_effect rm now sym price reason rm' res :
  close_position rm now sym price reason = Ok (rm', res) ->
  (res = None /\ rm' = rm)
  \/ (exists t, res = Some t
        /\ current_capital rm' = current_capital rm + realized_pnl t
        /\ initial_capital rm' = initial_capital rm
        /\ trade_history rm' = (trade_history rm ++ [t])%list).
Proof.
  unfold close_position.
  destruct (lookup sym (positions rm)) as [p0|].
  - destruct (update_position_pnl rm sym price) as [rm1|e] eqn:Hu;
      [|discriminate].
    apply update_position_pnl_frame in Hu. destruct Hu as (Hc & Hi & Ht).
    destruct (lookup sym (positions rm1)) as [p|]; [|discriminate].
    intro H. inversion H; subst; clear H. right.
    eexists. split; [reflexivity|]. simpl.
    rewrite Hc, Hi, Ht. auto.
  - intro H. inversion H; subst. left; auto.
Qed.

Lemma realized_total_snoc (l : list Trade) (t : Trade) :
  fold_left Qplus (map realized_pnl (l ++ [t])) 0
  = fold_left Qplus (map realized_pnl l) 0 + realized_pnl t.
Proof.
  rewrite map_app, fold_left_app. reflexivity.
Qed.

Lemma run_call_identity rm c :
  capital_identity rm -> capital_identity (run_call rm c).
Proof.
  unfold capital_identity, realized_total. intro H.
  destruct c as [now s sz e sl tp d | s p | now s p r]; simpl.
  - destruct (add_position_frame rm now s sz e sl tp d) as (Hc & Hi & Ht).
    rewrite Hc, Hi, Ht. exact H.
  - destruct (update_position_pnl rm s p) as [rm'|] eqn:Hu; [|exact H].
    apply update_position_pnl_frame in Hu. destruct Hu as (Hc & Hi & Ht).
    rewrite Hc, Hi, Ht. exact H.
  - destruct (close_position rm now s p r) as [[rm' res]|] eqn:Hc; [|exact H].
    apply close_position_effect in Hc.
    destruct Hc as [[_ ->] | (t & _ & Hc & Hi & Ht)]; [exact H|].
    rewrite Hc, Hi, Ht, realized_total_snoc, H. ring.
Qed.

Lemma run_calls_identity calls : forall rm,
  capital_identity rm -> capital_identity (run_calls rm calls).
Proof.
  induction calls as [|c r IH]; intros rm H; simpl.
  - exact H.
  - apply IH. now apply run_call_identity.
Qed.

Lemma run_call_initial rm c :
  initial_capital (run_call rm c) = initial_capital rm.
Proof.
  destruct c as [now s sz e sl tp d | s p | now s p r]; simpl.
  - apply add_position_frame.
  - destruct (update_position_pnl rm s p) eqn:Hu; [|reflexivity].
    now apply update_position_pnl_frame in Hu.
  - destruct (close_position rm now s p r) as [[rm' res]|] eqn:Hc;
      [|reflexivity].
    apply close_position_effect in Hc.
    destruct Hc as [[_ ->] | (t & _ & _ & Hi & _)]; auto.
Qed.

Lemma run_calls_initial calls : forall rm,
  initial_capital (run_calls rm calls) = initial_capital rm.
Proof.
  induction calls as [|c r IH]; intros rm; [reflexivity|].
  change (run_calls rm (c :: r)) with (run_calls (run_call rm c) r).
  rewrite IH. apply run_call_initial.
Qed.

(** The capital identity in exact arithmetic: were every float operation
    exact, [current_capital] would be [initial_capital] plus the sum of
    [realized_pnl] over [trade_history] after any sequence of calls of
    the three methods on a fresh instance. *)
Lemma capital_identity_in_exact_arithmetic :
  (forall rm now sym sz entry stop tp dir,
      current_capital
        (run_call rm (CallAdd now sym sz entry stop tp dir))
      = current_capital rm)
  /\ (forall rm sym price,
         current_capital (run_call rm (CallUpdate sym price))
         = current_capital rm)
  /\ (forall capital calls,
         let rm := run_calls (init capital) calls in
         initial_capital rm = capital
         /\ current_capital rm == initial_capital rm + realized_total rm).
Proof.
  split; [|split].
  - intros. simpl. apply add_position_frame.
  - intros. simpl.
    destruct (update_position_pnl rm sym price) eqn:Hu; [|reflexivity].
    now apply update_position_pnl_frame in Hu.
  - intros capital calls rm. split.
    + subst rm. now rewrite run_calls_initial.
    + apply run_calls_identity.
      unfold capital_identity, realized_total. simpl. ring.
Qed.


(** *** Rejected entries *)

Lemma class_cap_check rm sym :
  class_cap_reached rm sym -> _check_correlation_limits rm sym = true.
Proof.
  intros (class & Hclass & Hmem & Hlen).
  unfold _check_correlation_limits.
  destruct Hclass as [-> | ->]; rewrite Hmem.
  - apply Nat.leb_le in Hlen. now rewrite Hlen.
  - apply Nat.leb_le in Hlen. rewrite Hlen.
    now destruct (mem sym FUTURES_SYMBOLS && _).
Qed.

Lemma check_risk_limits_rejects rm sym sz entry :
  entry_rejected rm sym sz -> check_risk_limits rm sym sz entry = false.
Proof.
  unfold entry_rejected, check_risk_limits.
  intros [H | [H | [H | [H | H]]]].
  - apply Nat.leb_le in H. now rewrite H.
  - rewrite H. now destruct (_ <=? _)%nat.
  - apply Qle_bool_iff in H. rewrite H.
    destruct (_ <=? _)%nat; [reflexivity|].
    now destruct (mem sym _).
  - apply class_cap_check in H. rewrite H.
    destruct (_ <=? _)%nat; [reflexivity|].
    destruct (mem sym _); [reflexivity|].
    now destruct (Qle_bool _ _).
  - apply Z.leb_le in H. rewrite H.
    destruct (_ <=? _)%nat; [reflexivity|].
    destruct (mem sym _); [reflexivity|].
    destruct (Qle_bool _ _); [reflexivity|].
    now destruct (_check_correlation_limits _ _).
Qed.

Lemma add_position_accepted rm now sym sz entry stop tp dir rm' :
  add_position rm now sym sz entry stop tp dir = (rm', true) ->
  mem sym (keys (positions rm')) = true.
Proof.
  unfold add_position.
  destruct (check_risk_limits rm sym sz entry); simpl; intro H;
    inversion H; subst; simpl.
  apply mem_keys_store.
Qed.

(** C6, as the code has it: [add_position] returns [False] and leaves the
    instance as it was whenever the position count has reached
    [MAX_POSITIONS], a position is already open for the symbol, the
    realized drawdown (initial capital minus current capital) has reached
    [MAX_DRAWDOWN_USD], two positions of the symbol's class are already
    open, or the size is not positive; and once a call for a symbol has
    been accepted, every further call for that symbol is rejected. *)
Theorem add_position_rejects rm now sym sz entry stop tp dir :
  (entry_rejected rm sym sz ->
   add_position rm now sym sz entry stop tp dir = (rm, false))
  /\ (forall rm',
         add_position rm now sym sz entry stop tp dir = (rm', true) ->
         forall now2 sz2 entry2 stop2 tp2 dir2,
           add_position rm' now2 sym sz2 entry2 stop2 tp2 dir2 = (rm', false)).
Proof.
  split.
  - intro H. unfold add_position.
    now rewrite (check_risk_limits_rejects entry H).
  - intros rm' H now2 sz2 entry2 stop2 tp2 dir2.
    apply add_position_accepted in H.
    unfold add_position.
    rewrite (@check_risk_limits_rejects rm' sym sz2 entry2); [reflexivity|].
    right; left; exact H.
Qed.

(** *** Closing what is not open *)

(** C10: when no position is open for the symbol, [close_position]
    returns the empty result and the instance it leaves is the one it was
    given: capital, position table and trade history are untouched. *)
Theorem close_position_without_position rm now sym price reason :
  mem sym (keys (positions rm)) = false ->
  close_position rm now sym price reason = Ok (rm, None).
Proof.
  intro H. apply lookup_mem in H.
  unfold close_position. now rewrite H.
Qed.

(** *** The profit factor of a log without losses *)

Lemma no_losses_filter (pnls : list Q) :
  Forall (fun pnl => 0 <= pnl) pnls ->
  filter (fun pnl => PyNum.Qltb pnl 0) pnls = [].
Proof.
  induction 1 as [|x l Hx _ IH]; simpl; [reflexivity|].
  apply PyNumFacts.Qltb_ge in Hx. now rewrite Hx.
Qed.

(** C9, as the code has it: for a non-empty trade history without a
    negative realized P&L, the average loss is 0 and the profit factor
    reported is the float infinity itself.  The metrics are returned
    whenever the initial capital is not 0; with an initial capital of 0
    the return percentage divides by zero and the call raises
    [ZeroDivisionError] instead of returning. *)
Theorem profit_factor_without_losses rm :
  trade_history rm <> [] ->
  Forall (fun t => 0 <= realized_pnl t) (trade_history rm) ->
  (~ initial_capital rm == 0 ->
   exists m, get_performance_metrics rm = Ok (Some m)
             /\ profit_factor m = NpFloat.PInf
             /\ NpFloat.is_finite (profit_factor m) = false
             /\ average_loss m = 0)
  /\ (initial_capital rm == 0 ->
      get_performance_metrics rm = Raised ZeroDivisionError).
Proof.
  intros Hne Hpos. unfold get_performance_metrics.
  destruct (trade_history rm) as [|t l] eqn:E; [congruence|].
  rewrite (@no_losses_filter (map realized_pnl (t :: l)))
    by (apply Forall_map; exact Hpos).
  split; intro Hc.
  - destruct (Qeq_bool (initial_capital rm) 0) eqn:Ec.
    + apply Qeq_bool_iff in Ec. contradiction.
    + eexists. split; [reflexivity|]. simpl. auto.
  - apply Qeq_bool_iff in Hc. now rewrite Hc.
Qed.

(** *** The position table under the three methods *)

Lemma mem_true_iff (k : string) (l : list string) :
  mem k l = true <-> In k l.
Proof.
  unfold mem. rewrite existsb_exists. split.
  - intros (x & Hx & E). apply String.eqb_eq in E. now subst.
  - intro H. exists k. split; [exact H|apply String.eqb_refl].
Qed.

Lemma mem_false_iff (k : string) (l : list string) :
  mem k l = false <-> ~ In k l.
Proof.
  rewrite <- mem_true_iff. destruct (mem k l); split; congruence.
Qed.

Lemma store_new (k : string) (v : Position) (d : list (string * Position)) :
  mem k (keys d) = false -> store k v d = (d ++ [(k, v)])%list.
Proof.
  induction d as [|[k' v'] r IH]; simpl; [reflexivity|].
  destruct (String.eqb k k'); simpl; [discriminate|].
  intro H. now rewrite IH.
Qed.

Lemma keys_store_present (k : string) (v : Position)
    (d : list (string * Position)) :
  mem k (keys d) = true -> keys (store k v d) = keys d.
Proof.
  induction d as [|[k' v'] r IH]; simpl; [discriminate|].
  destruct (String.eqb k k') eqn:E; simpl.
  - intros _. apply String.eqb_eq in E. now subst.
  - intro H. now rewrite IH.
Qed.

Lemma lookup_store_same (k : string) (v : Position)
    (d : list (string * Position)) :
  lookup k (store k v d) = Some v.
Proof.
  induction d as [|[k' v'] r IH]; simpl.
  - now rewrite String.eqb_refl.
  - destruct (String.eqb k k') eqn:E; simpl.
    + now rewrite String.eqb_refl.
    + now rewrite E.
Qed.

Lemma lookup_store_other (k k' : string) (v : Position)
    (d : list (string * Position)) :
  k' <> k -> lookup k' (store k v d) = lookup k' d.
Proof.
  intro Hne. induction d as [|[k0 v0] r IH]; simpl.
  - apply String.eqb_neq in Hne. now rewrite Hne.
  - destruct (String.eqb k k0) eqn:E; simpl.
    + apply String.eqb_eq in E. subst k0.
      apply String.eqb_neq in Hne. now rewrite Hne.
    + now rewrite IH.
Qed.

Lemma remove_absent (k : string) (d : list (string * Position)) :
  mem k (keys d) = false -> remove k d = d.
Proof.
  induction d as [|[k' v'] r IH]; simpl; [reflexivity|].
  destruct (String.eqb k k'); simpl; [discriminate|].
  intro H. now rewrite IH.
Qed.

Lemma remove_stored (k : string) (v : Position) (d : list (string * Position)) :
  mem k (keys d) = false -> remove k (store k v d) = d.
Proof.
  induction d as [|[k' v'] r IH]; simpl.
  - now rewrite String.eqb_refl.
  - destruct (String.eqb k k') eqn:E; simpl; [discriminate|].
    intro H. now rewrite E, IH.
Qed.

(** Deleting a key takes one entry out of the key list, or none. *)
Lemma keys_remove (k : string) (d : list (string * Position)) :
  keys (remove k d) = keys d
  \/ exists l1 l2, keys d = (l1 ++ k :: l2)%list
                   /\ keys (remove k d) = (l1 ++ l2)%list.
Proof.
  induction d as [|[k' v'] r IH]; simpl; [auto|].
  destruct (String.eqb k k') eqn:E.
  - apply String.eqb_eq in E. subst k'. right. now exists [], (keys r).
  - simpl. destruct IH as [-> | (l1 & l2 & E1 & E2)]; [auto|].
    right. exists (k' :: l1), l2. simpl. now rewrite E1, E2.
Qed.

Lemma filter_length_app (f : string -> bool) (l1 l2 : list string) :
  List.length (filter f (l1 ++ l2))
  = (List.length (filter f l1) + List.length (filter f l2))%nat.
Proof. now rewrite filter_app, length_app. Qed.

Lemma filter_length_drop (f : string -> bool) (l1 : list string) (k : string)
    (l2 : list string) :
  (List.length (filter f (l1 ++ l2))
   <= List.length (filter f (l1 ++ k :: l2)))%nat.
Proof.
  rewrite !filter_length_app. simpl. destruct (f k); simpl; lia.
Qed.

Lemma portfolio_ok_remove rm k d' :
  portfolio_ok rm -> d' = remove k (positions rm) ->
  portfolio_ok (set_positions rm d').
Proof.
  intros (Hnd & Hlen & Hfu & Hfx) ->. unfold portfolio_ok, class_count in *.
  simpl positions.
  assert (Hl : List.length (keys (remove k (positions rm)))
               = List.length (remove k (positions rm)))
    by (unfold keys; apply length_map).
  assert (Hl0 : List.length (keys (positions rm)) = List.length (positions rm))
    by (unfold keys; apply length_map).
  destruct (keys_remove k (positions rm)) as [E | (l1 & l2 & E1 & E2)].
  - rewrite E. repeat split; auto. rewrite <- Hl, E, Hl0. exact Hlen.
  - rewrite E2. rewrite E1 in Hnd, Hfu, Hfx.
    repeat split.
    + now apply NoDup_remove_1 in Hnd.
    + rewrite <- Hl, E2. rewrite <- Hl0, E1 in Hlen.
      rewrite length_app in *. simpl in Hlen. lia.
    + pose proof (filter_length_drop (fun s => mem s FUTURES_SYMBOLS) l1 k l2).
      lia.
    + pose proof (filter_length_drop (fun s => mem s FOREX_SYMBOLS) l1 k l2).
      lia.
Qed.

Lemma update_position_pnl_keys rm sym price rm' :
  update_position_pnl rm sym price = Ok rm' ->
  keys (positions rm') = keys (positions rm).
Proof.
  unfold update_position_pnl.
  destruct (lookup sym (positions rm)) as [p|] eqn:Hl.
  - assert (Hm : mem sym (keys (positions rm)) = true).
    { destruct (mem sym (keys (positions rm))) eqn:E; [reflexivity|].
      apply lookup_mem in E. congruence. }
    destruct (mem sym FUTURES_SYMBOLS).
    + destruct (FUTURES_SPECS sym); intro H; inversion H; subst; simpl.
      now apply keys_store_present.
    + destruct (FOREX_SPECS sym); intro H; inversion H; subst; simpl.
      now apply keys_store_present.
  - intro H. now inversion H.
Qed.

Lemma portfolio_ok_keys rm rm' :
  keys (positions rm') = keys (positions rm) ->
  portfolio_ok rm -> portfolio_ok rm'.
Proof.
  intros E (Hnd & Hlen & Hfu & Hfx). unfold portfolio_ok, class_count in *.
  rewrite E. repeat split; auto.
  rewrite <- (length_map fst (positions rm')).
  change (map fst (positions rm')) with (keys (positions rm')).
  rewrite E. unfold keys. now rewrite length_map.
Qed.

Lemma keys_store_new (k : string) (v : Position)
    (d : list (string * Position)) :
  mem k (keys d) = false -> keys (store k v d) = (keys d ++ [k])%list.
Proof.
  intro H. rewrite (@store_new _ v _ H). unfold keys.
  now rewrite map_app.
Qed.

Lemma filter_length_snoc (f : string -> bool) (l : list string) (k : string) :
  List.length (filter f (l ++ [k]))
  = (List.length (filter f l) + (if f k then 1 else 0))%nat.
Proof.
  rewrite filter_length_app. cbn [filter]. now destruct (f k).
Qed.

Lemma portfolio_ok_add rm now sym sz entry stop tp dir :
  portfolio_ok rm ->
  portfolio_ok (fst (add_position rm now sym sz entry stop tp dir)).
Proof.
  intros Hok. unfold add_position.
  destruct (check_risk_limits rm sym sz entry) eqn:Hc; simpl; [|exact Hok].
  destruct Hok as (Hnd & Hlen & Hfu & Hfx).
  unfold check_risk_limits in Hc.
  destruct (MAX_POSITIONS <=? List.length (positions rm))%nat eqn:E1;
    [discriminate|].
  destruct (mem sym (keys (positions rm))) eqn:E2; [discriminate|].
  destruct (Qle_bool _ _); [discriminate|].
  destruct (_check_correlation_limits rm sym) eqn:E3; [discriminate|].
  clear Hc. apply Nat.leb_gt in E1.
  unfold _check_correlation_limits in E3.
  unfold portfolio_ok, class_count, set_positions in *. cbn [positions].
  rewrite (@keys_store_new sym _ _ E2), !filter_length_snoc.
  repeat split.
  - apply NoDup_app; [exact Hnd | repeat constructor; simpl; tauto |].
    intros x Hx [<- | []]. apply mem_false_iff in E2. exact (E2 Hx).
  - rewrite (@store_new sym _ _ E2), length_app. simpl. lia.
  - destruct (mem sym FUTURES_SYMBOLS); [|lia].
    cbn [andb] in E3. destruct (2 <=? _)%nat eqn:E4; [discriminate|].
    apply Nat.leb_gt in E4. lia.
  - destruct (mem sym FOREX_SYMBOLS); [|lia].
    destruct (mem sym FUTURES_SYMBOLS && _); [discriminate|].
    cbn [andb] in E3. destruct (2 <=? _)%nat eqn:E4; [discriminate|].
    apply Nat.leb_gt in E4. lia.
Qed.

Lemma portfolio_ok_call rm c : portfolio_ok rm -> portfolio_ok (run_call rm c).
Proof.
  intro Hok. destruct c as [now s sz e sl tp d | s p | now s p r]; simpl.
  - now apply portfolio_ok_add.
  - destruct (update_position_pnl rm s p) as [rm'|] eqn:Hu; [|exact Hok].
    apply update_position_pnl_keys in Hu.
    now apply (@portfolio_ok_keys rm rm').
  - unfold close_position.
    destruct (lookup s (positions rm)); [|exact Hok].
    destruct (update_position_pnl rm s p) as [rm1|] eqn:Hu; [|exact Hok].
    apply update_position_pnl_keys in Hu.
    pose proof (@portfolio_ok_keys rm rm1 Hu Hok) as Hok1.
    destruct (lookup s (positions rm1)); [|exact Hok].
    pose proof (@portfolio_ok_remove rm1 s _ Hok1 eq_refl) as H.
    unfold portfolio_ok, class_count in *. exact H.
Qed.

(** X1: whatever sequence of [add_position], [update_position_pnl] and
    [close_position] calls a fresh risk manager receives, its position
    table never holds two entries for one symbol, never more than
    [MAX_POSITIONS] entries, and never more than two futures or more than
    two forex positions. *)
Theorem portfolio_constraints_hold (capital : Q) (calls : list Call) :
  portfolio_ok (run_calls (init capital) calls).
Proof.
  assert (H0 : portfolio_ok (init capital)).
  { unfold portfolio_ok, class_count. simpl. repeat split; auto using NoDup_nil.
    unfold MAX_POSITIONS. lia. }
  revert H0. generalize (init capital).
  induction calls as [|c r IH]; intros rm H; simpl; [exact H|].
  apply IH. now apply portfolio_ok_call.
Qed.

(** *** Position sizing *)

Lemma futures_specs_positive sym specs :
  FUTURES_SPECS sym = Some specs ->
  0 < tick_size specs /\ 0 < tick_value specs /\ 0 < margin_requirement specs.
Proof.
  unfold FUTURES_SPECS.
  repeat (destruct (String.eqb sym _);
          [intro H; inversion H; subst; simpl; repeat split; reflexivity|]).
  discriminate.
Qed.

Lemma forex_specs_positive sym specs :
  FOREX_SPECS sym = Some specs -> 0 < pip_value specs.
Proof.
  unfold FOREX_SPECS.
  repeat (destruct (String.eqb sym _);
          [intro H; inversion H; subst; simpl; reflexivity|]).
  discriminate.
Qed.

Lemma Qabs_zero_or_pos (x : Q) :
  Qeq_bool (Qabs x) 0 = true \/ (Qeq_bool (Qabs x) 0 = false /\ 0 < Qabs x).
Proof.
  destruct (Qeq_bool (Qabs x) 0) eqn:E; [auto|right; split; [reflexivity|]].
  pose proof (Qabs_nonneg x) as H.
  apply Qeq_bool_neq in E. apply Qle_lteq in H. destruct H as [H | H]; [exact H|].
  exfalso. apply E. symmetry. exact H.
Qed.

(** *** Marking to market *)

(** X3: a successful [update_position_pnl] leaves the position with its
    unrealized P&L between its worst and its best excursion; the best
    excursion never goes down, the worst never up; the deal terms of the
    position and every other position are untouched. *)
Theorem update_keeps_excursions rm sym price rm' p :
  update_position_pnl rm sym price = Ok rm' ->
  lookup sym (positions rm) = Some p ->
  exists p',
    lookup sym (positions rm') = Some p'
    /\ max_adverse p' <= unrealized_pnl p' <= max_favorable p'
    /\ max_favorable p <= max_favorable p'
    /\ max_adverse p' <= max_adverse p
    /\ (size p', direction p', entry_price p', stop_loss p', take_profit p')
       = (size p, direction p, entry_price p, stop_loss p, take_profit p)
    /\ (forall other, other <> sym ->
          lookup other (positions rm') = lookup other (positions rm)).
Proof.
  unfold update_position_pnl. intros Hu Hl. rewrite Hl in Hu.
  match type of Hu with
  | match ?pnl with Some _ => _ | None => _ end = _ =>
      destruct pnl as [u|]; [|discriminate]
  end.
  inversion Hu; subst; clear Hu. simpl positions.
  eexists. split; [apply lookup_store_same|]. simpl.
  repeat split.
  - destruct (PyNum.Qltb u (max_adverse p)) eqn:E; [lra|].
    now apply PyNumFacts.Qltb_ge in E.
  - destruct (PyNum.Qltb (max_favorable p) u) eqn:E; [lra|].
    now apply PyNumFacts.Qltb_ge in E.
  - destruct (PyNum.Qltb (max_favorable p) u) eqn:E; [|lra].
    apply PyNumFacts.Qltb_lt in E. lra.
  - destruct (PyNum.Qltb u (max_adverse p)) eqn:E; [|lra].
    apply PyNumFacts.Qltb_lt in E. lra.
  - intros other Hne. now apply lookup_store_other.
Qed.

(** *** Exits *)

(** X4: for a long position whose stop lies below its target, and for a
    short one whose target lies below its stop, no price triggers both
    [check_stop_loss] and [check_take_profit]. *)
Theorem stop_and_target_exclusive rm sym price p tp :
  lookup sym (positions rm) = Some p ->
  take_profit p = Some tp ->
  (direction p = "LONG"%string /\ stop_loss p < tp)
  \/ (direction p = "SHORT"%string /\ tp < stop_loss p) ->
  check_stop_loss rm sym price && check_take_profit rm sym price = false.
Proof.
  intros Hl Htp Hdir. unfold check_stop_loss, check_take_profit.
  rewrite Hl, Htp.
  destruct Hdir as [[-> H] | [-> H]]; simpl;
    destruct (Qle_bool price (stop_loss p)) eqn:E1;
    destruct (Qle_bool tp price) eqn:E2;
    destruct (Qle_bool (stop_loss p) price) eqn:E3;
    destruct (Qle_bool price tp) eqn:E4; try reflexivity;
    repeat match goal with
           | H : Qle_bool _ _ = true |- _ => apply Qle_bool_iff in H
           end; lra.
Qed.

(** X5: a position whose direction string is neither ['LONG'] nor
    ['SHORT'] (the lower-case directions of the ICT signals, for one) is
    never stopped out and never closed on its target, at any price. *)
Theorem other_direction_never_exits rm sym price p :
  lookup sym (positions rm) = Some p ->
  direction p <> "LONG"%string -> direction p <> "SHORT"%string ->
  check_stop_loss rm sym price = false
  /\ check_take_profit rm sym price = false.
Proof.
  intros Hl H1 H2. unfold check_stop_loss, check_take_profit. rewrite Hl.
  apply String.eqb_neq in H1, H2. rewrite H1, H2. simpl.
  split; [reflexivity | now destruct (take_profit p)].
Qed.

(** *** Opening and closing *)

Lemma futures_symbol_has_specs sym :
  mem sym FUTURES_SYMBOLS = true -> exists specs, FUTURES_SPECS sym = Some specs.
Proof.
  unfold mem, FUTURES_SYMBOLS, FUTURES_SPECS. simpl.
  repeat (destruct (String.eqb sym _); [eauto|]). discriminate.
Qed.

Lemma remove_restored (k : string) (v v' : Position)
    (d : list (string * Position)) :
  mem k (keys d) = false -> remove k (store k v' (d ++ [(k, v)])) = d.
Proof.
  induction d as [|[k' w] r IH]; simpl.
  - rewrite String.eqb_refl. simpl. now rewrite String.eqb_refl.
  - destruct (String.eqb k k') eqn:E; simpl; [discriminate|].
    intro H. rewrite E. now rewrite IH.
Qed.

(** X6: closing right after an accepted entry, for a symbol of either
    instrument table, yields the trade of that entry (same symbol, size,
    entry price, the given exit price and reason), restores the position
    table, appends the trade to the history and moves the capital by the
    trade's realized P&L, which is zero when the exit is the entry price. *)
Theorem open_then_close rm now sym sz entry stop tp dir rm1
    now2 exit reason :
  add_position rm now sym sz entry stop tp dir = (rm1, true) ->
  mem sym FUTURES_SYMBOLS = true \/ FOREX_SPECS sym <> None ->
  exists t rm2,
    close_position rm1 now2 sym exit reason = Ok (rm2, Some t)
    /\ positions rm2 = positions rm
    /\ trade_history rm2 = (trade_history rm ++ [t])%list
    /\ current_capital rm2 = current_capital rm + realized_pnl t
    /\ (t_symbol t, t_size t, t_direction t, t_entry_price t, exit_price t,
        exit_reason t)
       = (sym, sz, dir, entry, exit, reason)
    /\ (exit == entry -> realized_pnl t == 0).
Proof.
  unfold add_position. intros Hadd Hknown.
  destruct (check_risk_limits rm sym sz entry) eqn:Hc; simpl in Hadd;
    [|discriminate].
  assert (Hnew : mem sym (keys (positions rm)) = false).
  { unfold check_risk_limits in Hc.
    destruct (_ <=? _)%nat; [discriminate|].
    now destruct (mem sym (keys (positions rm))). }
  inversion Hadd; subst rm1; clear Hadd.
  set (p0 := mkPosition sym sz dir entry stop tp now 0 0 0).
  unfold close_position, update_position_pnl, set_positions. cbn [positions].
  rewrite !lookup_store_same. cbn [direction entry_price size p0].
  set (diff := if String.eqb dir "SHORT" then - (exit - entry) else exit - entry).
  assert (Hpnl : exists u,
             (if mem sym FUTURES_SYMBOLS
              then match FUTURES_SPECS sym with
                   | Some specs =>
                       Some (diff / tick_size specs * tick_value specs
                             * inject_Z sz)
                   | None => None
                   end
              else match FOREX_SPECS sym with
                   | Some specs =>
                       Some (diff / pip_value specs * 10
                             * (inject_Z sz / 100000))
                   | None => None
                   end) = Some u
             /\ (exit == entry -> u == 0)).
  { assert (Hdiff : exit == entry -> diff == 0).
    { intro E. unfold diff. destruct (String.eqb dir "SHORT"); lra. }
    destruct (mem sym FUTURES_SYMBOLS) eqn:Hm.
    - destruct (futures_symbol_has_specs _ Hm) as [specs Hs]. rewrite Hs.
      destruct (futures_specs_positive _ Hs) as (Hts & _ & _).
      eexists. split; [reflexivity|]. intro E. rewrite (Hdiff E).
      field. lra.
    - destruct Hknown as [H | H]; [discriminate|].
      destruct (FOREX_SPECS sym) as [specs|] eqn:Hs; [|congruence].
      pose proof (forex_specs_positive _ Hs) as Hpv.
      eexists. split; [reflexivity|]. intro E. rewrite (Hdiff E).
      field. lra. }
  destruct Hpnl as (u & -> & Hzero).
  cbn [positions]. rewrite lookup_store_same.
  do 2 eexists. split; [reflexivity|].
  cbn [positions trade_history current_capital realized_pnl t_symbol t_size
       t_direction t_entry_price exit_price exit_reason unrealized_pnl
       direction size entry_price].
  repeat split.
  - unfold p0. rewrite (@store_new sym _ _ Hnew).
    now apply remove_restored.
  - exact Hzero.
Qed.

(** X7: a position in a symbol of neither instrument table can be
    neither marked to market nor closed: [update_position_pnl] and
    [close_position] raise [KeyError], whatever the price. *)
Theorem unknown_symbol_cannot_close rm now sym price reason p :
  lookup sym (positions rm) = Some p ->
  mem sym FUTURES_SYMBOLS = false -> FOREX_SPECS sym = None ->
  update_position_pnl rm sym price = Raised KeyError
  /\ close_position rm now sym price reason = Raised KeyError.
Proof.
  intros Hl Hm Hs.
  assert (Hu : update_position_pnl rm sym price = Raised KeyError).
  { unfold update_position_pnl. now rewrite Hl, Hm, Hs. }
  split; [exact Hu|]. unfold close_position. now rewrite Hl, Hu.
Qed.

(** *** Trade statistics *)

Lemma sum_nonneg (l : list Q) : forall a,
  Forall (fun x => 0 <= x) l -> 0 <= a -> 0 <= fold_left Qplus l a.
Proof.
  induction l as [|x r IH]; intros a Hl Ha; simpl; [exact Ha|].
  inversion Hl; subst. apply IH; [assumption | lra].
Qed.

Lemma sum_nonpos (l : list Q) : forall a,
  Forall (fun x => x <= 0) l -> a <= 0 -> fold_left Qplus l a <= 0.
Proof.
  induction l as [|x r IH]; intros a Hl Ha; simpl; [exact Ha|].
  inversion Hl; subst. apply IH; [assumption | lra].
Qed.

Lemma inject_nat_pos (n : nat) : (0 < n)%nat -> 0 < inject_Z (Z.of_nat n).
Proof.
  intro H. change 0 with (inject_Z 0). rewrite <- Zlt_Qlt. lia.
Qed.

(** X8: for a risk manager that has closed at least one trade and whose
    initial capital is not 0, the metrics are returned; they count the
    trades of the history, their win rate lies between 0 and 1, the
    average win is not negative and the average loss not positive.  With
    an initial capital of 0 the call raises [ZeroDivisionError]. *)
Theorem performance_metrics_consistent rm :
  trade_history rm <> [] ->
  (~ initial_capital rm == 0 ->
   exists m,
     get_performance_metrics rm = Ok (Some m)
     /\ total_trades m = List.length (trade_history rm)
     /\ 0 <= win_rate m <= 1
     /\ 0 <= average_win m
     /\ average_loss m <= 0)
  /\ (initial_capital rm == 0 ->
      get_performance_metrics rm = Raised ZeroDivisionError).
Proof.
  intros Hne.
  unfold get_performance_metrics.
  destruct (trade_history rm) as [|t l] eqn:E; [congruence|].
  rewrite <- E in *. clear E t l.
  set (pnls := map realized_pnl (trade_history rm)) in *.
  assert (Hlen : (0 < List.length pnls)%nat).
  { unfold pnls. rewrite length_map.
    destruct (trade_history rm); [congruence | simpl; lia]. }
  split; intro Hc;
    [|apply Qeq_bool_iff in Hc; now rewrite Hc].
  destruct (Qeq_bool (initial_capital rm) 0) eqn:Ec;
    [apply Qeq_bool_iff in Ec; contradiction|].
  eexists. split; [reflexivity|]. simpl.
  repeat split.
  - apply PyNumFacts.Qdiv_nonneg; [|now apply inject_nat_pos].
    change 0 with (inject_Z 0). rewrite <- Zle_Qle. lia.
  - apply Qle_shift_div_r; [now apply inject_nat_pos|].
    rewrite Qmult_1_l, <- Zle_Qle.
    pose proof (filter_length_le (fun pnl => PyNum.Qltb 0 pnl) pnls). lia.
  - destruct (filter (fun pnl => PyNum.Qltb 0 pnl) pnls) as [|w ws] eqn:Ew;
      [lra|].
    unfold Qmean. apply PyNumFacts.Qdiv_nonneg;
      [|apply inject_nat_pos; simpl; lia].
    apply sum_nonneg; [|lra]. rewrite <- Ew.
    apply Forall_forall. intros x Hx. apply filter_In in Hx.
    destruct Hx as [_ Hx]. apply PyNumFacts.Qltb_lt in Hx. lra.
  - destruct (filter (fun pnl => PyNum.Qltb pnl 0) pnls) as [|w ws] eqn:Ew;
      [lra|].
    unfold Qmean.
    assert (Hs : fold_left Qplus (w :: ws) 0 <= 0).
    { apply sum_nonpos; [|lra]. rewrite <- Ew.
      apply Forall_forall. intros x Hx. apply filter_In in Hx.
      destruct Hx as [_ Hx]. apply PyNumFacts.Qltb_lt in Hx. lra. }
    assert (Hn : 0 < inject_Z (Z.of_nat (List.length (w :: ws))))
      by (apply inject_nat_pos; simpl; lia).
    apply Qle_shift_div_r; [exact Hn | lra].
Qed.

(** *** One position under management *)










End RiskFacts.

(* ------------------------------------------------------------------ *)
(** ** The capital in binary64 *)

Module Risk64Facts.

Import Risk64.

Lemma add_position_frame64 rm now sym sz entry stop tp dir :
  let rm' := fst (add_position rm now sym sz entry stop tp dir) in
  current_capital rm' = current_capital rm
  /\ initial_capital rm' = initial_capital rm
  /\ trade_history rm' = trade_history rm.
Proof.
  unfold add_position.
  destruct (negb (check_risk_limits rm sym sz entry)); simpl; auto.
Qed.

Lemma update_position_pnl_frame64 rm sym price rm' :
  update_position_pnl rm sym price = Ok rm' ->
  current_capital rm' = current_capital rm
  /\ initial_capital rm' = initial_capital rm
  /\ trade_history rm' = trade_history rm.
Proof.
  unfold update_position_pnl.
  destruct (lookup sym (positions rm)) as [p|].
  - match goal with
    | |- match ?pnl with _ => _ end = _ -> _ => destruct pnl as [u|e]
    end; [|discriminate].
    intro H. inversion H; subst; clear H. simpl. auto.
  - intro H. inversion H; subst. auto.
Qed.

Lemma close_position_effect64 rm now sym price reason rm' res :
  close_position rm now sym price reason = Ok (rm', res) ->
  (res = None /\ rm' = rm)
  \/ (exists t, res = Some t
        /\ current_capital rm'
           = PrimFloat.add (current_capital rm) (realized_pnl t)
        /\ initial_capital rm' = initial_capital rm
        /\ trade_history rm' = (trade_history rm ++ [t])%list).
Proof.
  unfold close_position.
  destruct (lookup sym (positions rm)) as [p0|].
  - destruct (update_position_pnl rm sym price) as [rm1|e] eqn:Hu;
      [|discriminate].
    apply update_position_pnl_frame64 in Hu. destruct Hu as (Hc & Hi & Ht).
    destruct (lookup sym (positions rm1)) as [p|]; [|discriminate].
    intro H. inversion H; subst; clear H. right.
    eexists. split; [reflexivity|]. simpl.
    rewrite Hc, Hi, Ht. auto.
  - intro H. inversion H; subst. left; auto.
Qed.

Lemma run_call_chain rm c :
  current_capital rm = capital_chain rm ->
  current_capital (run_call rm c) = capital_chain (run_call rm c).
Proof.
  unfold capital_chain. intro H.
  destruct c as [now s sz e sl tp d | s p | now s p r]; simpl.
  - destruct (add_position_frame64 rm now s sz e sl tp d) as (Hc & Hi & Ht).
    rewrite Hc, Hi, Ht. exact H.
  - destruct (update_position_pnl rm s p) as [rm'|] eqn:Hu; [|exact H].
    apply update_position_pnl_frame64 in Hu. destruct Hu as (Hc & Hi & Ht).
    rewrite Hc, Hi, Ht. exact H.
  - destruct (close_position rm now s p r) as [[rm' res]|] eqn:Hc; [|exact H].
    apply close_position_effect64 in Hc.
    destruct Hc as [[_ ->] | (t & _ & Hc & Hi & Ht)]; [exact H|].
    rewrite Hc, Hi, Ht, map_app, fold_left_app, H. reflexivity.
Qed.

Lemma run_calls_chain calls : forall rm,
  current_capital rm = capital_chain rm ->
  current_capital (run_calls rm calls) = capital_chain (run_calls rm calls).
Proof.
  induction calls as [|c r IH]; intros rm H; simpl.
  - exact H.
  - apply IH. now apply run_call_chain.
Qed.

Lemma run_call_initial64 rm c :
  initial_capital (run_call rm c) = initial_capital rm.
Proof.
  destruct c as [now s sz e sl tp d | s p | now s p r]; simpl.
  - apply add_position_frame64.
  - destruct (update_position_pnl rm s p) eqn:Hu; [|reflexivity].
    now apply update_position_pnl_frame64 in Hu.
  - destruct (close_position rm now s p r) as [[rm' res]|] eqn:Hc;
      [|reflexivity].
    apply close_position_effect64 in Hc.
    destruct Hc as [[_ ->] | (t & _ & _ & Hi & _)]; auto.
Qed.

Lemma run_calls_initial64 calls : forall rm,
  initial_capital (run_calls rm calls) = initial_capital rm.
Proof.
  induction calls as [|c r IH]; intros rm; [reflexivity|].
  change (run_calls rm (c :: r)) with (run_calls (run_call rm c) r).
  rewrite IH. apply run_call_initial64.
Qed.

(** C2, in the arithmetic of the interpreter: the capital is written by
    [close_position] only.  [add_position] and [update_position_pnl]
    return an instance with the same [current_capital] and the same
    [trade_history]; a [close_position] that closes a position appends
    its trade and adds the trade's [realized_pnl] to the capital with one
    float addition, and one that finds no position changes nothing.
    After any sequence of calls of the three methods on a fresh instance,
    [current_capital] is therefore the initial capital with the
    [realized_pnl] of the trades in [trade_history] added one after the
    other, in the order of the closes. *)
Theorem capital_is_chain_of_closes :
  (forall rm now sym sz entry stop tp dir,
      let rm' := run_call rm (CallAdd now sym sz entry stop tp dir) in
      current_capital rm' = current_capital rm
      /\ trade_history rm' = trade_history rm)
  /\ (forall rm sym price,
         let rm' := run_call rm (CallUpdate sym price) in
         current_capital rm' = current_capital rm
         /\ trade_history rm' = trade_history rm)
  /\ (forall rm now sym price reason,
         let rm' := run_call rm (CallClose now sym price reason) in
         rm' = rm
         \/ exists t,
              trade_history rm' = (trade_history rm ++ [t])%list
              /\ current_capital rm'
                 = PrimFloat.add (current_capital rm) (realized_pnl t))
  /\ (forall capital calls,
         let rm := run_calls (init capital) calls in
         initial_capital rm = capital
         /\ current_capital rm
            = fold_left PrimFloat.add
                (map realized_pnl (trade_history rm)) capital).
Proof.
  split; [|split; [|split]].
  - intros. subst rm'. simpl.
    destruct (add_position_frame64 rm now sym sz entry stop tp dir)
      as (Hc & _ & Ht).
    split; assumption.
  - intros. subst rm'. simpl.
    destruct (update_position_pnl rm sym price) eqn:Hu; [|split; reflexivity].
    apply update_position_pnl_frame64 in Hu. tauto.
  - intros. subst rm'. simpl.
    destruct (close_position rm now sym price reason) as [[rm' res]|] eqn:Hc;
      [|left; reflexivity].
    apply close_position_effect64 in Hc.
    destruct Hc as [[_ ->] | (t & _ & Hc & _ & Ht)]; [left; reflexivity|].
    right. exists t. split; assumption.
  - intros capital calls rm.
    assert (Hi : initial_capital rm = capital).
    { subst rm. now rewrite run_calls_initial64. }
    split; [exact Hi|].
    rewrite <- Hi. subst rm.
    apply (@run_calls_chain calls (init capital)). reflexivity.
Qed.

End Risk64Facts.

(* ------------------------------------------------------------------ *)
(** ** The analysis snapshot and the confluence score *)

Module StrategyFacts.

Import Strategy.
Local Open Scope Q_scope.

(** *** The PO3 size is never zero *)

Lemma fold_pick (A : Type) (step : Z * A -> Z -> Z * A) (l : list Z) :
  (forall acc x, fst (step acc x) = fst acc \/ fst (step acc x) = x) ->
  forall acc,
    fst (fold_left step l acc) = fst acc \/ In (fst (fold_left step l acc)) l.
Proof.
  intro Hstep. induction l as [|x r IH]; intro acc; simpl; [auto|].
  destruct (IH (step acc x)) as [E | Hin]; [|auto].
  rewrite E. destruct (Hstep acc x) as [-> | ->]; auto.
Qed.

Lemma closest_po3_nonzero (avg : option Q) : PO3.closest_po3 avg <> 0%Z.
Proof.
  unfold PO3.closest_po3. destruct avg as [avg|]; [|discriminate].
  match goal with
  | |- fst (fold_left ?f ?l ?a) <> _ =>
      assert (Hstep : forall acc x, fst (f acc x) = fst acc \/ fst (f acc x) = x);
      [| destruct (@fold_pick _ f l Hstep a) as [E | Hin]]
  end.
  - intros [best m] x. simpl.
    destruct (match m with Some _ => _ | None => _ end); simpl; auto.
  - rewrite E. discriminate.
  - remember (fst (fold_left _ _ _)) as z eqn:Ez. clear Ez Hstep.
    unfold PO3.po3_numbers in Hin.
    repeat (destruct Hin as [<- | Hin]; [discriminate|]). contradiction.
Qed.

Lemma optimal_po3_nonzero data index_name lookback :
  PO3.get_optimal_po3_size data index_name lookback <> 0%Z.
Proof. apply closest_po3_nonzero. Qed.

(** *** When the analysis yields a snapshot *)

Lemma last_row_nonempty (df : Market.DataFrame) :
  df <> [] -> exists b, Market.last_row df = Some b.
Proof.
  intro H. unfold Market.last_row.
  destruct (rev df) as [|b r] eqn:E; [|eauto].
  apply (f_equal (@rev _)) in E. rewrite rev_involutive in E. contradiction.
Qed.

Lemma analyze_market_short cfg index_name now data :
  (List.length data < 100)%nat ->
  analyze_market cfg index_name now data = Ok None.
Proof.
  intro H. unfold analyze_market.
  apply Nat.ltb_lt in H. now rewrite H.
Qed.

Lemma analyze_market_enough cfg index_name now data :
  (100 <= List.length data)%nat ->
  exists snapshot, analyze_market cfg index_name now data = Ok (Some snapshot).
Proof.
  intro H. unfold analyze_market.
  assert (Hlt : (List.length data <? 100)%nat = false)
    by (apply Nat.ltb_ge; exact H).
  rewrite Hlt.
  assert (Hne : data <> []) by (intros ->; simpl in H; lia).
  destruct (last_row_nonempty Hne) as [final Hfinal]. rewrite Hfinal.
  destruct (@PO3Facts.dealing_range_total (Market.close final)
              (PO3.get_optimal_po3_size data index_name 60) (asset_type cfg))
    as [r Hr]; [apply optimal_po3_nonzero|].
  rewrite Hr.
  unfold AMD.identify_daily_amd_cycle. rewrite Hfinal. cbn [option_map].
  match goal with
  | |- context [match ?l with [] => Ok None | _ :: _ => _ end] => destruct l
  end; eauto.
Qed.

(** What the method does with the length of the window: at least 100
    bars yield a snapshot, fewer the empty result; no window raises. *)
Lemma analyze_market_needs_100_bars cfg index_name now data :
  ((100 <= List.length data)%nat ->
   exists snapshot,
     analyze_market cfg index_name now data = Ok (Some snapshot))
  /\ ((List.length data < 100)%nat ->
      analyze_market cfg index_name now data = Ok None).
Proof.
  split; [apply analyze_market_enough | apply analyze_market_short].
Qed.

(** C4: a window of 50 to 99 bars gets the empty snapshot from
    [ICTStrategy.analyze_market], whose guard is [len(data) < 100]; the
    claim, and the guard [len(data) < 50] of the sibling
    [StandaloneICTStrategy.analyze_market], have such a window analysed.
    The window of 50 hourly bars is one. *)
Theorem windows_of_50_bars_get_no_snapshot :
  (forall cfg index_name now data,
      (50 <= List.length data < 100)%nat ->
      analyze_market cfg index_name now data = Ok None)
  /\ (50 <= List.length (Fixtures.hourly_window 50) < 100)%nat
  /\ analyze_market Fixtures.forex_config "None" 0 (Fixtures.hourly_window 50)
     = Ok None
  /\ ~ (exists snapshot,
          analyze_market Fixtures.forex_config "None" 0
            (Fixtures.hourly_window 50) = Ok (Some snapshot)).
Proof.
  assert (H : forall cfg index_name now data,
             (50 <= List.length data < 100)%nat ->
             analyze_market cfg index_name now data = Ok None).
  { intros cfg index_name now data [_ Hlt].
    now apply analyze_market_short. }
  assert (Hlen : (50 <= List.length (Fixtures.hourly_window 50) < 100)%nat)
    by (vm_compute; lia).
  split; [exact H|]. split; [exact Hlen|].
  split; [now apply H|].
  intros [snapshot Hs]. rewrite (H _ _ _ _ Hlen) in Hs. discriminate.
Qed.


(** *** Raw strength of the candidates *)

Lemma nearest_step_weight p md lt acc k lv :
  (forall nl, snd acc = Some nl ->
     Goldbach.weight (Goldbach.level nl)
     = Goldbach.level_weights (Goldbach.level_type nl)) ->
  Goldbach.weight lv = Goldbach.level_weights lt ->
  forall nl, snd (Goldbach.nearest_step p md lt acc (k, lv)) = Some nl ->
    Goldbach.weight (Goldbach.level nl)
    = Goldbach.level_weights (Goldbach.level_type nl).
Proof.
  intros Hacc Hlv nl. unfold Goldbach.nearest_step. destruct acc as [m n].
  destruct (_ && _); simpl.
  - intro H. inversion H; subst. simpl. exact Hlv.
  - apply Hacc.
Qed.

(** The nearest level carries the weight of its own category. *)
Lemma nearest_weight p hi lo md nl :
  Goldbach.get_nearest_goldbach_level p
    (Goldbach.calculate_goldbach_levels hi lo) md = Some nl ->
  Goldbach.weight (Goldbach.level nl)
  = Goldbach.level_weights (Goldbach.level_type nl).
Proof.
  unfold Goldbach.get_nearest_goldbach_level,
    Goldbach.calculate_goldbach_levels, Goldbach.goldbach_levels.
  cbn [map fold_left].
  revert nl.
  repeat (apply nearest_step_weight; [|reflexivity]).
  intros nl H. discriminate H.
Qed.

Lemma analyze_market_nearest cfg index_name now data a :
  analyze_market cfg index_name now data = Ok (Some a) ->
  nearest_level a
  = Goldbach.get_nearest_goldbach_level (current_price a)
      (Goldbach.calculate_goldbach_levels
         (PO3.range_high (dealing_range a)) (PO3.range_low (dealing_range a)))
      None.
Proof.
  unfold analyze_market.
  destruct (_ <? _)%nat; [discriminate|].
  destruct (Market.last_row data); [|discriminate].
  destruct (PO3.calculate_dealing_range _ _ _); [|discriminate].
  destruct (AMD.identify_daily_amd_cycle data None); [|discriminate].
  intro H. inversion H; subst. reflexivity.
Qed.

(** Every candidate of a tick has a raw strength of at least 0.7. *)
Lemma candidate_strength cfg index_name now data a s :
  analyze_market cfg index_name now data = Ok (Some a) ->
  In s (candidates a) ->
  exists raw, sig_strength s = Some raw /\ 7 # 10 <= raw.
Proof.
  intros Ha Hin. unfold candidates in Hin.
  repeat (apply in_app_or in Hin; destruct Hin as [Hin | Hin]).
  - unfold _generate_po3_signals in Hin.
    destruct (String.eqb _ "discount" && _) eqn:E1.
    + destruct Hin as [<- | []]. simpl. eexists; split; [reflexivity|].
      apply andb_true_iff in E1. destruct E1 as [_ E1].
      apply PyNumFacts.Qltb_lt in E1. lra.
    + destruct (String.eqb _ "premium" && _) eqn:E2; [|destruct Hin].
      destruct Hin as [<- | []]. simpl. eexists; split; [reflexivity|].
      apply andb_true_iff in E2. destruct E2 as [_ E2].
      apply PyNumFacts.Qltb_lt in E2. lra.
  - unfold _generate_goldbach_signals in Hin.
    pose proof (analyze_market_nearest _ _ _ _ Ha) as Hn.
    destruct (nearest_level a) as [nl|]; [|destruct Hin].
    symmetry in Hn. apply nearest_weight in Hn.
    destruct (PyNum.Qltb _ _); [|destruct Hin].
    destruct (Goldbach.level_type nl); try contradiction;
      destruct Hin as [<- | []];
      simpl; eexists; (split; [reflexivity|]); rewrite Hn; simpl; lra.
  - unfold _generate_amd_signals in Hin.
    destruct (current_phase a); try contradiction.
    destruct (manipulation_analysis a); [|destruct Hin].
    destruct (String.eqb _ _); [|destruct Hin].
    destruct Hin as [<- | []]. simpl. eexists; split; [reflexivity|]. lra.
  - unfold _generate_hippo_signals in Hin.
    apply in_flat_map in Hin. destruct Hin as (p & _ & Hin).
    destruct (_ && _); [|destruct Hin].
    destruct Hin as [<- | []]. simpl. eexists; split; [reflexivity|]. lra.
Qed.

(** *** The score against the clipped sum of the specification *)

Ltac split_min_max :=
  repeat match goal with
         | |- context [PyNum.py_min ?e 1] =>
             destruct (PyNumFacts.py_min_case e 1) as [[? ->] | [? ->]]
         | |- context [PyNum.py_max 0 ?e] =>
             destruct (PyNumFacts.py_max_case 0 e) as [[? ->] | [? ->]]
         end.

Lemma confluence_of_nonnegative s a raw :
  sig_strength s = Some raw -> 0 <= raw ->
  _calculate_confluence s a == spec_confluence raw a
  /\ 0 <= _calculate_confluence s a <= 1.
Proof.
  intros Hs Hraw. unfold _calculate_confluence, spec_confluence, clip.
  rewrite Hs.
  destruct (current_phase a);
    destruct (nearest_level a) as [nl|];
    try destruct (PyNum.Qltb (Goldbach.distance nl) _);
    destruct (String.eqb _ "discount" || String.eqb _ "premium");
    destruct (existsb Hippo.is_hippo (patterns a));
    split_min_max; repeat split; lra.
Qed.

(** The code clips from above only: a signal built by hand with a
    negative strength keeps a negative score.  No generator emits one. *)
Remark confluence_has_no_lower_clip :
  _calculate_confluence Fixtures.weak_signal Fixtures.quiet_snapshot
  == - (1 # 2).
Proof. vm_compute. reflexivity. Qed.

(** C3: every candidate of a tick, scored against any snapshot, gets its
    raw strength plus 0.20 in the manipulation phase, plus 0.15 when the
    nearest level is closer than 0.002 times its price, plus 0.10 in the
    discount or premium zone, plus 0.10 when a hidden-gap pattern is
    present, clipped to the interval from 0 to 1; the score lies between
    0 and 1. *)
Theorem confluence_score_clipped cfg index_name now data a s a' :
  analyze_market cfg index_name now data = Ok (Some a) ->
  In s (candidates a) ->
  exists raw,
    sig_strength s = Some raw
    /\ _calculate_confluence s a' == spec_confluence raw a'
    /\ 0 <= _calculate_confluence s a' <= 1.
Proof.
  intros Ha Hin.
  destruct (candidate_strength _ _ _ _ _ Ha Hin) as (raw & Hs & Hraw).
  exists raw. split; [exact Hs|].
  apply confluence_of_nonnegative; [exact Hs | lra].
Qed.

(** *** Position of the price in its range *)

(** X9: for a price inside a non-empty range, [_analyze_price_position]
    reports a position between 0 and 1 and a strength between 0 and 1.
    The zone follows from the reported position by the comparisons of the
    code: discount when it is at most 0.33, premium when it is at least
    0.67, equilibrium strictly between.  The strength is not clipped:
    below the range low the zone is the discount one with a strength of
    at least 1. *)
Theorem price_position_bounds (price : Q) (r : PO3.DealingRange) :
  PO3.range_low r < PO3.range_high r ->
  let pp := _analyze_price_position price r in
  (PO3.range_low r <= price <= PO3.range_high r ->
   0 <= position_percentage pp <= 1 /\ 0 <= strength pp <= 1)
  /\ (zone pp = "discount"%string <-> position_percentage pp <= 33 # 100)
  /\ (zone pp = "premium"%string <-> 67 # 100 <= position_percentage pp)
  /\ (zone pp = "equilibrium"%string
      <-> 33 # 100 < position_percentage pp < 67 # 100)
  /\ (price < PO3.range_low r ->
      zone pp = "discount"%string /\ 1 <= strength pp).
Proof.
  intros Hr pp.
  set (width := PO3.range_high r - PO3.range_low r).
  assert (Hw : 0 < width) by (unfold width; lra).
  set (pct := (price - PO3.range_low r) / width).
  assert (Epct : pct * width == price - PO3.range_low r)
    by (unfold pct; field; lra).
  assert (Hpp : pp = if Qle_bool pct (33 # 100)
                     then mkPricePosition "discount" pct
                            (((33 # 100) - pct) / (33 # 100))
                     else if Qle_bool (67 # 100) pct
                          then mkPricePosition "premium" pct
                                 ((pct - (67 # 100)) / (33 # 100))
                          else mkPricePosition "equilibrium" pct
                                 (1 - Qabs (pct - (1 # 2)) / (17 # 100)))
    by reflexivity.
  clearbody pp pct. subst pp.
  assert (Hin : PO3.range_low r <= price <= PO3.range_high r -> 0 <= pct <= 1).
  { intros [H1 H2]. split.
    - apply Qnot_lt_le. intro Hlt.
      assert (pct * width < 0 * width)
        by (apply Qmult_lt_compat_r; lra). lra.
    - apply Qnot_lt_le. intro Hlt.
      assert (1 * width < pct * width)
        by (apply Qmult_lt_compat_r; lra). unfold width in *. lra. }
  assert (Hbelow : price < PO3.range_low r -> pct < 0).
  { intro H. apply Qnot_le_lt. intro Hc.
    assert (0 * width <= pct * width)
      by (apply Qmult_le_compat_r; lra). lra. }
  assert (Hd : forall x, x / (33 # 100) == x * (100 # 33))
    by (intro; field).
  assert (He : forall x, x / (17 # 100) == x * (100 # 17))
    by (intro; field).
  destruct (Qle_bool pct (33 # 100)) eqn:E1.
  - apply Qle_bool_iff in E1. cbn [zone position_percentage strength].
    rewrite !Hd.
    split; [intro H; apply Hin in H; lra|].
    split; [tauto|].
    split; [split; [discriminate | intro; lra]|].
    split; [split; [discriminate | intro; lra]|].
    intro H. apply Hbelow in H. split; [reflexivity | lra].
  - assert (H1 : (33 # 100) < pct).
    { apply Qnot_le_lt. intro H. apply Qle_bool_iff in H. congruence. }
    destruct (Qle_bool (67 # 100) pct) eqn:E2.
    + apply Qle_bool_iff in E2. cbn [zone position_percentage strength].
      rewrite !Hd.
      split; [intro H; apply Hin in H; lra|].
      split; [split; [discriminate | intro; lra]|].
      split; [tauto|].
      split; [split; [discriminate | intro; lra]|].
      intro H. apply Hbelow in H. lra.
    + assert (H2 : pct < (67 # 100)).
      { apply Qnot_le_lt. intro H. apply Qle_bool_iff in H. congruence. }
      cbn [zone position_percentage strength]. rewrite !He.
      assert (Ha : Qabs (pct - (1 # 2)) <= 17 # 100)
        by (apply Qabs_Qle_condition; split; lra).
      pose proof (Qabs_nonneg (pct - (1 # 2))) as Hn.
      split; [intro H; apply Hin in H; lra|].
      split; [split; [discriminate | intro; lra]|].
      split; [split; [discriminate | intro; lra]|].
      split; [split; [intro; lra | reflexivity]|].
      intro H. apply Hbelow in H. lra.
Qed.

(** *** The live phase against the session windows *)

(** X10: the phase [_identify_current_amd_phase] names for a time of day
    is one whose session window contains that time; a time on a shared
    boundary goes to the first test that matches: 05:00 and 20:00 are
    accumulation, 11:00 is manipulation. *)
Theorem current_phase_within_session (b : Market.Bar) :
  let now := Market.time_of (Market.timestamp b) in
  (forall sn si,
      In (sn, si) AMD.session_times ->
      AMD.phase si = _identify_current_amd_phase now ->
      AMD.in_session sn si b = true)
  /\ _identify_current_amd_phase (Market.time 5 0) = AMD.accumulation
  /\ _identify_current_amd_phase (Market.time 11 0) = AMD.manipulation
  /\ _identify_current_amd_phase (Market.time 20 0) = AMD.accumulation.
Proof.
  intro now. split; [|repeat split].
  intros sn si Hin Hphase. unfold AMD.session_times in Hin.
  unfold _identify_current_amd_phase in Hphase.
  destruct Hin as [E | [E | [E | []]]]; inversion E; subst sn si; clear E;
    unfold AMD.in_session; cbn [AMD.start AMD.end_ AMD.phase] in *;
    fold now;
    destruct ((Market.time 20 0 <=? now)%Z || (now <=? Market.time 5 0)%Z) eqn:E1;
    try discriminate; try reflexivity;
    destruct ((Market.time 5 0 <=? now)%Z && (now <=? Market.time 11 0)%Z) eqn:E2;
    try discriminate; try reflexivity.
  apply orb_false_iff in E1. destruct E1 as [E1 E3].
  apply andb_false_iff in E2.
  apply Z.leb_gt in E1, E3. unfold Market.time in *.
  apply andb_true_iff. rewrite !Z.leb_le.
  destruct E2 as [E2 | E2]; apply Z.leb_gt in E2; lia.
Qed.

(** *** Ranking and filtering *)

Lemma insert_desc_in (x : Signal) (l : list Signal) (y : Signal) :
  In y (insert_desc x l) <-> y = x \/ In y l.
Proof.
  induction l as [|z r IH]; simpl; [intuition|].
  destruct (PyNum.Qltb (score_of z) (score_of x)); simpl; [intuition|].
  rewrite IH. intuition.
Qed.

Lemma insert_desc_sorted (x : Signal) (l : list Signal) :
  StronglySorted (fun a b => score_of b <= score_of a) l ->
  StronglySorted (fun a b => score_of b <= score_of a) (insert_desc x l).
Proof.
  induction 1 as [|z r Hs IH Hz]; simpl.
  - repeat constructor.
  - destruct (PyNum.Qltb (score_of z) (score_of x)) eqn:E.
    + apply PyNumFacts.Qltb_lt in E. constructor; [now constructor|].
      constructor; [lra|].
      rewrite Forall_forall in *. intros y Hy. specialize (Hz y Hy).
      simpl in Hz. lra.
    + apply PyNumFacts.Qltb_ge in E. constructor; [exact IH|].
      rewrite Forall_forall in *. intros y Hy.
      apply insert_desc_in in Hy. destruct Hy as [-> | Hy]; auto.
Qed.

Lemma sort_desc_spec (l : list Signal) :
  StronglySorted (fun a b => score_of b <= score_of a) (sort_desc l)
  /\ (forall y, In y (sort_desc l) <-> In y l).
Proof.
  unfold sort_desc.
  assert (H : forall acc,
             StronglySorted (fun a b => score_of b <= score_of a) acc ->
             StronglySorted (fun a b => score_of b <= score_of a)
               (fold_left (fun acc x => insert_desc x acc) l acc)
             /\ (forall y, In y (fold_left (fun acc x => insert_desc x acc) l acc)
                           <-> In y acc \/ In y l)).
  { induction l as [|x r IH]; intros acc Hacc; simpl.
    - split; [exact Hacc | intuition].
    - destruct (IH (insert_desc x acc) (insert_desc_sorted x Hacc)) as [H1 H2].
      split; [exact H1|]. intro y. rewrite H2, insert_desc_in. intuition. }
  destruct (H [] (SSorted_nil _)) as [H1 H2].
  split; [exact H1|]. intro y. rewrite H2. simpl. intuition.
Qed.

Lemma filter_sorted (A : Type) (R : A -> A -> Prop) (f : A -> bool)
    (l : list A) :
  StronglySorted R l -> StronglySorted R (filter f l).
Proof.
  induction 1 as [|x r Hs IH Hx]; simpl; [constructor|].
  destruct (f x); [|exact IH]. constructor; [exact IH|].
  rewrite Forall_forall in *. intros y Hy. apply filter_In in Hy.
  apply Hx. tauto.
Qed.

Lemma firstn_sorted (A : Type) (R : A -> A -> Prop) (n : nat) :
  forall l : list A, StronglySorted R l -> StronglySorted R (firstn n l).
Proof.
  induction n as [|n IH]; intros l H; simpl; [constructor|].
  destruct l as [|x r]; [constructor|]. inversion H; subst.
  constructor; [now apply IH|].
  rewrite Forall_forall in *. intros y Hy. apply ListFacts.In_firstn in Hy. auto.
Qed.

(** X11: [_filter_signals] returns at most [max_daily_trades] signals,
    in descending order of confluence score; each of them is one of the
    given signals with its score against the snapshot attached, and that
    score is at least 0.6. *)
Theorem filter_signals_ranked cfg signals analysis :
  let out := _filter_signals cfg signals analysis in
  (List.length out <= max_daily_trades cfg)%nat
  /\ StronglySorted (fun a b => score_of b <= score_of a) out
  /\ (forall s, In s out ->
        exists s0,
          In s0 signals
          /\ confluence_score s = Some (_calculate_confluence s0 analysis)
          /\ 6 # 10 <= _calculate_confluence s0 analysis
          /\ (sig_type s, direction s, sig_strength s, entry_price s)
             = (sig_type s0, direction s0, sig_strength s0, entry_price s0)).
Proof.
  intro out. unfold out, _filter_signals.
  set (scored := map _ signals).
  destruct (sort_desc_spec scored) as [Hsorted Hin].
  split; [|split].
  - apply firstn_le_length.
  - apply firstn_sorted, filter_sorted, Hsorted.
  - intros s Hs. apply ListFacts.In_firstn in Hs. apply filter_In in Hs.
    destruct Hs as [Hs Hscore]. apply Hin in Hs. unfold scored in Hs.
    apply in_map_iff in Hs. destruct Hs as (s0 & <- & Hs0).
    exists s0. split; [exact Hs0|]. cbn in *.
    split; [reflexivity|]. split; [|reflexivity].
    now apply Qle_bool_iff in Hscore.
Qed.

(** X12: [generate_signals] always returns a list; it has at most
    [max_daily_trades] signals, in descending order of confluence score,
    each with a score between 0.6 and 1; a window of fewer than 100 bars
    gives the empty list. *)
Theorem generate_signals_bounded cfg index_name now data :
  exists out,
    generate_signals cfg index_name now data = Ok out
    /\ (List.length out <= max_daily_trades cfg)%nat
    /\ StronglySorted (fun a b => score_of b <= score_of a) out
    /\ Forall (fun s => exists c, confluence_score s = Some c
                                  /\ 6 # 10 <= c <= 1) out
    /\ ((List.length data < 100)%nat -> out = []).
Proof.
  unfold generate_signals.
  destruct (Nat.lt_ge_cases (List.length data) 100) as [Hshort | Hlong].
  - rewrite (analyze_market_short cfg index_name now data Hshort).
    exists []. repeat split; auto; simpl; try lia; constructor.
  - destruct (analyze_market_enough cfg index_name now data Hlong)
      as [a Ha].
    rewrite Ha. eexists. split; [reflexivity|].
    unfold _filter_signals. set (scored := map _ (candidates a)).
    destruct (sort_desc_spec scored) as [Hsorted Hin].
    split; [apply firstn_le_length|].
    split; [apply firstn_sorted, filter_sorted, Hsorted|].
    split; [|intro; lia].
    apply Forall_forall. intros s Hs.
    apply ListFacts.In_firstn in Hs. apply filter_In in Hs.
    destruct Hs as [Hs Hscore]. apply Hin in Hs. unfold scored in Hs.
    apply in_map_iff in Hs. destruct Hs as (s0 & <- & Hs0). cbn in *.
    eexists. split; [reflexivity|].
    split; [now apply Qle_bool_iff in Hscore|].
    destruct (candidate_strength _ _ _ _ _ Ha Hs0) as (raw & Hraw & Hr).
    apply (@confluence_of_nonnegative s0 a raw Hraw). lra.
Qed.

End StrategyFacts.

(* ------------------------------------------------------------------ *)
(** ** The three phases of a trading day *)

Module AMDFacts.

Import Market AMD.
Local Open Scope Z_scope.

Lemma time_of_bounds (ts : Z) : 0 <= time_of ts < 86400.
Proof. unfold time_of. apply Z.mod_pos_bound. lia. Qed.

(** What one pass of the session loop writes. *)
Lemma session_step_data day c sn si :
  data (get_phase c (phase si)) = [] ->
  data (get_phase (session_step day c (sn, si)) (phase si))
  = filter (in_session sn si) day.
Proof.
  intro Hempty. unfold session_step.
  destruct (filter (in_session sn si) day) as [|first rest] eqn:E.
  - exact Hempty.
  - destruct (StrategyFacts.last_row_nonempty (df := first :: rest))
      as [final ->]; [discriminate|].
    destruct (phase si); reflexivity.
Qed.

Lemma session_step_other day c sn si p :
  p <> phase si ->
  get_phase (session_step day c (sn, si)) p = get_phase c p.
Proof.
  intro Hp. unfold session_step.
  destruct (filter (in_session sn si) day) as [|first rest]; [reflexivity|].
  destruct (last_row (first :: rest)); [|reflexivity].
  destruct (phase si), p; try reflexivity; congruence.
Qed.

(** The data of each phase of the returned cycle is the part of the day
    its session mask selects. *)
Lemma cycle_phase_data df target c :
  identify_daily_amd_cycle df target = Ok (Some c) ->
  exists day,
    (forall b, In b day <-> In b df /\ date_of (timestamp b) = date c)
    /\ data (acc_phase c)
       = filter (in_session asian (mkSession (time 20 0) (time 5 0) 9 accumulation)) day
    /\ data (man_phase c)
       = filter (in_session london (mkSession (time 5 0) (time 11 0) 6 manipulation)) day
    /\ data (dist_phase c)
       = filter (in_session new_york (mkSession (time 11 0) (time 20 0) 9 distribution)) day.
Proof.
  unfold identify_daily_amd_cycle.
  destruct (match target with Some d => Some d | None => _ end) as [d|];
    [|discriminate].
  set (day := filter (fun b => date_of (timestamp b) =? d) df).
  destruct day as [|b0 day0] eqn:Eday; [discriminate|].
  rewrite <- Eday. intro H.
  assert (Hc : c = fold_left (session_step day) session_times
                     (mkCycle d empty_phase empty_phase empty_phase))
    by congruence.
  clear H. subst c. unfold session_times. cbn [fold_left].
  set (c0 := mkCycle d empty_phase empty_phase empty_phase).
  set (s1 := mkSession (time 20 0) (time 5 0) 9 accumulation).
  set (s2 := mkSession (time 5 0) (time 11 0) 6 manipulation).
  set (s3 := mkSession (time 11 0) (time 20 0) 9 distribution).
  set (c1 := session_step day c0 (asian, s1)).
  set (c2 := session_step day c1 (london, s2)).
  set (c3 := session_step day c2 (new_york, s3)).
  assert (Hd : forall c' e, date (session_step day c' e) = date c').
  { intros c' [sn si]. unfold session_step.
    destruct (filter _ day); [reflexivity|].
    destruct (last_row _); [|reflexivity]. now destruct (phase si). }
  exists day. split; [|split; [|split]].
  - intro b. unfold c3, c2, c1. rewrite !Hd. simpl date.
    subst day. rewrite filter_In, Z.eqb_eq. tauto.
  - change (acc_phase c3) with (get_phase c3 accumulation).
    unfold c3. rewrite (@session_step_other day c2 new_york s3 accumulation)
      by discriminate.
    unfold c2. rewrite (@session_step_other day c1 london s2 accumulation)
      by discriminate.
    exact (@session_step_data day c0 asian s1 eq_refl).
  - change (man_phase c3) with (get_phase c3 manipulation).
    unfold c3. rewrite (@session_step_other day c2 new_york s3 manipulation)
      by discriminate.
    apply (@session_step_data day c1 london s2).
    unfold c1. change (phase s2) with manipulation. now rewrite (@session_step_other day c0 asian s1 manipulation)
      by discriminate.
  - apply (@session_step_data day c2 new_york s3).
    unfold c2. change (phase s3) with distribution.
    rewrite (@session_step_other day c1 london s2 distribution) by discriminate.
    unfold c1.
    now rewrite (@session_step_other day c0 asian s1 distribution)
      by discriminate.
Qed.

(** Every bar of the day is in at least one phase. *)
Lemma phases_cover_day df target c b :
  identify_daily_amd_cycle df target = Ok (Some c) ->
  In b df -> date_of (timestamp b) = date c ->
  In b (data (acc_phase c)) \/ In b (data (man_phase c))
  \/ In b (data (dist_phase c)).
Proof.
  intros Hc Hb Hdate.
  destruct (cycle_phase_data _ _ Hc) as (day & Hday & -> & -> & ->).
  assert (Hin : In b day) by (apply Hday; auto).
  rewrite !filter_In. unfold in_session; simpl start; simpl end_.
  pose proof (time_of_bounds (timestamp b)) as Ht.
  unfold time in *.
  destruct (Z.le_gt_cases (time_of (timestamp b)) 18000);
    [left | destruct (Z.le_gt_cases (time_of (timestamp b)) 39600);
            [right; left | destruct (Z.le_gt_cases 72000 (time_of (timestamp b)));
                           [left | right; right]]];
    (split; [exact Hin|]);
    rewrite ?orb_true_iff, ?andb_true_iff, ?Z.leb_le; lia.
Qed.

(** A bar that is in two phases sits on a session boundary: 05:00, 11:00
    or 20:00. *)
Lemma phases_overlap_on_boundaries df target c b :
  identify_daily_amd_cycle df target = Ok (Some c) ->
  (In b (data (acc_phase c)) /\ In b (data (man_phase c)))
  \/ (In b (data (man_phase c)) /\ In b (data (dist_phase c)))
  \/ (In b (data (acc_phase c)) /\ In b (data (dist_phase c))) ->
  time_of (timestamp b) = time 5 0 \/ time_of (timestamp b) = time 11 0
  \/ time_of (timestamp b) = time 20 0.
Proof.
  intros Hc.
  destruct (cycle_phase_data _ _ Hc) as (day & Hday & -> & -> & ->).
  rewrite !filter_In. unfold in_session; simpl start; simpl end_.
  rewrite ?orb_true_iff, ?andb_true_iff, ?Z.leb_le. unfold time. lia.
Qed.

(** C8, on a full day of hourly bars: the cycle is returned, and the bar
    of 05:00 is both in the accumulation and in the manipulation data, the
    bar of 11:00 both in the manipulation and in the distribution data:
    the three phases are not pairwise disjoint. *)
Theorem boundary_bars_in_two_phases :
  exists c,
    identify_daily_amd_cycle Fixtures.hourly_day None = Ok (Some c)
    /\ In (Fixtures.index_bar (5 * 3600)) (data (acc_phase c))
    /\ In (Fixtures.index_bar (5 * 3600)) (data (man_phase c))
    /\ In (Fixtures.index_bar (11 * 3600)) (data (man_phase c))
    /\ In (Fixtures.index_bar (11 * 3600)) (data (dist_phase c))
    /\ List.length (data (acc_phase c)) = 10%nat
    /\ List.length (data (man_phase c)) = 7%nat
    /\ List.length (data (dist_phase c)) = 10%nat.
Proof.
  eexists. split; [vm_compute; reflexivity|].
  repeat split; try reflexivity; cbn [data acc_phase man_phase dist_phase].
  - do 5 right; left; reflexivity.
  - left; reflexivity.
  - do 6 right; left; reflexivity.
  - left; reflexivity.
Qed.

(** X22: in the cycle [identify_daily_amd_cycle] returns, the rows of
    every phase are rows of the frame dated on the cycle's day, every row
    of that day is in at least one phase, and a row that is in two
    different phases has the time of a session boundary: 05:00, 11:00 or
    20:00. *)
Theorem daily_cycle_phases df target c :
  identify_daily_amd_cycle df target = Ok (Some c) ->
  (forall p b, In b (data (get_phase c p)) ->
               In b df /\ date_of (timestamp b) = date c)
  /\ (forall b, In b df -> date_of (timestamp b) = date c ->
                exists p, In b (data (get_phase c p)))
  /\ (forall p q b, p <> q ->
        In b (data (get_phase c p)) -> In b (data (get_phase c q)) ->
        time_of (timestamp b) = time 5 0
        \/ time_of (timestamp b) = time 11 0
        \/ time_of (timestamp b) = time 20 0).
Proof.
  intro Hc. split; [|split].
  - intros p b Hb.
    destruct (cycle_phase_data _ _ Hc) as (day & Hday & Ha & Hm & Hd).
    apply Hday.
    destruct p; cbn [get_phase] in Hb;
      [rewrite Ha in Hb | rewrite Hm in Hb | rewrite Hd in Hb];
      apply filter_In in Hb; tauto.
  - intros b Hb Hdate.
    destruct (@phases_cover_day df target c b Hc Hb Hdate) as [H | [H | H]];
      [exists accumulation | exists manipulation | exists distribution];
      exact H.
  - intros p q b Hpq Hp Hq.
    apply (@phases_overlap_on_boundaries df target c b Hc).
    destruct p, q; cbn [get_phase] in Hp, Hq; try congruence; tauto.
Qed.

(** *** The manipulation session *)

Lemma col_max_spec (x : Q) (xs : list Q) :
  ((x <= col_max x xs)%Q /\ forall y, In y xs -> (y <= col_max x xs)%Q)
  /\ (col_max x xs = x \/ In (col_max x xs) xs).
Proof.
  unfold col_max. revert x.
  induction xs as [|y r IH]; intro x; cbn [fold_left].
  - split; [split; [lra | intros y []] | now left].
  - destruct (IH (PyNum.py_max x y)) as [[H1 H2] H3].
    destruct (PyNumFacts.py_max_case x y) as [[Hle E] | [Hlt E]];
      rewrite E in *.
    + split; [split; [exact H1|] | destruct H3; [now left | right; now right]].
      intros z [<- | Hz]; [lra | now apply H2].
    + split; [split; [lra|] | right; destruct H3 as [-> | H3];
                               [now left | now right]].
      intros z [<- | Hz]; [exact H1 | now apply H2].
Qed.

Lemma col_min_spec (x : Q) (xs : list Q) :
  ((col_min x xs <= x)%Q /\ forall y, In y xs -> (col_min x xs <= y)%Q)
  /\ (col_min x xs = x \/ In (col_min x xs) xs).
Proof.
  unfold col_min. revert x.
  induction xs as [|y r IH]; intro x; cbn [fold_left].
  - split; [split; [lra | intros y []] | now left].
  - destruct (IH (PyNum.py_min x y)) as [[H1 H2] H3].
    destruct (PyNumFacts.py_min_case x y) as [[Hle E] | [Hlt E]];
      rewrite E in *.
    + split; [split; [exact H1|] | destruct H3; [now left | right; now right]].
      intros z [<- | Hz]; [lra | now apply H2].
    + split; [split; [lra|] | right; destruct H3 as [-> | H3];
                               [now left | now right]].
      intros z [<- | Hz]; [exact H1 | now apply H2].
Qed.

(** X23: [analyze_manipulation_phase] returns the empty dictionary
    exactly on an empty frame.  Otherwise the session high is the high of
    some row and bounds every high, the session low is the low of some
    row and bounds every low, and, when every row has its low at or
    below its high, the range is not negative and the five key levels
    run in ascending order from the session low to the session high. *)
Theorem manipulation_levels_ordered md :
  (analyze_manipulation_phase md = None <-> md = [])
  /\ (forall a,
         analyze_manipulation_phase md = Some a ->
         (forall b, In b md ->
                    (high b <= session_high a /\ session_low a <= low b)%Q)
         /\ (exists b, In b md /\ session_high a = high b)
         /\ (exists b, In b md /\ session_low a = low b)
         /\ ((forall b, In b md -> (low b <= high b)%Q) ->
             (0 <= session_range a)%Q
             /\ StronglySorted Qle (key_levels a)
             /\ hd_error (key_levels a) = Some (session_low a)
             /\ last (key_levels a) 0%Q = session_high a)).
Proof.
  unfold analyze_manipulation_phase.
  destruct md as [|first rest].
  - split; [tauto | discriminate].
  - destruct (StrategyFacts.last_row_nonempty (df := first :: rest))
      as [final ->]; [discriminate|].
    split; [split; discriminate|].
    intros a Ha. inversion Ha; subst a; clear Ha.
    cbn [session_high session_low session_range key_levels].
    destruct (col_max_spec (high first) (map high rest)) as [[Hx1 Hx2] Hx3].
    destruct (col_min_spec (low first) (map low rest)) as [[Hn1 Hn2] Hn3].
    split; [|split; [|split]].
    + intros b [<- | Hb]; [split; assumption|].
      split; [apply Hx2 | apply Hn2]; now apply in_map.
    + destruct Hx3 as [E | Hin].
      * exists first. split; [now left | exact E].
      * apply in_map_iff in Hin. destruct Hin as (b & E & Hb).
        exists b. split; [now right | now symmetry].
    + destruct Hn3 as [E | Hin].
      * exists first. split; [now left | exact E].
      * apply in_map_iff in Hin. destruct Hin as (b & E & Hb).
        exists b. split; [now right | now symmetry].
    + intro Hsane.
      assert (H0 : (low first <= high first)%Q) by (apply Hsane; now left).
      set (hi := col_max (high first) (map high rest)) in *.
      set (lo := col_min (low first) (map low rest)) in *.
      clearbody hi lo.
      assert (Hr : (0 <= hi - lo)%Q) by lra.
      split; [exact Hr|]. split; [|split; [reflexivity|]].
      * repeat (constructor; [|repeat constructor; try lra; nra]).
        constructor.
      * cbn [last]. reflexivity.
Qed.

(** *** Fractal cycles and timing *)

Lemma fractal_step_data (df : DataFrame) (name : string) (level : Z)
    (i : nat) (ph : Phase) :
  let third := (List.length df / 3)%nat in
  List.concat (map fractal_data (fractal_step df name level (i, ph)))
  = iloc_slice (i * third)
      (if (i <? 2)%nat then (i + 1) * third else List.length df) df.
Proof.
  cbv zeta. unfold fractal_step.
  destruct (iloc_slice _ _ df) as [|first rest] eqn:E; [reflexivity|].
  destruct (StrategyFacts.last_row_nonempty (df := first :: rest))
    as [final ->]; [discriminate|].
  cbn [map List.concat fractal_data]. now rewrite app_nil_r.
Qed.

(** X24: the cycles [identify_fractal_amd] returns split the frame: their
    data, one after the other, is the frame itself, and none is empty.
    From three rows on there are the three sub-phases, the first two of a
    third of the rows (rounded down) each; with one or two rows the whole
    frame is a single cycle labelled distribution. *)
Theorem fractal_amd_splits_frame df name level :
  List.concat (map fractal_data (identify_fractal_amd df name level)) = df
  /\ (forall f, In f (identify_fractal_amd df name level) ->
                fractal_data f <> []
                /\ main_phase f = name /\ fractal_level f = level)
  /\ ((3 <= List.length df)%nat ->
      map (fun f => (fractal_phase f, List.length (fractal_data f)))
          (identify_fractal_amd df name level)
      = [ (accumulation, List.length df / 3);
          (manipulation, List.length df / 3);
          (distribution, List.length df - 2 * (List.length df / 3)) ]%nat)
  /\ ((0 < List.length df < 3)%nat ->
      map (fun f => (fractal_phase f, fractal_data f))
          (identify_fractal_amd df name level)
      = [ (distribution, df) ]).
Proof.
  assert (Hid : identify_fractal_amd df name level
                = flat_map (fractal_step df name level)
                    [(0%nat, accumulation); (1%nat, manipulation);
                     (2%nat, distribution)])
    by (destruct df; reflexivity).
  rewrite Hid. clear Hid.
  set (third := (List.length df / 3)%nat).
  assert (Hthird : (3 * third <= List.length df)%nat)
    by (apply Nat.Div0.mul_div_le).
  assert (Hone : forall i ph f,
             In f (fractal_step df name level (i, ph)) ->
             fractal_data f <> [] /\ main_phase f = name
             /\ fractal_level f = level).
  { intros i ph f. unfold fractal_step.
    destruct (iloc_slice _ _ df) as [|first rest] eqn:E;
      [cbv beta iota; intro H; destruct H|].
    destruct (last_row (first :: rest)); cbv beta iota;
      [|intro H; destruct H].
    intro H; destruct H as [<- | []]. cbn. repeat split; try reflexivity. discriminate. }
  assert (Hfull : forall i ph,
             iloc_slice (i * third)
               (if (i <? 2)%nat then (i + 1) * third else List.length df) df
             <> [] ->
             exists f, fractal_step df name level (i, ph) = [f]
                       /\ fractal_phase f = ph
                       /\ fractal_data f
                          = iloc_slice (i * third)
                              (if (i <? 2)%nat then (i + 1) * third
                               else List.length df) df).
  { intros i ph. unfold fractal_step. fold third.
    destruct (iloc_slice _ _ df) as [|first rest] eqn:E; [congruence|].
    destruct (StrategyFacts.last_row_nonempty (df := first :: rest))
      as [final ->]; [discriminate|].
    intros _. eexists. split; [reflexivity|]. split; reflexivity. }
  assert (Hempty : forall i ph,
             iloc_slice (i * third)
               (if (i <? 2)%nat then (i + 1) * third else List.length df) df
             = [] ->
             fractal_step df name level (i, ph) = []).
  { intros i ph E. unfold fractal_step. fold third. now rewrite E. }
  assert (S0 : iloc_slice (0 * third) ((0 + 1) * third) df = firstn third df).
  { unfold iloc_slice. simpl. now rewrite Nat.add_0_r, Nat.sub_0_r. }
  assert (S1 : iloc_slice (1 * third) ((1 + 1) * third) df
               = firstn third (skipn third df)).
  { unfold iloc_slice. f_equal; [lia | f_equal; lia]. }
  assert (S2 : iloc_slice (2 * third) (List.length df) df
               = skipn third (skipn third df)).
  { unfold iloc_slice. rewrite skipn_skipn.
    replace (third + third)%nat with (2 * third)%nat by lia.
    apply firstn_all2. rewrite length_skipn. lia. }
  split; [|split; [|split]].
  - cbn [flat_map]. rewrite app_nil_r, !map_app, !concat_app.
    rewrite !fractal_step_data. fold third.
    change (0 <? 2)%nat with true. change (1 <? 2)%nat with true.
    change (2 <? 2)%nat with false. cbv iota.
    rewrite S0, S1, S2.
    rewrite (firstn_skipn third (skipn third df)).
    apply firstn_skipn.
  - intros f Hf.
    apply in_flat_map in Hf. destruct Hf as ([i ph] & _ & Hf).
    destruct (Hone i ph f Hf) as (H1 & H2 & H3). auto.
  - intro Hlen.
    assert (Hpos : (0 < third)%nat).
    { unfold third. apply Nat.div_str_pos. lia. }
    cbn [flat_map]. rewrite app_nil_r.
    destruct (Hfull 0%nat accumulation) as (f0 & -> & P0 & D0).
    { change (0 <? 2)%nat with true. cbv iota. rewrite S0.
      intro E. apply (f_equal (@List.length _)) in E.
      rewrite length_firstn in E. simpl in E. lia. }
    destruct (Hfull 1%nat manipulation) as (f1 & -> & P1 & D1).
    { change (1 <? 2)%nat with true. cbv iota. rewrite S1.
      intro E. apply (f_equal (@List.length _)) in E.
      rewrite length_firstn, length_skipn in E. simpl in E. lia. }
    destruct (Hfull 2%nat distribution) as (f2 & -> & P2 & D2).
    { change (2 <? 2)%nat with false. cbv iota. rewrite S2.
      intro E. apply (f_equal (@List.length _)) in E.
      rewrite !length_skipn in E. simpl in E. lia. }
    change (0 <? 2)%nat with true in D0. change (1 <? 2)%nat with true in D1.
    change (2 <? 2)%nat with false in D2. cbv iota in D0, D1, D2.
    rewrite S0 in D0. rewrite S1 in D1. rewrite S2 in D2.
    cbn [app map]. rewrite P0, P1, P2, D0, D1, D2.
    rewrite !length_firstn, !length_skipn.
    clearbody third.
    replace (Nat.min third (List.length df)) with third by lia.
    replace (Nat.min third (List.length df - third)) with third by lia.
    replace (List.length df - third - third)%nat
      with (List.length df - 2 * third)%nat by lia.
    reflexivity.
  - intro Hlen.
    assert (Hz : third = 0%nat).
    { unfold third. apply Nat.div_small. lia. }
    cbn [flat_map]. rewrite app_nil_r.
    rewrite (Hempty 0%nat accumulation).
    2:{ change (0 <? 2)%nat with true. cbv iota. rewrite S0, Hz.
        reflexivity. }
    rewrite (Hempty 1%nat manipulation).
    2:{ change (1 <? 2)%nat with true. cbv iota. rewrite S1, Hz.
        reflexivity. }
    destruct (Hfull 2%nat distribution) as (f2 & -> & P2 & D2).
    { change (2 <? 2)%nat with false. cbv iota. rewrite S2, Hz.
      cbn [skipn]. intro E. rewrite E in Hlen. simpl in Hlen. lia. }
    change (2 <? 2)%nat with false in D2. cbv iota in D2.
    rewrite S2, Hz in D2. cbn [skipn] in D2.
    cbn [app map]. now rewrite P2, D2.
Qed.

(** X25: the three windows of [calculate_amd_timing] follow one another
    without a gap, accumulation and manipulation lasting the nine and six
    hours they announce; the distribution window ends
    [total_duration_hours] after the start whatever that is, so its
    length is the nine hours it announces exactly when the total is 24,
    and with a total under 15 hours it ends before it starts. *)
Theorem amd_timing_windows start_time total :
  let t := calculate_amd_timing start_time total in
  let span p := (timing_end p - timing_start p)%Z in
  timing_start (timing_accumulation t) = start_time
  /\ timing_end (timing_accumulation t) = timing_start (timing_manipulation t)
  /\ timing_end (timing_manipulation t) = timing_start (timing_distribution t)
  /\ span (timing_accumulation t)
     = timedelta_hours (timing_duration_hours (timing_accumulation t))
  /\ span (timing_manipulation t)
     = timedelta_hours (timing_duration_hours (timing_manipulation t))
  /\ (span (timing_distribution t)
      = timedelta_hours (timing_duration_hours (timing_distribution t))
      <-> total = 24%Z)
  /\ ((total < 15)%Z ->
      (timing_end (timing_distribution t)
       < timing_start (timing_distribution t))%Z).
Proof.
  cbv zeta. unfold calculate_amd_timing, timedelta_hours.
  cbn [timing_accumulation timing_manipulation timing_distribution
       timing_start timing_end timing_duration_hours].
  repeat split; intros; lia.
Qed.

End AMDFacts.

(* ------------------------------------------------------------------ *)
(** ** One iteration of the replay *)

Module BacktestFacts.

Import Market Backtest.
Local Open Scope Q_scope.

Section Iteration.

Variable execute_strategy : list (string * DataFrame) -> list Signal.
Variable calculate_entry_exit :
  string -> DataFrame -> Signal -> Q * Q * option Q.
Variable now : Z.








(** When both checks would fire on the same bar the stop is taken and the
    target is not even consulted. *)
Lemma stop_wins_conflict current_data sym df final rm1 s :
  lookup_data sym current_data = Some df ->
  last_row df = Some final ->
  Risk.update_position_pnl (risk_manager s) sym (close final) = Ok rm1 ->
  Risk.check_stop_loss rm1 sym (close final) = true ->
  events_of (manage_position now current_data sym) s
  = [EvUpdatePnl sym (close final); EvCheckStop sym (close final) true;
     EvClose sym (close final) "STOP_LOSS"].
Proof.
  intros Hdf Hfinal Hupd Hstop.
  unfold manage_position, events_of. rewrite Hdf, Hfinal.
  cbv beta iota delta [bind update_position_pnl check_stop_loss
                         close_position emit get put raise ret].
  rewrite Hupd. cbv beta iota delta [set_rm risk_manager].
  rewrite Hstop. simpl.
  destruct (Risk.close_position rm1 now sym (close final) "STOP_LOSS")
    as [[rm2 trade]|e]; reflexivity.
Qed.

(** *** What the management step does to the positions *)
















End Iteration.

(** *** The equity history of a replay *)

Lemma insert_unique_in (t x : Z) (l : list Z) :
  In x (insert_unique t l) <-> x = t \/ In x l.
Proof.
  induction l as [|y r IH]; cbn [insert_unique].
  - simpl. intuition.
  - destruct (t <? y)%Z; [simpl; intuition|].
    destruct (t =? y)%Z eqn:E.
    + apply Z.eqb_eq in E. subst. simpl. intuition.
    + simpl. rewrite IH. intuition.
Qed.

Lemma insert_unique_sorted (t : Z) (l : list Z) :
  StronglySorted Z.lt l -> StronglySorted Z.lt (insert_unique t l).
Proof.
  induction 1 as [|y r Hs IH Hy]; cbn [insert_unique].
  - repeat constructor.
  - destruct (t <? y)%Z eqn:E1.
    + apply Z.ltb_lt in E1. constructor; [now constructor|].
      constructor; [exact E1|].
      rewrite Forall_forall in *. intros z Hz. specialize (Hy z Hz). lia.
    + destruct (t =? y)%Z eqn:E2; [now constructor|].
      apply Z.ltb_ge in E1. apply Z.eqb_neq in E2.
      constructor; [exact IH|].
      rewrite Forall_forall in *. intros z Hz.
      apply insert_unique_in in Hz. destruct Hz as [-> | Hz]; [lia|auto].
Qed.

Lemma fold_insert_unique (ts : list Z) :
  forall acc,
    StronglySorted Z.lt acc ->
    StronglySorted Z.lt (fold_left (fun acc t => insert_unique t acc) ts acc)
    /\ forall x,
         In x (fold_left (fun acc t => insert_unique t acc) ts acc)
         <-> In x ts \/ In x acc.
Proof.
  induction ts as [|t r IH]; intros acc Hs; cbn [fold_left].
  - split; [exact Hs | simpl; intuition].
  - destruct (IH (insert_unique t acc) (insert_unique_sorted t Hs))
      as [H1 H2].
    split; [exact H1|]. intro x. rewrite H2, insert_unique_in.
    simpl. intuition.
Qed.

(** X28: the timestamps the replay visits are strictly increasing, hence
    without repetition, and are exactly the index labels that occur in
    some frame of [all_data]. *)
Theorem all_timestamps_sorted_unique (all_data : list (string * DataFrame)) :
  StronglySorted Z.lt (all_timestamps all_data)
  /\ forall t,
       In t (all_timestamps all_data)
       <-> exists sym df b,
             In (sym, df) all_data /\ In b df /\ Market.timestamp b = t.
Proof.
  unfold all_timestamps.
  destruct (@fold_insert_unique
              (flat_map (fun kv => map Market.timestamp (snd kv)) all_data)
              [] (SSorted_nil _)) as [H1 H2].
  split; [exact H1|]. intro t. rewrite H2, in_flat_map. split.
  - intros [([sym df] & Hin & Hb) | []].
    apply in_map_iff in Hb. destruct Hb as (b & E & Hb).
    exists sym, df, b. auto.
  - intros (sym & df & b & Hin & Hb & E). left.
    exists (sym, df). split; [exact Hin|].
    apply in_map_iff. exists b. auto.
Qed.

Section EquityRecord.

Variable execute_strategy : list (string * DataFrame) -> list Signal.
Variable calculate_entry_exit :
  string -> DataFrame -> Signal -> Q * Q * option Q.
Variable now : Z.

Lemma keeps_equity_bind (A B : Type) (m : M A) (f : A -> M B) :
  keeps_equity m -> (forall a, keeps_equity (f a)) ->
  keeps_equity (bind m f).
Proof.
  unfold keeps_equity, bind. intros Hm Hf s. specialize (Hm s).
  destruct (m s) as [[e1 s1] [a|e]]; simpl in *; [|exact Hm].
  specialize (Hf a s1). destruct (f a s1) as [[e2 s2] r2]; simpl in *.
  congruence.
Qed.

Lemma keeps_equity_for_each (A : Type) (l : list A) (body : A -> M unit) :
  (forall x, keeps_equity (body x)) -> keeps_equity (for_each l body).
Proof.
  intro Hbody. induction l as [|x r IH]; cbn [for_each].
  - intro s. reflexivity.
  - apply keeps_equity_bind; auto.
Qed.

Lemma keeps_equity_manage_position current_data sym :
  keeps_equity (manage_position now current_data sym).
Proof.
  unfold manage_position.
  destruct (lookup_data sym current_data) as [df|]; [|intro s; reflexivity].
  destruct (last_row df) as [final|]; [|intro s; reflexivity].
  assert (Hclose : forall reason,
             keeps_equity (close_position now sym (close final) reason)).
  { intros reason s. unfold close_position, bind, emit, get, put, raise.
    simpl.
    destruct (Risk.close_position _ _ _ _ _) as [[rm trade]|e]; reflexivity. }
  apply keeps_equity_bind.
  - intro s. unfold update_position_pnl, bind, emit, get, put, raise. simpl.
    destruct (Risk.update_position_pnl _ _ _); reflexivity.
  - intros _. apply keeps_equity_bind; [intro s; reflexivity|].
    intros [|]; [apply Hclose|].
    apply keeps_equity_bind; [intro s; reflexivity|].
    intros [|]; [apply Hclose | intro s; reflexivity].
Qed.

Lemma keeps_equity_process_signal current_data signal :
  keeps_equity (process_signal calculate_entry_exit now current_data signal).
Proof.
  intro s. unfold process_signal.
  destruct (lookup_data (symbol signal) current_data) as [df|];
    [|reflexivity].
  destruct (calculate_entry_exit (symbol signal) df signal) as [[en st] tp].
  unfold bind, emit, get, put. simpl.
  destruct (Risk.add_position _ _ _ _ _ _ _ _) as [rm accepted]. reflexivity.
Qed.

Lemma keeps_equity_before_record current_data timestamp :
  keeps_equity
    (manage_open_positions now current_data ;;;
     open_new_positions execute_strategy calculate_entry_exit now
       current_data timestamp).
Proof.
  apply keeps_equity_bind.
  - unfold manage_open_positions. apply keeps_equity_bind;
      [intro s; reflexivity|].
    intro s0. apply keeps_equity_for_each.
    intro sym. apply keeps_equity_manage_position.
  - intros _. unfold open_new_positions.
    apply keeps_equity_bind; [intro s; reflexivity|].
    intros _. apply keeps_equity_for_each.
    intro signal. apply keeps_equity_process_signal.
Qed.

Lemma bind_assoc (A B C : Type) (m : M A) (f : A -> M B) (g : B -> M C) s :
  bind (bind m f) g s = bind m (fun a => bind (f a) g) s.
Proof.
  unfold bind. destruct (m s) as [[e1 s1] [a|e]]; [|reflexivity].
  destruct (f a s1) as [[e2 s2] [b|e]]; [|reflexivity].
  destruct (g b s2) as [[e3 s3] r3]. now rewrite app_assoc.
Qed.

(** The rows one iteration adds: one, stamped with the iteration's
    timestamp, when there is current data; none otherwise. *)
Lemma simulate_step_rows all_data timestamp s :
  match simulate_step execute_strategy calculate_entry_exit now all_data
          timestamp s with
  | (_, s', Ok _) =>
      exists rows,
        equity_history s' = (equity_history s ++ rows)%list
        /\ map row_timestamp rows
           = (if has_current_data all_data timestamp then [timestamp] else [])
        /\ Forall equity_balanced rows
  | (_, _, Raised _) => True
  end.
Proof.
  unfold simulate_step, has_current_data.
  destruct (current_slices all_data timestamp) as [|d0 rest] eqn:Ecd.
  - cbn. exists []. rewrite app_nil_r. repeat split; constructor.
  - rewrite <- Ecd. clear Ecd d0 rest.
    set (cd := current_slices all_data timestamp).
    pose proof (@keeps_equity_before_record cd timestamp s) as Hk.
    change (manage_open_positions now cd ;;;
            open_new_positions execute_strategy calculate_entry_exit now cd
              timestamp ;;; record_equity timestamp)
      with (bind (manage_open_positions now cd)
              (fun _ => bind (open_new_positions execute_strategy
                                calculate_entry_exit now cd timestamp)
                          (fun _ => record_equity timestamp))).
    rewrite <- (@bind_assoc _ _ _ (manage_open_positions now cd)
                  (fun _ => open_new_positions execute_strategy
                              calculate_entry_exit now cd timestamp)
                  (fun _ => record_equity timestamp) s).
    unfold bind at 1.
    destruct ((manage_open_positions now cd ;;;
               open_new_positions execute_strategy calculate_entry_exit now
                 cd timestamp) s) as [[e1 s1] [u|e]]; [|exact I].
    simpl in Hk. unfold record_equity, bind, emit, get, put. simpl.
    eexists. split; [rewrite Hk; reflexivity|].
    split; [reflexivity|].
    constructor; [|constructor].
    unfold equity_balanced. cbn. reflexivity.
Qed.

Lemma replay_rows all_data (l : list Z) :
  forall s,
    match for_each l
            (simulate_step execute_strategy calculate_entry_exit now all_data)
            s with
    | (_, s', Ok _) =>
        exists rows,
          equity_history s' = (equity_history s ++ rows)%list
          /\ map row_timestamp rows = filter (has_current_data all_data) l
          /\ Forall equity_balanced rows
    | (_, _, Raised _) => True
    end.
Proof.
  induction l as [|t r IH]; intro s; cbn [for_each].
  - cbn. exists []. rewrite app_nil_r. repeat split; constructor.
  - unfold bind. pose proof (simulate_step_rows all_data t s) as H1.
    destruct (simulate_step execute_strategy calculate_entry_exit now
                all_data t s) as [[e1 s1] [u|e]]; [|exact I].
    destruct H1 as (rows1 & E1 & T1 & B1).
    specialize (IH s1).
    destruct (for_each r _ s1) as [[e2 s2] [u2|e2']]; [|exact I].
    destruct IH as (rows2 & E2 & T2 & B2).
    exists (rows1 ++ rows2)%list. split; [|split].
    + rewrite E2, E1. now rewrite app_assoc.
    + rewrite map_app, T1, T2. cbn [filter].
      now destruct (has_current_data all_data t).
    + apply Forall_app. auto.
Qed.

(** X29: when [_simulate_trading] runs through without an exception, the
    equity history has one row for each timestamp at which some symbol
    has a bar and at least 20 rows so far, in increasing order of time,
    and no other row; every row records an equity that is its cash plus
    its unrealized profit. *)
Theorem equity_rows_follow_data rm all_data events results :
  _simulate_trading execute_strategy calculate_entry_exit now rm all_data
  = (events, Ok results) ->
  map row_timestamp (res_equity_history results)
  = filter (has_current_data all_data) (all_timestamps all_data)
  /\ StronglySorted Z.lt (map row_timestamp (res_equity_history results))
  /\ Forall equity_balanced (res_equity_history results).
Proof.
  unfold _simulate_trading.
  pose proof (replay_rows all_data (all_timestamps all_data) (mkSim rm [] []))
    as H.
  destruct (for_each (all_timestamps all_data) _ (mkSim rm [] []))
    as [[ev s] [u|e]]; [|discriminate].
  destruct H as (rows & E & T & B). cbn [equity_history app] in E.
  intro Hres.
  destruct (Risk.get_performance_metrics (risk_manager s)) as [pm|e];
    [|discriminate].
  assert (Hr : results
               = mkResults (equity_history s) (trade_log s)
                   (Risk.get_portfolio_summary (risk_manager s)) pm)
    by congruence.
  rewrite Hr. cbn [res_equity_history]. rewrite E.
  split; [exact T|]. split; [|exact B].
  rewrite T. apply StrategyFacts.filter_sorted.
  unfold all_timestamps.
  apply (@fold_insert_unique
           (flat_map (fun kv => map Market.timestamp (snd kv)) all_data)
           [] (SSorted_nil _)).
Qed.

End EquityRecord.

End BacktestFacts.

(* ------------------------------------------------------------------ *)
(** ** The Sharpe ratio of an equity curve *)

Module PerformanceFacts.

Import NpFloat Performance.
Local Open Scope Q_scope.

Lemma sqrt_252_finite : exists c, sqrt (Fin 252) = Fin c.
Proof. eexists. vm_compute. reflexivity. Qed.

(** With a standard deviation of zero the Sharpe expression divides by
    zero: its value is NaN or an infinity, never a number. *)
Lemma sharpe_of_zero_deviation (daily_return : list NpFloat.t) (z : Q) :
  series_std daily_return = Fin z -> z == 0 ->
  is_finite (sharpe_of daily_return) = false.
Proof.
  intros Hstd Hz. unfold sharpe_of. rewrite Hstd.
  destruct sqrt_252_finite as [c ->]. cbn [mul].
  assert (H0 : Qeq_bool (z * c) 0 = true).
  { apply Qeq_bool_iff. rewrite Hz. ring. }
  destruct (mul (series_mean daily_return) (Fin 252)) as [a| | |];
    cbn [div]; rewrite ?H0; try reflexivity.
  - destruct (Qeq_bool a 0); [reflexivity|].
    now destruct (PyNum.Qltb 0 a).
  - now destruct (Qle_bool 0 (z * c)).
  - now destruct (Qle_bool 0 (z * c)).
Qed.

(** C5, on an equity curve that never moves: the daily returns are 0, 0,
    their standard deviation is 0, and the Sharpe ratio returned is NaN,
    not 0. *)
Theorem flat_equity_sharpe_is_nan :
  exists m,
    _calculate_performance_metrics 100000 Fixtures.flat_equity
      (Risk.init 100000) = Ok (Some m)
    /\ (exists z,
          series_std (pct_change (map Backtest.equity Fixtures.flat_equity))
          = Fin z /\ z == 0)
    /\ sharpe_ratio m = NaN
    /\ sharpe_ratio m <> Fin 0.
Proof.
  eexists. split; [vm_compute; reflexivity|].
  split; [eexists; split; [vm_compute; reflexivity | reflexivity]|].
  split; [reflexivity | discriminate].
Qed.

(** *** Drawdown *)

Lemma dropna_finite (xs : list NpFloat.t) :
  Forall (fun x => is_finite x = true) xs -> dropna xs = xs.
Proof.
  unfold dropna. induction 1 as [|x r Hx Hr IH]; [reflexivity|].
  cbn [filter]. rewrite IH. now destruct x.
Qed.

Lemma fold_min_in (r : list NpFloat.t) :
  forall x, In (fold_left (fun m y => if ltb y m then y else m) r x) (x :: r).
Proof.
  induction r as [|y r IH]; intro x; cbn [fold_left]; [now left|].
  destruct (ltb y x).
  - right. apply IH.
  - destruct (IH x) as [H | H]; [left; exact H | right; right; exact H].
Qed.

Lemma series_min_in (xs : list NpFloat.t) :
  xs <> [] -> Forall (fun x => is_finite x = true) xs ->
  In (series_min xs) xs.
Proof.
  intros Hne Hfin. unfold series_min. rewrite (dropna_finite Hfin).
  destruct xs as [|x r]; [congruence|]. apply fold_min_in.
Qed.

Lemma drawdown_step (e p : Q) :
  0 < e -> e <= p ->
  exists q, div (Fin (e - p)) (Fin p) = Fin q /\ -1 < q /\ q <= 0.
Proof.
  intros He Hp. cbn [div].
  rewrite PyNumFacts.Qeq_bool_pos by lra.
  eexists. split; [reflexivity|]. split.
  - apply Qlt_shift_div_l; lra.
  - apply Qle_shift_div_r; lra.
Qed.

Lemma drawdown_bounds (xs : list Q) :
  forall peak,
    0 < peak -> Forall (fun e => 0 < e) xs ->
    Forall (fun d => exists q, d = Fin q /\ -1 < q /\ q <= 0)
      (map (fun '(e, p) => div (Fin (e - p)) (Fin p))
           (combine xs (expanding_max_from peak xs))).
Proof.
  induction xs as [|x r IH]; intros peak Hpeak Hpos; [constructor|].
  inversion Hpos as [|? ? Hx Hr]; subst.
  cbn [expanding_max_from combine map].
  destruct (PyNumFacts.py_max_case peak x) as [[Hle E] | [Hlt E]];
    rewrite E.
  - constructor; [now apply drawdown_step | now apply IH].
  - constructor; [apply drawdown_step; lra | now apply IH].
Qed.

(** X30: on a non-empty equity history whose equity is positive
    throughout, [_calculate_performance_metrics] returns its metrics,
    the maximum drawdown is a finite percentage above -100 and at most
    0, and when it is 0 the Calmar ratio is reported as 0 instead of a
    division by zero.  The one way it does not return is the exception
    of the trade metrics it embeds, which it passes on. *)
Theorem drawdown_within_bounds initial_capital history rm :
  history <> [] ->
  Forall (fun row => 0 < Backtest.equity row) history ->
  match Risk.get_performance_metrics rm with
  | Ok trades =>
      exists m d,
        _calculate_performance_metrics initial_capital history rm
        = Ok (Some m)
        /\ trade_metrics m = trades
        /\ max_drawdown_pct m = Fin d
        /\ -100 < d /\ d <= 0
        /\ (d == 0 -> calmar_ratio m = Fin 0)
  | Raised e =>
      _calculate_performance_metrics initial_capital history rm = Raised e
  end.
Proof.
  intros Hne Hpos. unfold _calculate_performance_metrics.
  destruct history as [|row0 rest]; [congruence|]. clear Hne.
  inversion Hpos as [|? ? H0 Hrest]; subst.
  destruct (rev (map Backtest.equity (row0 :: rest))) as [|final r] eqn:Er.
  { apply (f_equal (@List.length _)) in Er.
    rewrite length_rev in Er. simpl in Er. lia. }
  destruct (Risk.get_performance_metrics rm) as [trades|e]; [|reflexivity].
  cbn [map expanding_max combine].
  set (dd := series_min _).
  assert (Hdd : exists q, dd = Fin q /\ -1 < q /\ q <= 0).
  { assert (Hall : Forall (fun d => exists q, d = Fin q /\ -1 < q /\ q <= 0)
               (div (Fin (Backtest.equity row0 - Backtest.equity row0))
                    (Fin (Backtest.equity row0))
                :: map (fun '(e, p) => div (Fin (e - p)) (Fin p))
                     (combine (map Backtest.equity rest)
                        (expanding_max_from (Backtest.equity row0)
                           (map Backtest.equity rest))))).
    { constructor; [apply drawdown_step; lra|].
      apply drawdown_bounds; [exact H0|].
      rewrite Forall_map. exact Hrest. }
    rewrite Forall_forall in Hall. apply Hall.
    apply series_min_in; [discriminate|].
    rewrite Forall_forall. intros x Hx.
    destruct (Hall x Hx) as (q & -> & _). reflexivity. }
  destruct Hdd as (q & Eq & Hlo & Hhi). rewrite Eq.
  eexists. exists (q * 100).
  split; [reflexivity|].
  cbn [max_drawdown_pct calmar_ratio trade_metrics mul nonzero].
  split; [reflexivity|].
  split; [reflexivity|]. split; [lra|]. split; [lra|].
  intro Hz. assert (Hq : q == 0) by lra.
  apply Qeq_bool_iff in Hq. rewrite Hq. reflexivity.
Qed.

End PerformanceFacts.

(* ------------------------------------------------------------------ *)
(** ** Institutional levels *)

Module GoldbachFacts.

Import Goldbach.
Local Open Scope Q_scope.

(** Each level of the computed dictionary sits at its percentage of the
    range and carries the keys and the weight of its category. *)
Lemma computed_entry hi lo t k lv :
  In (t, k, lv) (entries (calculate_goldbach_levels hi lo)) ->
  k = percentage lv /\ type lv = t /\ weight lv = level_weights t
  /\ (0 <= percentage lv <= 100)%Z
  /\ price lv == lo + (hi - lo) * (percentage lv # 100).
Proof.
  unfold entries, calculate_goldbach_levels, goldbach_levels.
  cbn [map flat_map app]. intro H.
  repeat (destruct H as [H | H];
          [inversion H; subst; clear H; cbn [percentage type weight price];
           repeat split; try reflexivity; try lia; field|]).
  destruct H.
Qed.

(** X13: within a range whose low does not exceed its high, the level
    prices rise with the percentage, from the range low to the range
    high; every level carries its percentage as key and the weight of its
    category. *)
Theorem goldbach_levels_monotone hi lo :
  lo <= hi ->
  forall t1 k1 l1 t2 k2 l2,
    In (t1, k1, l1) (entries (calculate_goldbach_levels hi lo)) ->
    In (t2, k2, l2) (entries (calculate_goldbach_levels hi lo)) ->
    lo <= price l1 <= hi
    /\ k1 = percentage l1 /\ type l1 = t1 /\ weight l1 = level_weights t1
    /\ ((percentage l1 <= percentage l2)%Z -> price l1 <= price l2).
Proof.
  intros Hr t1 k1 l1 t2 k2 l2 H1 H2.
  destruct (@computed_entry hi lo _ _ _ H1) as (Hk1 & Ht1 & Hw1 & Hp1 & E1).
  destruct (@computed_entry hi lo _ _ _ H2) as (_ & _ & _ & Hp2 & E2).
  assert (Hq : forall p : Z, (0 <= p <= 100)%Z -> 0 <= (p # 100) <= 1).
  { intros p Hp. unfold Qle. simpl. lia. }
  pose proof (Hq _ Hp1) as Hq1.
  repeat split; auto.
  - rewrite E1. nra.
  - rewrite E1. nra.
  - intro Hle. rewrite E1, E2.
    assert ((percentage l1 # 100) <= (percentage l2 # 100))
      by (unfold Qle; simpl; lia).
    nra.
Qed.

(** X14: the nine institutional levels are always returned, under their
    names and in the order of the source; for a range whose low does not
    exceed its high they lie in the range and are nested: order block,
    fair value gap, liquidity void, breaker and, innermost, the
    equilibrium at the middle of the range. *)
Theorem institutional_levels_nested (r : PO3.DealingRange) :
  exists ob_lo ob_hi fvg_lo fvg_hi lv_lo lv_hi br_lo br_hi eq,
    calculate_institutional_levels r
    = Some [("order_block_low", ob_lo); ("order_block_high", ob_hi);
            ("fvg_low", fvg_lo); ("fvg_high", fvg_hi);
            ("liq_void_low", lv_lo); ("liq_void_high", lv_hi);
            ("breaker_low", br_lo); ("breaker_high", br_hi);
            ("equilibrium", eq)]%string
    /\ eq == (PO3.range_low r + PO3.range_high r) / 2
    /\ (PO3.range_low r <= PO3.range_high r ->
        PO3.range_low r <= ob_lo /\ ob_lo <= fvg_lo /\ fvg_lo <= lv_lo
        /\ lv_lo <= br_lo /\ br_lo <= eq /\ eq <= br_hi /\ br_hi <= lv_hi
        /\ lv_hi <= fvg_hi /\ fvg_hi <= ob_hi /\ ob_hi <= PO3.range_high r).
Proof.
  do 9 eexists. split; [reflexivity|].
  set (lo := PO3.range_low r). set (hi := PO3.range_high r).
  assert (E : forall p : Z,
             lo + (hi - lo) * inject_Z p / 100 == lo + (hi - lo) * (p # 100)).
  { intro p. unfold Qdiv. rewrite <- Qmult_assoc.
    apply Qplus_comp; [reflexivity|]. apply Qmult_comp; [reflexivity|].
    unfold Qeq, inject_Z. simpl. lia. }
  cbn [price]. split.
  - rewrite E. field.
  - intro Hr. rewrite !E. repeat split; nra.
Qed.

(** *** The nearest level *)

Lemma nearest_flat p md levels : forall acc,
  fold_left
    (fun acc '(level_type, ls) =>
       fold_left (nearest_step p md level_type) ls acc)
    levels acc
  = fold_left (nearest_entry_step p md) (entries levels) acc.
Proof.
  induction levels as [|[t ls] r IH]; intro acc; [reflexivity|].
  unfold entries. cbn [flat_map fold_left]. rewrite fold_left_app.
  fold (entries r). rewrite <- IH. f_equal.
  clear IH. revert acc. induction ls as [|[k lv] ls IH]; intro acc;
    [reflexivity|].
  cbn [map fold_left]. now rewrite <- IH.
Qed.

Lemma nearest_invariant p md (l : list (LevelType * Z * Level)) :
  forall acc seen,
    match snd acc with
    | None =>
        fst acc = None
        /\ forall t k lv, In (t, k, lv) seen ->
                          ~ within md (Qabs (p - price lv))
    | Some nl =>
        fst acc = Some (distance nl)
        /\ In (level_type nl, percentage_key nl, level nl) seen
        /\ distance nl = Qabs (p - price (level nl))
        /\ within md (distance nl)
        /\ forall t k lv, In (t, k, lv) seen ->
             within md (Qabs (p - price lv)) ->
             distance nl <= Qabs (p - price lv)
    end ->
    match snd (fold_left (nearest_entry_step p md) l acc) with
    | None =>
        forall t k lv, In (t, k, lv) (seen ++ l) ->
                       ~ within md (Qabs (p - price lv))
    | Some nl =>
        In (level_type nl, percentage_key nl, level nl) (seen ++ l)
        /\ distance nl = Qabs (p - price (level nl))
        /\ within md (distance nl)
        /\ forall t k lv, In (t, k, lv) (seen ++ l) ->
             within md (Qabs (p - price lv)) ->
             distance nl <= Qabs (p - price lv)
    end.
Proof.
  induction l as [|[[t k] lv] r IH]; intros [m n] seen Hinv.
  - cbn [fold_left]. rewrite app_nil_r. cbn [snd fst] in *.
    destruct n as [nl|]; tauto.
  - cbn [fold_left].
    replace (seen ++ (t, k, lv) :: r)%list
      with ((seen ++ [(t, k, lv)]) ++ r)%list
      by (rewrite <- app_assoc; reflexivity).
    apply IH. clear IH.
    unfold nearest_entry_step, nearest_step. cbn [snd fst] in Hinv.
    set (d := Qabs (p - price lv)).
    assert (Hwithin :
              (match md with Some m0 => Qle_bool d m0 | None => true end) = true
              <-> within md d).
    { unfold within. destruct md; [apply Qle_bool_iff | tauto]. }
    destruct (match md with Some m0 => Qle_bool d m0 | None => true end)
      eqn:Ew.
    + assert (Hw : within md d) by (apply Hwithin; reflexivity).
      destruct n as [nl|].
      * destruct Hinv as (-> & Hin & Hd & Hwn & Hmin).
        destruct (PyNum.Qltb d (distance nl)) eqn:Ec; cbn [andb snd fst].
        -- apply PyNumFacts.Qltb_lt in Ec.
           cbn [level_type percentage_key level distance].
           repeat split; auto.
           ++ apply in_or_app. right. left. reflexivity.
           ++ intros t' k' lv' Hin' Hw'. apply in_app_or in Hin'.
              destruct Hin' as [Hin' | [E | []]].
              ** specialize (Hmin _ _ _ Hin' Hw'). fold d. lra.
              ** inversion E; subst. apply Qle_refl.
        -- apply PyNumFacts.Qltb_ge in Ec.
           repeat split; auto.
           ++ apply in_or_app. now left.
           ++ intros t' k' lv' Hin' Hw'. apply in_app_or in Hin'.
              destruct Hin' as [Hin' | [E | []]]; [exact (Hmin _ _ _ Hin' Hw')|].
              inversion E; subst. exact Ec.
      * destruct Hinv as (-> & Hnone). cbn [andb snd fst].
        cbn [level_type percentage_key level distance].
        repeat split; auto.
        -- apply in_or_app. right. left. reflexivity.
        -- intros t' k' lv' Hin' Hw'. apply in_app_or in Hin'.
           destruct Hin' as [Hin' | [E | []]].
           ++ exfalso. exact (Hnone _ _ _ Hin' Hw').
           ++ inversion E; subst. apply Qle_refl.
    + assert (Hnw : ~ within md d).
      { intro H. apply Hwithin in H. discriminate. }
      cbn [andb snd fst]. destruct n as [nl|].
      * destruct Hinv as (Hm & Hin & Hd & Hwn & Hmin).
        repeat split; auto.
        -- apply in_or_app. now left.
        -- intros t' k' lv' Hin' Hw'. apply in_app_or in Hin'.
           destruct Hin' as [Hin' | [E | []]]; [exact (Hmin _ _ _ Hin' Hw')|].
           inversion E; subst. contradiction.
      * destruct Hinv as (Hm & Hnone). split; [exact Hm|].
        intros t' k' lv' Hin'. apply in_app_or in Hin'.
        destruct Hin' as [Hin' | [E | []]]; [exact (Hnone _ _ _ Hin')|].
        inversion E; subst. exact Hnw.
Qed.

(** X15: the level [get_nearest_goldbach_level] returns is a level of
    the dictionary, carries its distance to the price, lies within the
    maximum distance when one is given, and no level of the dictionary
    within that maximum is closer; it returns nothing exactly when no
    level lies within the maximum distance. *)
Theorem nearest_level_is_nearest p levels md :
  match get_nearest_goldbach_level p levels md with
  | Some nl =>
      In (level_type nl, percentage_key nl, level nl) (entries levels)
      /\ distance nl = Qabs (p - price (level nl))
      /\ within md (distance nl)
      /\ forall t k lv, In (t, k, lv) (entries levels) ->
           within md (Qabs (p - price lv)) ->
           distance nl <= Qabs (p - price lv)
  | None =>
      forall t k lv, In (t, k, lv) (entries levels) ->
                     ~ within md (Qabs (p - price lv))
  end.
Proof.
  unfold get_nearest_goldbach_level. rewrite nearest_flat.
  apply (@nearest_invariant p md (entries levels) (None, None) []).
  cbn [snd fst]. split; [reflexivity|]. intros t k lv [].
Qed.

(** *** The mean threshold *)

Lemma sum_between (a b : Q) (l : list Q) : forall acc,
  Forall (fun x => a <= x <= b) l ->
  acc + inject_Z (Z.of_nat (List.length l)) * a <= fold_left Qplus l acc
  /\ fold_left Qplus l acc <= acc + inject_Z (Z.of_nat (List.length l)) * b.
Proof.
  induction l as [|x r IH]; intros acc H.
  - cbn [List.length fold_left Z.of_nat]. change (inject_Z 0) with 0.
    split; lra.
  - inversion H as [|? ? Hx Hr]; subst. cbn [fold_left].
    destruct (IH (acc + x) Hr) as [H1 H2].
    assert (E : inject_Z (Z.of_nat (List.length (x :: r)))
                == inject_Z (Z.of_nat (List.length r)) + 1).
    { cbn [List.length]. rewrite Nat2Z.inj_succ. unfold Z.succ.
      rewrite inject_Z_plus. reflexivity. }
    rewrite E. split; nra.
Qed.

Lemma mean_between (a b : Q) (l : list Q) :
  l <> [] -> Forall (fun x => a <= x <= b) l ->
  exists m, PO3.mean l = Some m /\ a <= m <= b.
Proof.
  intros Hne Hl. unfold PO3.mean, PO3.Qsum.
  destruct l as [|x r]; [congruence|].
  eexists. split; [reflexivity|].
  destruct (sum_between 0 Hl) as [H1 H2].
  set (n := inject_Z (Z.of_nat (List.length (x :: r)))) in *.
  assert (Hn : 0 < n).
  { unfold n. change 0 with (inject_Z 0). rewrite <- Zlt_Qlt.
    simpl List.length. lia. }
  split.
  - apply Qle_shift_div_l; [exact Hn | lra].
  - apply Qle_shift_div_r; [exact Hn | lra].
Qed.

(** X16: the mean threshold is NaN on an empty frame or with a window of
    0 and a number otherwise; it reads the last [window] bars only, and a
    window longer than the frame is the whole frame. *)
Theorem mean_threshold_window data window :
  (data = [] \/ window = 0%nat ->
   calculate_mean_threshold data window = None)
  /\ (data <> [] -> (0 < window)%nat ->
      exists m, calculate_mean_threshold data window = Some m)
  /\ (forall earlier,
        (window <= List.length data)%nat ->
        calculate_mean_threshold (earlier ++ data) window
        = calculate_mean_threshold data window)
  /\ ((List.length data <= window)%nat ->
      calculate_mean_threshold data window
      = calculate_mean_threshold data (List.length data)).
Proof.
  split; [|split; [|split]].
  - intros H. unfold calculate_mean_threshold.
    assert (E : Market.tail
                  (if (List.length data <? window)%nat
                   then List.length data else window) data = []).
    { destruct H as [-> | ->]; [reflexivity|].
      unfold Market.tail. cbn [Nat.ltb Nat.leb].
      replace (List.length data <? 0)%nat with false
        by (symmetry; apply Nat.ltb_ge; lia).
      rewrite Nat.sub_0_r. apply skipn_all. }
    rewrite E. reflexivity.
  - intros Hne Hw. unfold calculate_mean_threshold.
    set (w := if (List.length data <? window)%nat
              then List.length data else window).
    set (recent := Market.tail w data).
    assert (Hlen : List.length recent = w).
    { apply ListFacts.length_tail. unfold w.
      destruct (List.length data <? window)%nat eqn:E; [lia|].
      apply Nat.ltb_ge in E. exact E. }
    assert (Hwpos : (0 < w)%nat).
    { unfold w. destruct (List.length data <? window)%nat; [|exact Hw].
      destruct data; [congruence | simpl; lia]. }
    assert (Hmean : forall f : Market.Bar -> Q,
               exists m, PO3.mean (map f recent) = Some m).
    { intro f. destruct recent as [|b0 rest]; [simpl in Hlen; lia|].
      simpl. eauto. }
    destruct (Hmean Market.close) as [m1 ->].
    destruct (Hmean (fun b => (Market.high b + Market.low b) / 2))
      as [m2 ->].
    destruct (Hmean (fun b => (Market.open b + Market.high b + Market.low b
                               + Market.close b) / 4)) as [m3 ->].
    eauto.
  - intros earlier Hle. unfold calculate_mean_threshold.
    rewrite length_app.
    replace (List.length earlier + List.length data <? window)%nat
      with false by (symmetry; apply Nat.ltb_ge; lia).
    replace (List.length data <? window)%nat
      with false by (symmetry; apply Nat.ltb_ge; lia).
    assert (E : Market.tail window (earlier ++ data)
                = Market.tail window data).
    { unfold Market.tail. rewrite length_app.
      replace (List.length earlier + List.length data - window)%nat
        with (List.length earlier + (List.length data - window))%nat by lia.
      rewrite skipn_app, skipn_all2 by lia.
      replace (List.length earlier + (List.length data - window)
               - List.length earlier)%nat
        with (List.length data - window)%nat by lia.
      reflexivity. }
    rewrite E. reflexivity.
  - intro Hle. unfold calculate_mean_threshold.
    rewrite Nat.ltb_irrefl.
    destruct (List.length data <? window)%nat eqn:E; [reflexivity|].
    apply Nat.ltb_ge in E.
    replace window with (List.length data) by lia. reflexivity.
Qed.

End GoldbachFacts.

(* ------------------------------------------------------------------ *)
(** ** Hidden-gap patterns and the trade plan *)

Module HippoFacts.

Import Market Hippo.
Local Open Scope string_scope.
Local Open Scope Q_scope.

(** The three outcomes of [_calculate_gap]. *)
Lemma gap_cases (candle1 candle2 : Bar) :
  (high candle1 < low candle2
   /\ _calculate_gap candle1 candle2
      = mkGap ((low candle2 - high candle1) * 10000) (Some "up"))
  \/ (high candle2 < low candle1
      /\ _calculate_gap candle1 candle2
         = mkGap ((low candle1 - high candle2) * 10000) (Some "down"))
  \/ (_calculate_gap candle1 candle2 = mkGap (0 * 10000) None).
Proof.
  unfold _calculate_gap.
  destruct (PyNum.Qltb (high candle1) (low candle2)) eqn:E1.
  - left. apply PyNumFacts.Qltb_lt in E1. auto.
  - destruct (PyNum.Qltb (high candle2) (low candle1)) eqn:E2.
    + right; left. apply PyNumFacts.Qltb_lt in E2. auto.
    + right; right. reflexivity.
Qed.

Lemma ratio_at_least_one (a b : Q) :
  0 < a -> 0 < b -> 1 <= PyNum.py_max a b / PyNum.py_min a b.
Proof.
  intros Ha Hb.
  destruct (PyNumFacts.py_max_case a b) as [[H1 ->] | [H1 ->]];
    destruct (PyNumFacts.py_min_case a b) as [[H2 ->] | [H2 ->]];
    (apply Qle_shift_div_l; [assumption | lra]).
Qed.

(** What the three candles of a recognised pattern look like. *)
Lemma hippo_pattern_cases (candle1 candle2 candle3 : Bar) :
  let p := _analyze_hippo_pattern candle1 candle2 candle3 in
  is_hippo p = true ->
  5 <= gap1_size p /\ 5 <= gap2_size p
  /\ 1 <= gap_ratio p /\ gap_ratio p <= 2
  /\ ((direction p = Some "bullish"
       /\ pattern_type p = Some "bullish_continuation"
       /\ hidden_level p
          = Some (_calculate_hidden_level candle1 candle2 candle3 "bullish")
       /\ high candle1 < low candle2 /\ high candle2 < low candle3)
      \/ (direction p = Some "bearish"
          /\ pattern_type p = Some "bearish_continuation"
          /\ hidden_level p
             = Some (_calculate_hidden_level candle1 candle2 candle3 "bearish")
          /\ high candle2 < low candle1 /\ high candle3 < low candle2)
      \/ (direction p = Some "reversal"
          /\ pattern_type p = Some "reversal"
          /\ hidden_level p
             = Some (_calculate_hidden_level candle1 candle2 candle3 "reversal")
          /\ ((high candle1 < low candle2 /\ high candle3 < low candle2)
              \/ (high candle2 < low candle1 /\ high candle2 < low candle3)))).
Proof.
  cbv zeta. unfold _analyze_hippo_pattern.
  destruct (PyNum.Qltb 0 (size (_calculate_gap candle1 candle2))
            && PyNum.Qltb 0 (size (_calculate_gap candle2 candle3))) eqn:Epos;
    [|cbn [is_hippo]; discriminate].
  apply andb_true_iff in Epos. destruct Epos as [P1 P2].
  apply PyNumFacts.Qltb_lt in P1, P2.
  destruct (Qle_bool min_gap_size (size (_calculate_gap candle1 candle2))
            && Qle_bool min_gap_size (size (_calculate_gap candle2 candle3))
            && Qle_bool _ max_gap_ratio) eqn:Ereq;
    [|cbn [is_hippo]; discriminate].
  apply andb_true_iff in Ereq. destruct Ereq as [Ereq R3].
  apply andb_true_iff in Ereq. destruct Ereq as [R1 R2].
  apply Qle_bool_iff in R1, R2, R3. unfold min_gap_size in R1, R2.
  unfold max_gap_ratio in R3.
  pose proof (ratio_at_least_one P1 P2) as R4.
  destruct (gap_cases candle1 candle2) as [[G1 E1] | [[G1 E1] | E1]];
    rewrite E1 in *; clear E1;
    destruct (gap_cases candle2 candle3) as [[G2 E2] | [[G2 E2] | E2]];
    rewrite E2 in *; clear E2;
    cbn [size gap_type] in *; try lra;
    cbn [opt_str_eqb opt_str_eq String.eqb Ascii.eqb Bool.eqb andb negb
         is_hippo direction pattern_type hidden_level gap1_size gap2_size
         gap_ratio];
    intros _; repeat (split; [assumption|]).
  - left. auto.
  - right; right. auto 7.
  - right; right. auto 7.
  - right; left. auto.
Qed.

Lemma scan_patterns_spec (data : DataFrame) :
  forall (i : Z) (p : Pattern),
    In p (scan_patterns i data) ->
    exists (k : nat) (candle1 candle2 candle3 : Bar),
      nth_error data k = Some candle1
      /\ nth_error data (S k) = Some candle2
      /\ nth_error data (S (S k)) = Some candle3
      /\ candle_index p = Some (i + Z.of_nat k)%Z
      /\ timestamp p = Some (Market.timestamp candle2)
      /\ is_hippo (_analyze_hippo_pattern candle1 candle2 candle3) = true
      /\ is_hippo p = true
      /\ pattern_type p
         = pattern_type (_analyze_hippo_pattern candle1 candle2 candle3)
      /\ direction p
         = direction (_analyze_hippo_pattern candle1 candle2 candle3)
      /\ hidden_level p
         = hidden_level (_analyze_hippo_pattern candle1 candle2 candle3)
      /\ gap1_size p
         = gap1_size (_analyze_hippo_pattern candle1 candle2 candle3)
      /\ gap2_size p
         = gap2_size (_analyze_hippo_pattern candle1 candle2 candle3)
      /\ gap_ratio p
         = gap_ratio (_analyze_hippo_pattern candle1 candle2 candle3).
Proof.
  induction data as [|c1 rest IH]; intros i p Hp; [destruct Hp|].
  destruct rest as [|c2 [|c3 rest']]; try (destruct Hp; fail).
  cbn [scan_patterns] in Hp. apply in_app_or in Hp.
  destruct Hp as [Hp | Hp].
  - destruct (is_hippo (_analyze_hippo_pattern c1 c2 c3)) eqn:E;
      [|destruct Hp].
    destruct Hp as [<- | []].
    exists 0%nat, c1, c2, c3.
    rewrite Z.add_0_r. cbn. rewrite E. repeat split; reflexivity.
  - destruct (IH (i + 1)%Z p Hp)
      as (k & a & b & c & H1 & H2 & H3 & H4 & H5).
    exists (S k), a, b, c.
    repeat split; try assumption; try tauto.
    rewrite H4. f_equal. lia.
Qed.

Lemma scan_patterns_length (data : DataFrame) :
  forall i, (List.length (scan_patterns i data) <= List.length data - 2)%nat.
Proof.
  induction data as [|c1 rest IH]; intro i; [simpl; lia|].
  destruct rest as [|c2 [|c3 rest']]; try (simpl; lia).
  cbn [scan_patterns]. rewrite length_app.
  specialize (IH (i + 1)%Z).
  destruct (is_hippo _); simpl List.length in *; lia.
Qed.

(** X26: every pattern [identify_hippo_patterns] reports sits on three
    consecutive rows of the frame, carries the index and the timestamp
    of the middle one, has both gaps of at least 5 pips and a gap ratio
    between 1 and 2, and is of one of three kinds: bullish (two gaps up),
    bearish (two gaps down) or reversal (the middle row above both
    neighbours, or below both); each kind has its pattern type and a
    hidden level.  A frame of [n] rows yields at most [n - 2] patterns. *)
Theorem hippo_patterns_well_formed data :
  (List.length (identify_hippo_patterns data) <= List.length data - 2)%nat
  /\ forall p,
       In p (identify_hippo_patterns data) ->
       exists (i : nat) (candle1 candle2 candle3 : Bar),
         nth_error data (i - 1) = Some candle1
         /\ nth_error data i = Some candle2
         /\ nth_error data (i + 1) = Some candle3
         /\ (1 <= i)%nat
         /\ candle_index p = Some (Z.of_nat i)
         /\ timestamp p = Some (Market.timestamp candle2)
         /\ is_hippo p = true
         /\ 5 <= gap1_size p /\ 5 <= gap2_size p
         /\ 1 <= gap_ratio p /\ gap_ratio p <= 2
         /\ hidden_level p <> None
         /\ ((direction p = Some "bullish"
              /\ pattern_type p = Some "bullish_continuation"
              /\ high candle1 < low candle2 /\ high candle2 < low candle3)
             \/ (direction p = Some "bearish"
                 /\ pattern_type p = Some "bearish_continuation"
                 /\ high candle2 < low candle1 /\ high candle3 < low candle2)
             \/ (direction p = Some "reversal"
                 /\ pattern_type p = Some "reversal"
                 /\ ((high candle1 < low candle2 /\ high candle3 < low candle2)
                     \/ (high candle2 < low candle1
                         /\ high candle2 < low candle3)))).
Proof.
  unfold identify_hippo_patterns. split.
  - destruct (List.length data <? 3)%nat; [simpl; lia|].
    apply scan_patterns_length.
  - intros p Hp.
    destruct (List.length data <? 3)%nat; [destruct Hp|].
    destruct (@scan_patterns_spec data 1%Z p Hp)
      as (k & c1 & c2 & c3 & N1 & N2 & N3 & Hi & Ht & Hh & Hp' & E1 & E2
          & E3 & E4 & E5 & E6).
    pose proof (@hippo_pattern_cases c1 c2 c3) as Hc. cbv zeta in Hc.
    specialize (Hc Hh).
    rewrite <- E1, <- E2, <- E3, <- E4, <- E5, <- E6 in Hc.
    destruct Hc as (B1 & B2 & B3 & B4 & Hkind).
    exists (S k), c1, c2, c3.
    replace (S k - 1)%nat with k by lia.
    replace (S k + 1)%nat with (S (S k)) by lia.
    repeat (split; [first [assumption | lia]|]).
    split; [rewrite Hi; f_equal; lia|].
    repeat (split; [assumption|]).
    split.
    + destruct Hkind as [(_ & _ & H & _) | [(_ & _ & H & _) | (_ & _ & H & _)]];
        rewrite H; discriminate.
    + destruct Hkind as [(D & T & _ & G) | [(D & T & _ & G) | (D & T & _ & G)]];
        [left | right; left | right; right]; auto.
Qed.

Lemma hippo_patterns_shape (data : DataFrame) (p : Pattern) :
  In p (identify_hippo_patterns data) ->
  is_hippo p = true
  /\ hidden_level p <> None
  /\ (direction p = Some "bullish" \/ direction p = Some "bearish"
      \/ direction p = Some "reversal").
Proof.
  unfold identify_hippo_patterns. intro Hp.
  destruct (List.length data <? 3)%nat; [destruct Hp|].
  destruct (@scan_patterns_spec data 1%Z p Hp)
    as (k & c1 & c2 & c3 & _ & _ & _ & _ & _ & Hh & Hp' & _ & E2 & E3 & _).
  pose proof (@hippo_pattern_cases c1 c2 c3) as Hc. cbv zeta in Hc.
  specialize (Hc Hh). rewrite <- E2, <- E3 in Hc.
  destruct Hc as (_ & _ & _ & _ & Hkind).
  split; [exact Hp'|].
  destruct Hkind as [(D & _ & H & _) | [(D & _ & H & _) | (D & _ & H & _)]];
    (split; [rewrite H; discriminate | tauto]).
Qed.

Lemma setups_of_identified (partition_number : Z) (patterns : list Pattern) :
  (forall p, In p patterns ->
             is_hippo p = true
             /\ hidden_level p <> None
             /\ (direction p = Some "bullish" \/ direction p = Some "bearish"
                 \/ direction p = Some "reversal")) ->
  exists setups,
    setups_of partition_number patterns = Some setups
    /\ Forall2
         (fun p s =>
            entry_level s = hidden_level p
            /\ setup_direction s = direction p
            /\ risk_reward s = 2
            /\ exists h,
                 hidden_level p = Some h
                 /\ (direction p = Some "bullish" ->
                     stop_loss s
                     = Some (h - inject_Z partition_number / 10000)
                     /\ take_profit s
                        = Some (h + 2 * inject_Z partition_number / 10000))
                 /\ (direction p = Some "bearish" ->
                     stop_loss s
                     = Some (h + inject_Z partition_number / 10000)
                     /\ take_profit s
                        = Some (h - 2 * inject_Z partition_number / 10000))
                 /\ (direction p = Some "reversal" ->
                     stop_loss s = None /\ take_profit s = None))
         patterns setups.
Proof.
  induction patterns as [|p rest IH]; intro H.
  - exists []. split; [reflexivity | constructor].
  - destruct IH as (setups & E & F); [intros q Hq; apply H; now right|].
    destruct (H p (or_introl eq_refl)) as (Hh & Hl & Hd).
    destruct (hidden_level p) as [h|] eqn:El; [|congruence].
    cbn [setups_of]. rewrite Hh. unfold setup_of. rewrite El, E.
    destruct Hd as [Hd | [Hd | Hd]]; rewrite Hd;
      cbn [opt_str_eqb String.eqb Ascii.eqb Bool.eqb option_map];
      eexists; (split; [reflexivity|]); constructor; try exact F;
      cbn [entry_level setup_direction risk_reward stop_loss take_profit];
      (repeat split; try reflexivity; try congruence);
      exists h; repeat split; intros; congruence.
Qed.

(** X27: on the patterns [identify_hippo_patterns] found in a frame,
    [generate_lookback_trade_plan] raises nothing and makes one setup per
    pattern, in order, entered at the pattern's hidden level with its
    direction.  A bullish setup has its stop one partition number (in
    pips) below the entry and its target two above, a bearish one the
    reverse, so the reward is twice the risk; a reversal setup has
    neither stop nor target.  A missing partition number counts as 27. *)
Theorem lookback_plan_of_identified data info :
  let pn := inject_Z (match info with Some n => n | None => 27%Z end) in
  exists plan,
    generate_lookback_trade_plan data (identify_hippo_patterns data) info
    = Some plan
    /\ hippo_patterns plan = identify_hippo_patterns data
    /\ Forall2
         (fun p s =>
            entry_level s = hidden_level p
            /\ setup_direction s = direction p
            /\ exists h,
                 entry_level s = Some h
                 /\ (direction p = Some "bullish" ->
                     exists sl tp,
                       stop_loss s = Some sl /\ take_profit s = Some tp
                       /\ h - sl == pn / 10000
                       /\ tp - h == 2 * (h - sl))
                 /\ (direction p = Some "bearish" ->
                     exists sl tp,
                       stop_loss s = Some sl /\ take_profit s = Some tp
                       /\ sl - h == pn / 10000
                       /\ h - tp == 2 * (sl - h))
                 /\ (direction p = Some "reversal" ->
                     stop_loss s = None /\ take_profit s = None))
         (identify_hippo_patterns data) (trade_setups plan).
Proof.
  cbv zeta. unfold generate_lookback_trade_plan.
  set (n := match info with Some n => n | None => 27%Z end).
  destruct (@setups_of_identified n (identify_hippo_patterns data))
    as (setups & E & F).
  { intros p Hp.
    destruct (@hippo_patterns_shape data p Hp) as (Hh & Hl & Hd). auto. }
  rewrite E. cbn [option_map]. eexists. split; [reflexivity|].
  cbn [hippo_patterns trade_setups]. split; [reflexivity|].
  eapply Forall2_impl; [|exact F].
  intros p s (He & Hd & _ & h & Hl & Hb & Hs & Hr).
  split; [exact He|]. split; [exact Hd|].
  exists h. split; [congruence|]. split; [|split].
  - intro D. destruct (Hb D) as [-> ->]. do 2 eexists.
    split; [reflexivity|]. split; [reflexivity|]. split; field.
  - intro D. destruct (Hs D) as [-> ->]. do 2 eexists.
    split; [reflexivity|]. split; [reflexivity|]. split; field.
  - exact Hr.
Qed.

End HippoFacts.

(* ------------------------------------------------------------------ *)
(** ** The statements above at concrete inputs *)

Module Examples.

Import Fixtures.
Local Open Scope string_scope.
Local Open Scope Q_scope.

(** The confluence theorem on the snapshot of 100 hourly index bars: its
    candidate is the discount-zone signal, scored against that snapshot. *)
Lemma confluence_score_clipped_witness :
  Strategy.analyze_market index_config "None" 0 (hourly_window 100)
  = Ok (Some index_snapshot)
  /\ In index_candidate (Strategy.candidates index_snapshot)
  /\ exists raw,
       Strategy.sig_strength index_candidate = Some raw
       /\ Strategy._calculate_confluence index_candidate index_snapshot
          == Strategy.spec_confluence raw index_snapshot
       /\ 0 <= Strategy._calculate_confluence index_candidate index_snapshot
          <= 1.
Proof.
  assert (Ha : Strategy.analyze_market index_config "None" 0 (hourly_window 100)
               = Ok (Some index_snapshot)) by (vm_compute; reflexivity).
  assert (Hin : In index_candidate (Strategy.candidates index_snapshot))
    by (vm_compute; left; reflexivity).
  split; [exact Ha|]. split; [exact Hin|].
  exact (@StrategyFacts.confluence_score_clipped index_config "None" 0
           (hourly_window 100) index_snapshot index_candidate index_snapshot
           Ha Hin).
Defined.

Lemma analyze_market_needs_100_bars_witness :
  (100 <= List.length (hourly_window 100))%nat
  /\ (exists snapshot,
        Strategy.analyze_market forex_config "None" 0 (hourly_window 100)
        = Ok (Some snapshot))
  /\ (List.length (hourly_window 99) < 100)%nat
  /\ Strategy.analyze_market forex_config "None" 0 (hourly_window 99) = Ok None.
Proof.
  assert (H100 : (100 <= List.length (hourly_window 100))%nat)
    by (vm_compute; lia).
  assert (H99 : (List.length (hourly_window 99) < 100)%nat)
    by (vm_compute; lia).
  split; [exact H100|]. split.
  - exact (proj1 (@StrategyFacts.analyze_market_needs_100_bars forex_config
                    "None" 0 (hourly_window 100)) H100).
  - split; [exact H99|].
    exact (proj2 (@StrategyFacts.analyze_market_needs_100_bars forex_config
                    "None" 0 (hourly_window 99)) H99).
Defined.

(** A second entry for ES, already open, is turned down: once by the
    rejection rule, once as the call that follows an accepted one. *)
Lemma add_position_rejects_witness :
  Risk.entry_rejected one_open_position "ES" 2
  /\ Risk.add_position one_open_position 5 "ES" 2 4510 4490 None "LONG"
     = (one_open_position, false)
  /\ Risk.add_position (Risk.init 100000) 0 "ES" 1 4500 4480 (Some 4510) "LONG"
     = (one_open_position, true)
  /\ Risk.add_position one_open_position 9 "ES" 3 4520 4500 None "SHORT"
     = (one_open_position, false).
Proof.
  assert (Hrej : Risk.entry_rejected one_open_position "ES" 2)
    by (right; left; vm_compute; reflexivity).
  assert (Hacc : Risk.add_position (Risk.init 100000) 0 "ES" 1 4500 4480
                   (Some 4510) "LONG" = (one_open_position, true))
    by (vm_compute; reflexivity).
  split; [exact Hrej|]. split; [|split; [exact Hacc|]].
  - exact (proj1 (@RiskFacts.add_position_rejects one_open_position 5 "ES" 2
                    4510 4490 None "LONG") Hrej).
  - exact (proj2 (@RiskFacts.add_position_rejects (Risk.init 100000) 0 "ES" 1
                    4500 4480 (Some 4510) "LONG")
                 one_open_position Hacc 9%Z 3%Z 4520 4500 None "SHORT").
Defined.

(** With 2000 dollars of unrealized loss the drawdown of the
    specification is beyond the limit of 1500, yet the entry in NQ is
    accepted: the code's drawdown counts realized losses only. *)
Lemma unrealized_drawdown_is_not_counted :
  Risk.spec_drawdown losing_open_position == 2000
  /\ Risk.spec_entry_rejected losing_open_position "NQ" 1
  /\ Risk.initial_capital losing_open_position
     - Risk.current_capital losing_open_position == 0
  /\ snd (Risk.add_position losing_open_position 1 "NQ" 1 15000 14900 None
            "LONG") = true
  /\ ~ (Risk.spec_entry_rejected losing_open_position "NQ" 1 ->
        Risk.add_position losing_open_position 1 "NQ" 1 15000 14900 None
          "LONG" = (losing_open_position, false)).
Proof.
  assert (Hd : Risk.spec_drawdown losing_open_position == 2000)
    by (vm_compute; reflexivity).
  assert (Hr : Risk.spec_entry_rejected losing_open_position "NQ" 1).
  { right; right; left. rewrite Hd. vm_compute. discriminate. }
  split; [exact Hd|]. split; [exact Hr|].
  split; [vm_compute; reflexivity|].
  split; [vm_compute; reflexivity|].
  intro H. specialize (H Hr).
  apply (f_equal snd) in H. vm_compute in H. discriminate H.
Qed.

(** Closing NQ while only ES is open changes nothing. *)
Lemma close_position_without_position_witness :
  Config.mem "NQ" (Risk.keys (Risk.positions one_open_position)) = false
  /\ Risk.close_position one_open_position 7 "NQ" 15000 "MANUAL"
     = Ok (one_open_position, None).
Proof.
  assert (H : Config.mem "NQ" (Risk.keys (Risk.positions one_open_position))
              = false) by (vm_compute; reflexivity).
  split; [exact H|].
  exact (@RiskFacts.close_position_without_position one_open_position 7 "NQ"
           15000 "MANUAL" H).
Defined.

(** A log with one winning trade reports the raw float infinity. *)
Lemma profit_factor_is_raw_infinity :
  Risk.trade_history one_winning_trade <> []
  /\ Forall (fun t => 0 <= Risk.realized_pnl t)
            (Risk.trade_history one_winning_trade)
  /\ exists m,
       Risk.get_performance_metrics one_winning_trade = Ok (Some m)
       /\ Risk.profit_factor m = NpFloat.PInf
       /\ NpFloat.is_finite (Risk.profit_factor m) = false.
Proof.
  split; [vm_compute; discriminate|].
  split; [vm_compute; repeat constructor; discriminate|].
  eexists. split; [vm_compute; reflexivity|]. split; reflexivity.
Qed.

Lemma profit_factor_without_losses_witness :
  Risk.trade_history one_winning_trade <> []
  /\ Forall (fun t => 0 <= Risk.realized_pnl t)
            (Risk.trade_history one_winning_trade)
  /\ ~ Risk.initial_capital one_winning_trade == 0
  /\ exists m,
       Risk.get_performance_metrics one_winning_trade = Ok (Some m)
       /\ Risk.profit_factor m = NpFloat.PInf
       /\ NpFloat.is_finite (Risk.profit_factor m) = false
       /\ Risk.average_loss m = 0.
Proof.
  assert (Hne : Risk.trade_history one_winning_trade <> [])
    by (vm_compute; discriminate).
  assert (Hpos : Forall (fun t => 0 <= Risk.realized_pnl t)
                        (Risk.trade_history one_winning_trade))
    by (vm_compute; repeat constructor; discriminate).
  assert (Hcap : ~ Risk.initial_capital one_winning_trade == 0)
    by (vm_compute; discriminate).
  split; [exact Hne|]. split; [exact Hpos|]. split; [exact Hcap|].
  exact (proj1 (@RiskFacts.profit_factor_without_losses one_winning_trade
                  Hne Hpos) Hcap).
Defined.


(** What that state is: the position is gone and the log holds its
    trade, closed on the stop at 4457 with 2150 lost. *)
Lemma stopped_position_is_closed :
  Risk.lookup "ES" (Risk.positions (Backtest.risk_manager open_es_managed))
  = None
  /\ map (option_map
            (fun t => (Risk.t_symbol t, Risk.exit_reason t,
                       Qred (Risk.exit_price t), Qred (Risk.realized_pnl t))))
       (Backtest.trade_log open_es_managed)
     = [Some ("ES"%string, "STOP_LOSS"%string, 4457, - 2150)].
Proof.
  split; vm_compute; reflexivity.
Qed.



(** *** The scenarios of the specification *)

(** Range 1.0800 to 1.0881 and price 1.0805: the discount zone. *)
Example scenario_discount_zone :
  Strategy.zone
    (Strategy._analyze_price_position (10805 # 10000)
       (PO3.mkDealingRange (10800 # 10000) (10881 # 10000) 0 0 0 81
          (10805 # 10000)))
  = "discount".
Proof. vm_compute. reflexivity. Qed.

(** Two upward gaps of 6 and 7 pips: a bullish continuation. *)
Example scenario_bullish_continuation :
  let c1 := Market.mkBar 0 (10800 # 10000) (10810 # 10000) (10795 # 10000)
              (10805 # 10000) 0 in
  let c2 := Market.mkBar 1 (10818 # 10000) (10825 # 10000) (10816 # 10000)
              (10822 # 10000) 0 in
  let c3 := Market.mkBar 2 (10834 # 10000) (10840 # 10000) (10832 # 10000)
              (10838 # 10000) 0 in
  let p := Hippo._analyze_hippo_pattern c1 c2 c3 in
  Hippo.is_hippo p = true
  /\ Hippo.pattern_type p = Some "bullish_continuation"
  /\ Hippo.gap1_size p == 6 /\ Hippo.gap2_size p == 7.
Proof. vm_compute. repeat split. Qed.

(** Risking 250 dollars on an ES stop 20 points away affords no contract. *)
Example scenario_size_zero :
  Risk.calculate_position_size "ES" 4500 4480 100000 = 0%Z
  /\ Risk.add_position (Risk.init 100000) 0 "ES" 0 4500 4480 None "LONG"
     = (Risk.init 100000, false).
Proof. vm_compute. split; reflexivity. Qed.

(** Equity 100k, 101k, 99k, 97k: a maximum drawdown of 4/101, about
    3.96 percent. *)
Example scenario_max_drawdown :
  match Performance._calculate_performance_metrics 100000
          (map (fun e => Backtest.mkEquityRow 0 e e 0 0)
               [100000; 101000; 99000; 97000])
          (Risk.init 100000) with
  | Ok metrics => option_map Performance.max_drawdown_pct metrics
  | Raised _ => None
  end
  = Some (NpFloat.Fin (-400000 # 101000)).
Proof. vm_compute. reflexivity. Qed.

(** *** The further properties at concrete inputs *)

Lemma update_keeps_excursions_witness :
  let rm' := Risk.run_call one_open_position (Risk.CallUpdate "ES" 4505) in
  Risk.update_position_pnl one_open_position "ES" 4505 = Ok rm'
  /\ Risk.lookup "ES" (Risk.positions one_open_position) = Some es_long
  /\ exists p',
       Risk.lookup "ES" (Risk.positions rm') = Some p'
       /\ Risk.max_adverse p' <= Risk.unrealized_pnl p'
          <= Risk.max_favorable p'.
Proof.
  intro rm'.
  assert (H1 : Risk.update_position_pnl one_open_position "ES" 4505 = Ok rm')
    by (vm_compute; reflexivity).
  assert (H2 : Risk.lookup "ES" (Risk.positions one_open_position)
               = Some es_long) by (vm_compute; reflexivity).
  split; [exact H1|]. split; [exact H2|].
  destruct (@RiskFacts.update_keeps_excursions one_open_position "ES" 4505
              rm' es_long H1 H2) as (p' & E & B & _).
  exists p'. split; [exact E | exact B].
Defined.

Lemma stop_and_target_exclusive_witness :
  Risk.lookup "ES" (Risk.positions one_open_position) = Some es_long
  /\ Risk.take_profit es_long = Some 4510
  /\ Risk.stop_loss es_long < 4510
  /\ Risk.check_stop_loss one_open_position "ES" 4470
     && Risk.check_take_profit one_open_position "ES" 4470 = false.
Proof.
  assert (H1 : Risk.lookup "ES" (Risk.positions one_open_position)
               = Some es_long) by (vm_compute; reflexivity).
  assert (H2 : Risk.take_profit es_long = Some 4510) by reflexivity.
  assert (H3 : Risk.stop_loss es_long < 4510) by (vm_compute; reflexivity).
  split; [exact H1|]. split; [exact H2|]. split; [exact H3|].
  exact (@RiskFacts.stop_and_target_exclusive one_open_position "ES" 4470
           es_long 4510 H1 H2 (or_introl (conj eq_refl H3))).
Defined.

Lemma other_direction_never_exits_witness :
  Risk.lookup "ES" (Risk.positions lowercase_position) = Some es_lower
  /\ Risk.direction es_lower <> "LONG"
  /\ Risk.direction es_lower <> "SHORT"
  /\ Risk.check_stop_loss lowercase_position "ES" 4000 = false
  /\ Risk.check_take_profit lowercase_position "ES" 5000 = false.
Proof.
  assert (H1 : Risk.lookup "ES" (Risk.positions lowercase_position)
               = Some es_lower) by (vm_compute; reflexivity).
  assert (H2 : Risk.direction es_lower <> "LONG")
    by (apply String.eqb_neq; reflexivity).
  assert (H3 : Risk.direction es_lower <> "SHORT")
    by (apply String.eqb_neq; reflexivity).
  split; [exact H1|]. split; [exact H2|]. split; [exact H3|]. split.
  - exact (proj1 (@RiskFacts.other_direction_never_exits lowercase_position
                    "ES" 4000 es_lower H1 H2 H3)).
  - exact (proj2 (@RiskFacts.other_direction_never_exits lowercase_position
                    "ES" 5000 es_lower H1 H2 H3)).
Defined.

Lemma open_then_close_witness :
  Risk.add_position (Risk.init 100000) 0 "ES" 1 4500 4480 (Some 4510) "LONG"
  = (one_open_position, true)
  /\ Config.mem "ES" Config.FUTURES_SYMBOLS = true
  /\ exists t rm2,
       Risk.close_position one_open_position 1 "ES" 4510 "TAKE_PROFIT"
       = Ok (rm2, Some t)
       /\ Risk.positions rm2 = []
       /\ Risk.current_capital rm2 == 100000 + Risk.realized_pnl t.
Proof.
  assert (H1 : Risk.add_position (Risk.init 100000) 0 "ES" 1 4500 4480
                 (Some 4510) "LONG" = (one_open_position, true))
    by (vm_compute; reflexivity).
  assert (H2 : Config.mem "ES" Config.FUTURES_SYMBOLS = true) by reflexivity.
  split; [exact H1|]. split; [exact H2|].
  destruct (@RiskFacts.open_then_close (Risk.init 100000) 0 "ES" 1 4500 4480
              (Some 4510) "LONG" one_open_position 1 4510 "TAKE_PROFIT"
              H1 (or_introl H2)) as (t & rm2 & E & P & _ & C & _).
  exists t, rm2. split; [exact E|]. split; [exact P|].
  rewrite C. reflexivity.
Defined.

Lemma unknown_symbol_cannot_close_witness :
  Risk.lookup "BTC" (Risk.positions unlisted_position) = Some btc_long
  /\ Config.mem "BTC" Config.FUTURES_SYMBOLS = false
  /\ Config.FOREX_SPECS "BTC" = None
  /\ Risk.update_position_pnl unlisted_position "BTC" 110 = Raised KeyError
  /\ Risk.close_position unlisted_position 1 "BTC" 110 "MANUAL"
     = Raised KeyError.
Proof.
  assert (H1 : Risk.lookup "BTC" (Risk.positions unlisted_position)
               = Some btc_long) by (vm_compute; reflexivity).
  assert (H2 : Config.mem "BTC" Config.FUTURES_SYMBOLS = false)
    by reflexivity.
  assert (H3 : Config.FOREX_SPECS "BTC" = None) by reflexivity.
  split; [exact H1|]. split; [exact H2|]. split; [exact H3|].
  exact (@RiskFacts.unknown_symbol_cannot_close unlisted_position 1 "BTC" 110
           "MANUAL" btc_long H1 H2 H3).
Defined.

Lemma performance_metrics_consistent_witness :
  let rm := Risk.run_calls (Risk.init 100000) round_trip in
  Risk.trade_history rm <> []
  /\ ~ Risk.initial_capital rm == 0
  /\ exists m,
       Risk.get_performance_metrics rm = Ok (Some m)
       /\ Risk.total_trades m = 1%nat
       /\ 0 <= Risk.win_rate m <= 1.
Proof.
  intro rm.
  assert (H : Risk.trade_history rm <> []) by (vm_compute; discriminate).
  assert (Hcap : ~ Risk.initial_capital rm == 0)
    by (vm_compute; discriminate).
  split; [exact H|]. split; [exact Hcap|].
  destruct (proj1 (@RiskFacts.performance_metrics_consistent rm H) Hcap)
    as (m & E & T & W & _).
  exists m. split; [exact E|]. split; [exact T | exact W].
Defined.

Lemma price_position_bounds_witness :
  let r := Strategy.dealing_range quiet_snapshot in
  PO3.range_low r < PO3.range_high r
  /\ PO3.range_low r <= 100 <= PO3.range_high r
  /\ 0 <= Strategy.position_percentage
            (Strategy._analyze_price_position 100 r) <= 1
  /\ 0 <= Strategy.strength (Strategy._analyze_price_position 100 r) <= 1.
Proof.
  intro r.
  assert (H : PO3.range_low r < PO3.range_high r)
    by (vm_compute; reflexivity).
  assert (Hin : PO3.range_low r <= 100 <= PO3.range_high r)
    by (split; vm_compute; discriminate).
  split; [exact H|]. split; [exact Hin|].
  pose proof (@StrategyFacts.price_position_bounds 100 r H) as B.
  cbv zeta in B. exact (proj1 B Hin).
Defined.

Lemma current_phase_within_session_witness :
  let b := index_bar (6 * 3600) in
  let london := AMD.mkSession (Market.time 5 0) (Market.time 11 0) 6
                  AMD.manipulation in
  In (AMD.london, london) AMD.session_times
  /\ AMD.phase london
     = Strategy._identify_current_amd_phase
         (Market.time_of (Market.timestamp b))
  /\ AMD.in_session AMD.london london b = true.
Proof.
  intros b london.
  assert (H1 : In (AMD.london, london) AMD.session_times)
    by (right; left; reflexivity).
  assert (H2 : AMD.phase london
               = Strategy._identify_current_amd_phase
                   (Market.time_of (Market.timestamp b)))
    by (vm_compute; reflexivity).
  split; [exact H1|]. split; [exact H2|].
  pose proof (@StrategyFacts.current_phase_within_session b) as B.
  cbv zeta in B. exact (proj1 B AMD.london london H1 H2).
Defined.

Lemma filter_signals_ranked_witness :
  exists s,
    In s (Strategy._filter_signals index_config
            (Strategy.candidates index_snapshot) index_snapshot)
    /\ exists s0,
         In s0 (Strategy.candidates index_snapshot)
         /\ 6 # 10 <= Strategy._calculate_confluence s0 index_snapshot.
Proof.
  destruct (Strategy._filter_signals index_config
              (Strategy.candidates index_snapshot) index_snapshot)
    as [|s rest] eqn:E; [vm_compute in E; discriminate E|].
  exists s. split; [left; reflexivity|].
  pose proof (@StrategyFacts.filter_signals_ranked index_config
                (Strategy.candidates index_snapshot) index_snapshot) as B.
  cbv zeta in B. rewrite E in B.
  destruct (proj2 (proj2 B) s (or_introl eq_refl)) as (s0 & Hin & _ & Hc & _).
  exists s0. split; [exact Hin | exact Hc].
Defined.

Lemma generate_signals_bounded_witness :
  (List.length (hourly_window 50) < 100)%nat
  /\ Strategy.generate_signals forex_config "None" 0 (hourly_window 50)
     = Ok [].
Proof.
  assert (H : (List.length (hourly_window 50) < 100)%nat)
    by (vm_compute; lia).
  split; [exact H|].
  destruct (@StrategyFacts.generate_signals_bounded forex_config "None" 0
              (hourly_window 50)) as (out & E & _ & _ & _ & Hshort).
  rewrite E. f_equal. exact (Hshort H).
Defined.

Lemma goldbach_levels_monotone_witness :
  81 <= 162
  /\ exists t k l,
       In (t, k, l) (Goldbach.entries (Goldbach.calculate_goldbach_levels 162 81))
       /\ 81 <= Goldbach.price l <= 162.
Proof.
  assert (H : 81 <= 162) by lra.
  split; [exact H|].
  destruct (Goldbach.entries (Goldbach.calculate_goldbach_levels 162 81))
    as [|[[t k] l] rest] eqn:E; [vm_compute in E; discriminate E|].
  exists t, k, l.
  assert (Hin : In (t, k, l)
                  (Goldbach.entries (Goldbach.calculate_goldbach_levels 162 81)))
    by (rewrite E; left; reflexivity).
  split; [left; reflexivity|].
  exact (proj1 (@GoldbachFacts.goldbach_levels_monotone 162 81 H
                  t k l t k l Hin Hin)).
Defined.

Lemma institutional_levels_nested_witness :
  let r := Strategy.dealing_range quiet_snapshot in
  PO3.range_low r <= PO3.range_high r
  /\ exists levels,
       Goldbach.calculate_institutional_levels r = Some levels
       /\ List.length levels = 9%nat.
Proof.
  intro r.
  assert (H : PO3.range_low r <= PO3.range_high r)
    by (vm_compute; discriminate).
  split; [exact H|].
  destruct (@GoldbachFacts.institutional_levels_nested r)
    as (a1 & a2 & a3 & a4 & a5 & a6 & a7 & a8 & a9 & E & _).
  eexists. split; [exact E | reflexivity].
Defined.

Lemma nearest_level_is_nearest_witness :
  let levels := Goldbach.calculate_goldbach_levels 162 81 in
  exists nl,
    Goldbach.get_nearest_goldbach_level 100 levels None = Some nl
    /\ In (Goldbach.level_type nl, Goldbach.percentage_key nl,
           Goldbach.level nl) (Goldbach.entries levels).
Proof.
  intro levels.
  pose proof (@GoldbachFacts.nearest_level_is_nearest 100 levels None) as B.
  destruct (Goldbach.get_nearest_goldbach_level 100 levels None)
    as [nl|] eqn:E; [|vm_compute in E; discriminate E].
  exists nl. split; [reflexivity | exact (proj1 B)].
Defined.

Lemma other_asset_range_contains_price_witness :
  (0 < 81)%Z
  /\ String.eqb "indices" "forex" = false
  /\ 0 <= 4457
  /\ (PyNum.py_int 4457 + 81 <= 2 ^ 52)%Z
  /\ exists r,
       PO3.calculate_dealing_range 4457 81 "indices" = Some r
       /\ PO3.range_low r <= 4457 < PO3.range_high r
       /\ PO3.levels_ordered r.
Proof.
  assert (H1 : (0 < 81)%Z) by lia.
  assert (H2 : String.eqb "indices" "forex" = false) by reflexivity.
  assert (H3 : 0 <= 4457) by lra.
  assert (H4 : (PyNum.py_int 4457 + 81 <= 2 ^ 52)%Z)
    by (vm_compute; discriminate).
  split; [exact H1|]. split; [exact H2|]. split; [exact H3|].
  split; [exact H4|].
  destruct (@PO3Facts.other_asset_range_contains_price 4457 81 "indices"
              H1 H2 H3 H4) as (r & E & _ & _ & B & L).
  exists r. split; [exact E|]. split; [exact B | exact L].
Defined.

Lemma optimal_po3_is_closest_witness :
  (List.length (hourly_window 4) < 5)%nat
  /\ PO3.get_optimal_po3_size (hourly_window 4) "None" 60 = 27%Z.
Proof.
  assert (H : (List.length (hourly_window 4) < 5)%nat) by (vm_compute; lia).
  split; [exact H|].
  exact (proj1 (proj2 PO3Facts.optimal_po3_is_closest)
           (hourly_window 4) "None" 60%nat H).
Defined.

Lemma next_po3_level_steps_witness :
  In 27%Z PO3.po3_numbers
  /\ 27%Z <> 177147%Z
  /\ PO3.get_next_po3_level 27 "up" = 81%Z
  /\ PO3.get_next_po3_level (PO3.get_next_po3_level 27 "up") "down" = 27%Z.
Proof.
  assert (H1 : In 27%Z PO3.po3_numbers) by (do 2 right; left; reflexivity).
  assert (H2 : 27%Z <> 177147%Z) by discriminate.
  split; [exact H1|]. split; [exact H2|].
  destruct (proj2 PO3Facts.next_po3_level_steps 27%Z H1) as (U & _ & R).
  split; [exact U | exact (R H2)].
Defined.

Lemma stop_runs_sound_witness :
  let r := PO3.mkStopRun 3600 "upper_wick" 9 9 109 in
  In r (PO3.identify_po3_stop_runs wick_window "None" 27 3)
  /\ In (PO3.run_po3_size r) [9; 27; 81; 243]%Z
  /\ Qabs (PO3.run_size r - inject_Z (PO3.run_po3_size r))
     < inject_Z (PO3.run_po3_size r) * (1 # 10).
Proof.
  intro r.
  assert (H : In r (PO3.identify_po3_stop_runs wick_window "None" 27 3))
    by (vm_compute; left; reflexivity).
  split; [exact H|].
  destruct (proj1 (proj2 (@PO3Facts.stop_runs_sound wick_window "None" 27%Z
                            3%nat)) r H) as (S & T & _).
  split; [exact S | exact T].
Defined.

Lemma range_expansion_threshold_witness :
  (10 <= List.length (hourly_window 10))%nat
  /\ (9 <= List.length (filter (PO3.outside_range tight_range)
                               (Market.tail 10 (hourly_window 10))))%nat
  /\ PO3.check_range_expansion (hourly_window 10) tight_range (8 # 10) = true.
Proof.
  assert (H1 : (10 <= List.length (hourly_window 10))%nat)
    by (vm_compute; lia).
  assert (H2 : (9 <= List.length (filter (PO3.outside_range tight_range)
                                    (Market.tail 10 (hourly_window 10))))%nat)
    by (vm_compute; lia).
  split; [exact H1|]. split; [exact H2|].
  exact (proj2 (proj2 (proj2 (@PO3Facts.range_expansion_threshold
                                (hourly_window 10) tight_range)) H1) H2).
Defined.

Lemma daily_cycle_phases_witness :
  AMD.identify_daily_amd_cycle hourly_day None = Ok (Some hourly_cycle)
  /\ In (index_bar (6 * 3600)) hourly_day
  /\ Market.date_of (Market.timestamp (index_bar (6 * 3600)))
     = AMD.date hourly_cycle
  /\ exists p,
       In (index_bar (6 * 3600)) (AMD.data (AMD.get_phase hourly_cycle p)).
Proof.
  assert (H1 : AMD.identify_daily_amd_cycle hourly_day None
               = Ok (Some hourly_cycle)) by (vm_compute; reflexivity).
  assert (H2 : In (index_bar (6 * 3600)) hourly_day)
    by (vm_compute; do 6 right; left; reflexivity).
  assert (H3 : Market.date_of (Market.timestamp (index_bar (6 * 3600)))
               = AMD.date hourly_cycle) by (vm_compute; reflexivity).
  split; [exact H1|]. split; [exact H2|]. split; [exact H3|].
  exact (proj1 (proj2 (@AMDFacts.daily_cycle_phases hourly_day None
                         hourly_cycle H1))
           (index_bar (6 * 3600)) H2 H3).
Defined.

Lemma manipulation_levels_ordered_witness :
  (forall b, In b (hourly_window 3) -> Market.low b <= Market.high b)
  /\ exists a,
       AMD.analyze_manipulation_phase (hourly_window 3) = Some a
       /\ StronglySorted Qle (AMD.key_levels a).
Proof.
  assert (H : forall b, In b (hourly_window 3)
                        -> Market.low b <= Market.high b).
  { intros b Hb. vm_compute in Hb.
    destruct Hb as [<- | [<- | [<- | []]]]; vm_compute; discriminate. }
  split; [exact H|].
  destruct (AMD.analyze_manipulation_phase (hourly_window 3)) as [a|] eqn:E;
    [|vm_compute in E; discriminate E].
  exists a. split; [reflexivity|].
  destruct (proj2 (@AMDFacts.manipulation_levels_ordered (hourly_window 3))
              a E) as (_ & _ & _ & S).
  exact (proj1 (proj2 (S H))).
Defined.

Lemma fractal_amd_splits_frame_witness :
  (3 <= List.length (hourly_window 7))%nat
  /\ map (fun f => (AMD.fractal_phase f, List.length (AMD.fractal_data f)))
         (AMD.identify_fractal_amd (hourly_window 7) "manipulation" 1)
     = [ (AMD.accumulation, 2%nat); (AMD.manipulation, 2%nat);
         (AMD.distribution, 3%nat) ].
Proof.
  assert (H : (3 <= List.length (hourly_window 7))%nat) by (vm_compute; lia).
  split; [exact H|].
  exact (proj1 (proj2 (proj2 (@AMDFacts.fractal_amd_splits_frame
                                (hourly_window 7) "manipulation" 1%Z))) H).
Defined.

Lemma amd_timing_windows_witness :
  let d := AMD.timing_distribution (AMD.calculate_amd_timing 0 10) in
  (10 < 15)%Z /\ (AMD.timing_end d < AMD.timing_start d)%Z.
Proof.
  intro d.
  assert (H : (10 < 15)%Z) by lia.
  split; [exact H|].
  pose proof (@AMDFacts.amd_timing_windows 0%Z 10%Z) as B. cbv zeta in B.
  exact (proj2 (proj2 (proj2 (proj2 (proj2 (proj2 B))))) H).
Defined.

Lemma equity_rows_follow_data_witness :
  exists events results,
    Backtest._simulate_trading silent_strategy no_entry_exit 0
      (Risk.init 100000) es_data
    = (events, Ok results)
    /\ map Backtest.row_timestamp (Backtest.res_equity_history results)
       = [(19 * 3600)%Z]
    /\ Forall Backtest.equity_balanced (Backtest.res_equity_history results).
Proof.
  destruct (Backtest._simulate_trading silent_strategy no_entry_exit 0
              (Risk.init 100000) es_data) as [events [results|e]] eqn:E;
    [|vm_compute in E; discriminate E].
  exists events, results. split; [reflexivity|].
  destruct (@BacktestFacts.equity_rows_follow_data silent_strategy
              no_entry_exit 0%Z (Risk.init 100000) es_data events results E)
    as (T & _ & B).
  split; [rewrite T; vm_compute; reflexivity | exact B].
Defined.

Lemma drawdown_within_bounds_witness :
  flat_equity <> []
  /\ Forall (fun row => 0 < Backtest.equity row) flat_equity
  /\ exists m d,
       Performance._calculate_performance_metrics 100000 flat_equity
         (Risk.init 100000) = Ok (Some m)
       /\ Performance.max_drawdown_pct m = NpFloat.Fin d
       /\ -100 < d /\ d <= 0.
Proof.
  assert (H1 : flat_equity <> []) by (vm_compute; discriminate).
  assert (H2 : Forall (fun row => 0 < Backtest.equity row) flat_equity)
    by (vm_compute; repeat constructor).
  split; [exact H1|]. split; [exact H2|].
  pose proof (@PerformanceFacts.drawdown_within_bounds 100000 flat_equity
                (Risk.init 100000) H1 H2) as B.
  change (Risk.get_performance_metrics (Risk.init 100000)) with
    (@Ok (option Risk.PerformanceMetrics) None) in B.
  cbv beta iota in B.
  destruct B as (m & d & E & _ & D & L & U & _).
  exists m, d. auto.
Defined.

Lemma hippo_patterns_well_formed_witness :
  exists p,
    In p (Hippo.identify_hippo_patterns gapped_candles)
    /\ Hippo.is_hippo p = true
    /\ Hippo.candle_index p <> None
    /\ Hippo.hidden_level p <> None.
Proof.
  destruct (Hippo.identify_hippo_patterns gapped_candles) as [|p rest] eqn:E;
    [vm_compute in E; discriminate E|].
  exists p.
  assert (Hin : In p (Hippo.identify_hippo_patterns gapped_candles))
    by (rewrite E; left; reflexivity).
  split; [left; reflexivity|].
  destruct (proj2 (@HippoFacts.hippo_patterns_well_formed gapped_candles)
              p Hin)
    as (i & c1 & c2 & c3 & _ & _ & _ & _ & I & _ & Hh & _ & _ & _ & _ & Hl
        & _).
  split; [exact Hh|]. split; [rewrite I; discriminate | exact Hl].
Defined.

Lemma lookback_plan_of_identified_witness :
  exists plan,
    Hippo.generate_lookback_trade_plan gapped_candles
      (Hippo.identify_hippo_patterns gapped_candles) None
    = Some plan
    /\ List.length (Hippo.trade_setups plan) = 1%nat.
Proof.
  pose proof (@HippoFacts.lookback_plan_of_identified gapped_candles None)
    as B.
  cbv zeta in B. destruct B as (plan & E & _ & F).
  exists plan. split; [exact E|].
  apply Forall2_length in F. rewrite <- F. vm_compute. reflexivity.
Defined.

(** *** The capital after two round trips, in binary64 *)

Section Binary64.

Import PrimFloat.
Local Open Scope float_scope.

#[local] Set Warnings "-inexact-float".

(** After two EURUSD round trips the capital is 100000.20000000001 while
    the initial capital plus the sum of the two realized amounts is
    100000.2: the equality of the claim fails, as a Python [==] and as
    an identity of values. *)
Lemma capital_differs_from_sum_in_binary64 :
  let rm := Fixtures64.after_two_round_trips in
  map Risk64.realized_pnl (Risk64.trade_history rm)
  = [0.099999999999988987; 0.099999999999988987]
  /\ Risk64.positions rm = []
  /\ Risk64.current_capital rm = 100000.20000000001
  /\ Risk64.initial_capital rm + Risk64.realized_total rm = 100000.2
  /\ (Risk64.current_capital rm
      =? Risk64.initial_capital rm + Risk64.realized_total rm) = false
  /\ ~ (forall capital calls,
          let rm := Risk64.run_calls (Risk64.init capital) calls in
          Risk64.current_capital rm
          = Risk64.initial_capital rm + Risk64.realized_total rm).
Proof.
  cbv zeta.
  split; [vm_compute; reflexivity|].
  split; [vm_compute; reflexivity|].
  split; [vm_compute; reflexivity|].
  split; [vm_compute; reflexivity|].
  split; [vm_compute; reflexivity|].
  intro H.
  specialize (H 100000 Fixtures64.two_round_trips).
  vm_compute in H. discriminate H.
Qed.

End Binary64.

End Examples.
